(** * Verification of the Claude session-log parser

    Shallow embedding of [src/lib/claude-session-parser.ts]: the path decoder,
    the size-guarded file reader, the metadata pass of [extractSessionInfo],
    the materializer [parseClaudeSession] with its two message
    reconstructors, and the enumerator [listClaudeSessions].

    The parser works on values produced by [JSON.parse], whose TypeScript
    types are only casts; the embedding therefore keeps the dynamic JavaScript
    values and the exceptions that property access, conversion to string and
    the file system can raise.

    Layout: JavaScript strings and values; the host (engine and Node
    built-ins) as a class; the data model; statements over the local
    variables of the line loop; the parser itself (section [Parser]); an
    executable host and some session stores for the examples; then the
    proofs: frame rules, the effect of one line and of the loop on each
    variable, and the claims C1 to C10 of the specification, stated for
    every host, with their examples on the executable one.

    The development then goes beyond the claims: further properties of the
    parser (X1 to X19), the import route that calls it and the listing
    route (X20 to X24, with X12 and X13), and the size shown in the import
    dialog (X25), with their notions placed after the session stores and
    their proofs at the end. *)

From Stdlib Require Import String Ascii List ZArith Lia Bool Permutation.
Import ListNotations.
Local Open Scope string_scope.
Local Open Scope list_scope.

Set Implicit Arguments.

(* ================================================================== *)
(** * JavaScript strings

    A JavaScript string is a sequence of UTF-16 code units.  The model uses
    [string]; each [ascii] stands for one code unit in the range 0..255. *)
(* ================================================================== *)

Module JsString.

Definition LF : ascii := "010"%char.
Definition DQUOTE : ascii := "034"%char.

(** [s.startsWith(p)] *)
Fixpoint startsWith (s p : string) {struct p} : bool :=
  match p with
  | EmptyString => true
  | String c p' =>
      match s with
      | EmptyString => false
      | String d s' => Ascii.eqb c d && startsWith s' p'
      end
  end.

Fixpoint drop (n : nat) (s : string) : string :=
  match n with
  | O => s
  | S n' => match s with EmptyString => EmptyString | String _ s' => drop n' s' end
  end.

(** [s.slice(0, n)] for [0 <= n] *)
Fixpoint slice0 (n : nat) (s : string) : string :=
  match n with
  | O => EmptyString
  | S n' => match s with EmptyString => EmptyString | String c s' => String c (slice0 n' s') end
  end.

(** [s.endsWith(suffix)] *)
Definition endsWith (s suffix : string) : bool :=
  (String.length suffix <=? String.length s)%nat
  && String.eqb (drop (String.length s - String.length suffix) s) suffix.

(** [s.replace(pat, rep)] with a string pattern: only the first occurrence
    is replaced.  ([rep] holds no dollar sign in this program.) *)
Fixpoint replace (pat rep s : string) : string :=
  if startsWith s pat then rep ++ drop (String.length pat) s
  else match s with
       | EmptyString => EmptyString
       | String c s' => String c (replace pat rep s')
       end.

(** [s.replace(/^c/, rep)]: the anchored regular expression of one literal
    character. *)
Definition replace_anchored (c : ascii) (rep : string) (s : string) : string :=
  match s with
  | String d s' => if Ascii.eqb d c then rep ++ s' else s
  | EmptyString => s
  end.

(** [s.replace(/c/g, rep)]: the global regular expression of one literal
    character. *)
Fixpoint replace_global (c : ascii) (rep : string) (s : string) : string :=
  match s with
  | EmptyString => EmptyString
  | String d s' =>
      (if Ascii.eqb d c then rep else String d EmptyString) ++ replace_global c rep s'
  end.

(** [s.split(sep)] for a separator of one character. *)
Fixpoint split (sep : ascii) (s : string) : list string :=
  match s with
  | EmptyString => [EmptyString]
  | String c s' =>
      if Ascii.eqb c sep then EmptyString :: split sep s'
      else match split sep s' with
           | [] => [String c EmptyString]
           | h :: t => String c h :: t
           end
  end.

(** White space and line terminators of ECMAScript that lie in 0..255:
    TAB, LF, VT, FF, CR, SP and NBSP. *)
Definition isWhiteSpace (c : ascii) : bool :=
  let n := nat_of_ascii c in
  ((9 <=? n) && (n <=? 13) || (n =? 32) || (n =? 160))%nat.

Fixpoint trimStart (s : string) : string :=
  match s with
  | String c s' => if isWhiteSpace c then trimStart s' else s
  | EmptyString => EmptyString
  end.

Fixpoint trimEnd (s : string) : string :=
  match s with
  | EmptyString => EmptyString
  | String c s' =>
      match trimEnd s' with
      | EmptyString => if isWhiteSpace c then EmptyString else String c EmptyString
      | t => String c t
      end
  end.

(** [s.trim()] *)
Definition trim (s : string) : string := trimEnd (trimStart s).

(** Truthiness of a string: it is not empty. *)
Definition nonEmpty (s : string) : bool :=
  match s with EmptyString => false | _ => true end.

(** [parts.join(sep)] on strings. *)
Fixpoint join (sep : string) (parts : list string) : string :=
  match parts with
  | [] => EmptyString
  | [p] => p
  | p :: rest => p ++ sep ++ join sep rest
  end.

Fixpoint map (f : ascii -> ascii) (s : string) : string :=
  match s with
  | EmptyString => EmptyString
  | String c s' => String (f c) (map f s')
  end.

End JsString.

(* ================================================================== *)
(** * Exceptions and the result of a computation that can throw *)
(* ================================================================== *)

Inductive exn : Type :=
| TypeError       (* property of null, value that is not a function, ... *)
| SyntaxError     (* JSON.parse *)
| RangeError      (* toISOString of an invalid Date *)
| SystemError.    (* a failing file-system call: ENOENT, EACCES, EISDIR, ... *)

Inductive result (A : Type) : Type :=
| Ok (a : A)
| Throw (e : exn).

Arguments Ok {A} a.
Arguments Throw {A} e.

Definition rbind {A B} (r : result A) (k : A -> result B) : result B :=
  match r with
  | Ok a => k a
  | Throw e => Throw e
  end.

Declare Scope result_scope.
Delimit Scope result_scope with result.
Notation "x <- c ;; k" := (rbind c (fun x => k))
  (at level 61, c at next level, right associativity) : result_scope.

(** A [try { ... } catch { return d }] around a computation. *)
Definition catch_with {A} (d : A) (r : result A) : A :=
  match r with
  | Ok a => a
  | Throw _ => d
  end.

(* ================================================================== *)
(** * JavaScript values as [JSON.parse] builds them

    A number literal is kept as the decimal [m * 10^e] it denotes; the
    JavaScript number is the double nearest to it.  An object keeps its
    members in source order; a repeated key is read at its last binding. *)
(* ================================================================== *)

#[warnings="-register-all"]
Inductive jsval : Type :=
| JUndefined
| JNull
| JBool (b : bool)
| JNumber (m e : Z)
| JString (s : string)
| JArray (elems : list jsval)
| JObject (members : list (string * jsval)).

Module Js.

(** The double nearest to [m * 10^e] is zero exactly when
    [|m * 10^e| <= 2^-1075] (ties go to the even neighbour, which is 0). *)
Definition number_is_zero (m e : Z) : bool :=
  if (m =? 0)%Z then true
  else if (0 <=? e)%Z then false
  else (Z.abs m * 2 ^ 1075 <=? 10 ^ (- e))%Z.

(** ToBoolean *)
Definition truthy (v : jsval) : bool :=
  match v with
  | JUndefined | JNull => false
  | JBool b => b
  | JNumber m e => negb (number_is_zero m e)
  | JString s => JsString.nonEmpty s
  | JArray _ | JObject _ => true
  end.

(** [a || b] *)
Definition or (a b : jsval) : jsval := if truthy a then a else b.

Fixpoint lookup (k : string) (members : list (string * jsval)) : option jsval :=
  match members with
  | [] => None
  | (k', v) :: rest =>
      match lookup k rest with
      | Some v' => Some v'
      | None => if String.eqb k k' then Some v else None
      end
  end.

Definition has_key (k : string) (members : list (string * jsval)) : bool :=
  match lookup k members with Some _ => true | None => false end.

(** [v.k] for the property names this program reads (timestamp, type, cwd,
    gitBranch, version, message, content, text, id, name, input,
    tool_use_id, is_error): none of them is defined on the prototype of a
    string, number, boolean, array or plain object, so on those the read
    gives the own member or [undefined]; on [null] and [undefined] it
    throws. *)
Definition Get (v : jsval) (k : string) : result jsval :=
  match v with
  | JUndefined | JNull => Throw TypeError
  | JObject members =>
      Ok (match lookup k members with Some x => x | None => JUndefined end)
  | _ => Ok JUndefined
  end.

(** [v?.k] *)
Definition OptGet (v : jsval) (k : string) : result jsval :=
  match v with
  | JUndefined | JNull => Ok JUndefined
  | _ => Get v k
  end.

(** [v === s] for a string literal [s] *)
Definition is_string (v : jsval) (s : string) : bool :=
  match v with
  | JString t => String.eqb t s
  | _ => false
  end.

(** The callback [b => b.type === tag] of [find] and [filter]. *)
Definition type_is (tag : string) (b : jsval) : result bool :=
  (ty <- Get b "type" ;; Ok (is_string ty tag))%result.

(** [arr.find(p)]: the first element on which [p] holds, [undefined] when
    there is none; an exception of [p] ends the search. *)
Fixpoint find (p : jsval -> result bool) (arr : list jsval) : result jsval :=
  match arr with
  | [] => Ok JUndefined
  | x :: rest =>
      (b <- p x ;; if (b : bool) then Ok x else find p rest)%result
  end.

(** [arr.filter(p)] *)
Fixpoint filter (p : jsval -> result bool) (arr : list jsval) : result (list jsval) :=
  match arr with
  | [] => Ok []
  | x :: rest =>
      (b <- p x ;;
       kept <- filter p rest ;;
       Ok (if (b : bool) then x :: kept else kept))%result
  end.

(** [arr.map(f)] *)
Fixpoint map (f : jsval -> result jsval) (arr : list jsval) : result (list jsval) :=
  match arr with
  | [] => Ok []
  | x :: rest =>
      (y <- f x ;; ys <- map f rest ;; Ok (y :: ys))%result
  end.

(** [v.slice(0, n)]: defined on strings and arrays; on any other truthy
    value [v.slice] is not a function. *)
Definition slice0 (n : nat) (v : jsval) : result jsval :=
  match v with
  | JString s => Ok (JString (JsString.slice0 n s))
  | JArray l => Ok (JArray (firstn n l))
  | _ => Throw TypeError
  end.

End Js.

(* ================================================================== *)
(** * The host: built-ins of the JavaScript engine and of Node

    These are not code of the repository.  The development is parametric in
    them; a concrete instance is given further down for the worked
    examples. *)
(* ================================================================== *)

Class Host : Type := {
  (** [JSON.parse(text)]; [None] is a thrown SyntaxError. *)
  JSON_parse : string -> option jsval;
  (** Number::toString of the double nearest to [m * 10^e]. *)
  Number_toString : Z -> Z -> string;
  (** The time value of [new Date(x)] for the number [x] nearest to
      [m * 10^e]; [None] is NaN. *)
  Number_timeClip : Z -> Z -> option Z;
  (** [Date.parse(s)]; [None] is NaN. *)
  Date_parse : string -> option Z;
  (** [d.toISOString()] for the date whose time value is [t]. *)
  Date_toISOString : Z -> string;
  (** [os.homedir()] *)
  os_homedir : string
}.

(** ** The file system, as one call of the parser observes it

    Each field is the outcome of one Node call on a path; [None] is a thrown
    system error.  The four are independent, so a file that exists and then
    cannot be read (removed meanwhile, no permission, a directory) is a
    value of this type. *)

Record Dirent : Type := { name : string; isDirectory : bool }.

Record Stats : Type := {
  size : Z;        (* bytes *)
  birthtime : Z;   (* the milliseconds since the epoch the Date is made from *)
  mtime : Z
}.

Record FileSystem : Type := {
  existsSync : string -> bool;
  (* with [withFileTypes] the entries, without it their names *)
  readdirSync : string -> option (list Dirent);
  statSync : string -> option Stats;
  readFileSync : string -> option string   (* decoded as utf-8 *)
}.

(** The store in which the directory [dir] does not list the entry
    [file]; everything else is as in [fs]. *)
Definition without_file (fs : FileSystem) (dir file : string) : FileSystem :=
  {| existsSync := existsSync fs;
     readdirSync := fun p =>
       if String.eqb p dir
       then option_map (List.filter (fun d => negb (String.eqb (name d) file)))
                       (readdirSync fs p)
       else readdirSync fs p;
     statSync := statSync fs;
     readFileSync := readFileSync fs |}.

Definition fs_call {A} (r : option A) : result A :=
  match r with
  | Some a => Ok a
  | None => Throw SystemError
  end.

(** [path.join(a, b)] on POSIX.  Node also normalises the joined path; the
    file system resolves both spellings to the same file. *)
Definition path_join (a b : string) : string := a ++ "/" ++ b.

(** [path.basename(p)] on POSIX for a string [p]: the part after the last
    separator, trailing separators dropped. *)
Fixpoint strip_trailing_sep (p : string) : string :=
  match p with
  | EmptyString => EmptyString
  | String c p' =>
      match strip_trailing_sep p' with
      | EmptyString => if Ascii.eqb c "/" then EmptyString else String c EmptyString
      | t => String c t
      end
  end.

Fixpoint has_sep (p : string) : bool :=
  match p with
  | EmptyString => false
  | String c p' => Ascii.eqb c "/" || has_sep p'
  end.

Fixpoint last_component (p : string) : string :=
  match p with
  | EmptyString => EmptyString
  | String c p' =>
      if has_sep p' then last_component p'
      else if Ascii.eqb c "/" then p' else p
  end.

Definition posix_basename (p : string) : string :=
  last_component (strip_trailing_sep p).

(* ================================================================== *)
(** * Data model of the parser (lines 31-73 of the source) *)
(* ================================================================== *)

(** Modelled from the spec: the type [MessageContentBlock], imported from
    the application's types module, whose declaration is not among the
    sources.  Its variants are the [ContentBlock] union of the
    specification ([Text], [ToolUse], [ToolResult]), with the fields of the
    object literals that [parseUserMessage] and [parseAssistantMessage]
    build.  Fields read from the log keep the dynamic value found there. *)
Inductive MessageContentBlock : Type :=
| TextBlock (text : jsval)
| ToolUseBlock (id name input : jsval)
| ToolResultBlock (tool_use_id : jsval) (content : string) (is_error : jsval).

Inductive Role : Type := user | assistant.

Record ParsedMessage : Type := {
  role : Role;
  content : string;
  contentBlocks : list MessageContentBlock;
  hasToolBlocks : bool;
  timestamp : jsval
}.

Record ClaudeSessionInfo : Type := {
  sessionId : string;
  projectPath : string;
  projectName : string;
  cwd : string;
  gitBranch : jsval;
  version : jsval;
  preview : jsval;
  userMessageCount : nat;
  assistantMessageCount : nat;
  createdAt : jsval;
  updatedAt : jsval;
  fileSize : Z
}.

Record ParsedSession : Type := {
  info : ClaudeSessionInfo;
  messages : list ParsedMessage
}.

(** Maximum file size (50 MB), line 25. *)
Definition MAX_FILE_SIZE : Z := 50 * 1024 * 1024.

(* ================================================================== *)
(** * Statements that mutate local variables and can throw

    [Stmt S A] runs on a store [S]; when it throws, the assignments made so
    far stay, which is what the [catch] around the body of the line loop
    observes. *)
(* ================================================================== *)

Definition Stmt (S A : Type) : Type := S -> result A * S.

Definition ret {S A} (a : A) : Stmt S A := fun s => (Ok a, s).

Definition bind {S A B} (c : Stmt S A) (k : A -> Stmt S B) : Stmt S B :=
  fun s =>
    match c s with
    | (Ok a, s') => k a s'
    | (Throw e, s') => (Throw e, s')
    end.

Definition lift {S A} (r : result A) : Stmt S A := fun s => (r, s).

Definition assign {S} (f : S -> S) : Stmt S unit := fun s => (Ok tt, f s).

Definition read {S A} (f : S -> A) : Stmt S A := fun s => (Ok (f s), s).

(** Runs a statement of a sub-store on the store that contains it. *)
Definition zoom {S T A} (get : S -> T) (set : T -> S -> S) (c : Stmt T A) : Stmt S A :=
  fun s => let '(r, t) := c (get s) in (r, set t s).

(** [try { c } catch { }] *)
Definition try_catch {S} (c : Stmt S unit) : S -> S := fun s => snd (c s).

Declare Scope stmt_scope.
Delimit Scope stmt_scope with stmt.
Notation "x <- c ;; k" := (bind c (fun x => k))
  (at level 61, c at next level, right associativity) : stmt_scope.
Notation "c ;; k" := (bind c (fun _ => k))
  (at level 61, right associativity) : stmt_scope.

(** The statement leaves the component [p] of the store as it found it,
    whether it completes or throws. *)
Definition Preserves {S T A} (p : S -> T) (c : Stmt S A) : Prop :=
  forall s, p (snd (c s)) = p s.

(** The local variables of the line loop (lines 242-249 and 354-362), with
    the number of clock readings made so far. *)
Record Locals : Type := {
  v_messages : list ParsedMessage;
  v_cwd : jsval;
  v_gitBranch : jsval;
  v_version : jsval;
  v_preview : jsval;
  v_createdAt : jsval;
  v_updatedAt : jsval;
  v_userMessageCount : nat;
  v_assistantMessageCount : nat;
  v_ticks : nat
}.

Definition initial_locals : Locals :=
  {| v_messages := [];
     v_cwd := JString EmptyString;
     v_gitBranch := JString EmptyString;
     v_version := JString EmptyString;
     v_preview := JString EmptyString;
     v_createdAt := JString EmptyString;
     v_updatedAt := JString EmptyString;
     v_userMessageCount := 0;
     v_assistantMessageCount := 0;
     v_ticks := 0 |}.

Definition set_messages (x : list ParsedMessage) (l : Locals) : Locals :=
  {| v_messages := x; v_cwd := v_cwd l; v_gitBranch := v_gitBranch l;
     v_version := v_version l; v_preview := v_preview l;
     v_createdAt := v_createdAt l; v_updatedAt := v_updatedAt l;
     v_userMessageCount := v_userMessageCount l;
     v_assistantMessageCount := v_assistantMessageCount l; v_ticks := v_ticks l |}.

Definition set_cwd (x : jsval) (l : Locals) : Locals :=
  {| v_messages := v_messages l; v_cwd := x; v_gitBranch := v_gitBranch l;
     v_version := v_version l; v_preview := v_preview l;
     v_createdAt := v_createdAt l; v_updatedAt := v_updatedAt l;
     v_userMessageCount := v_userMessageCount l;
     v_assistantMessageCount := v_assistantMessageCount l; v_ticks := v_ticks l |}.

Definition set_gitBranch (x : jsval) (l : Locals) : Locals :=
  {| v_messages := v_messages l; v_cwd := v_cwd l; v_gitBranch := x;
     v_version := v_version l; v_preview := v_preview l;
     v_createdAt := v_createdAt l; v_updatedAt := v_updatedAt l;
     v_userMessageCount := v_userMessageCount l;
     v_assistantMessageCount := v_assistantMessageCount l; v_ticks := v_ticks l |}.

Definition set_version (x : jsval) (l : Locals) : Locals :=
  {| v_messages := v_messages l; v_cwd := v_cwd l; v_gitBranch := v_gitBranch l;
     v_version := x; v_preview := v_preview l;
     v_createdAt := v_createdAt l; v_updatedAt := v_updatedAt l;
     v_userMessageCount := v_userMessageCount l;
     v_assistantMessageCount := v_assistantMessageCount l; v_ticks := v_ticks l |}.

Definition set_preview (x : jsval) (l : Locals) : Locals :=
  {| v_messages := v_messages l; v_cwd := v_cwd l; v_gitBranch := v_gitBranch l;
     v_version := v_version l; v_preview := x;
     v_createdAt := v_createdAt l; v_updatedAt := v_updatedAt l;
     v_userMessageCount := v_userMessageCount l;
     v_assistantMessageCount := v_assistantMessageCount l; v_ticks := v_ticks l |}.

Definition set_createdAt (x : jsval) (l : Locals) : Locals :=
  {| v_messages := v_messages l; v_cwd := v_cwd l; v_gitBranch := v_gitBranch l;
     v_version := v_version l; v_preview := v_preview l;
     v_createdAt := x; v_updatedAt := v_updatedAt l;
     v_userMessageCount := v_userMessageCount l;
     v_assistantMessageCount := v_assistantMessageCount l; v_ticks := v_ticks l |}.

Definition set_updatedAt (x : jsval) (l : Locals) : Locals :=
  {| v_messages := v_messages l; v_cwd := v_cwd l; v_gitBranch := v_gitBranch l;
     v_version := v_version l; v_preview := v_preview l;
     v_createdAt := v_createdAt l; v_updatedAt := x;
     v_userMessageCount := v_userMessageCount l;
     v_assistantMessageCount := v_assistantMessageCount l; v_ticks := v_ticks l |}.

Definition set_userMessageCount (x : nat) (l : Locals) : Locals :=
  {| v_messages := v_messages l; v_cwd := v_cwd l; v_gitBranch := v_gitBranch l;
     v_version := v_version l; v_preview := v_preview l;
     v_createdAt := v_createdAt l; v_updatedAt := v_updatedAt l;
     v_userMessageCount := x;
     v_assistantMessageCount := v_assistantMessageCount l; v_ticks := v_ticks l |}.

Definition set_assistantMessageCount (x : nat) (l : Locals) : Locals :=
  {| v_messages := v_messages l; v_cwd := v_cwd l; v_gitBranch := v_gitBranch l;
     v_version := v_version l; v_preview := v_preview l;
     v_createdAt := v_createdAt l; v_updatedAt := v_updatedAt l;
     v_userMessageCount := v_userMessageCount l;
     v_assistantMessageCount := x; v_ticks := v_ticks l |}.

Definition set_ticks (x : nat) (l : Locals) : Locals :=
  {| v_messages := v_messages l; v_cwd := v_cwd l; v_gitBranch := v_gitBranch l;
     v_version := v_version l; v_preview := v_preview l;
     v_createdAt := v_createdAt l; v_updatedAt := v_updatedAt l;
     v_userMessageCount := v_userMessageCount l;
     v_assistantMessageCount := v_assistantMessageCount l; v_ticks := x |}.

(** The variables the metadata pass computes. *)
Definition metadata (l : Locals)
  : jsval * jsval * jsval * jsval * jsval * jsval * nat * nat :=
  (v_cwd l, v_gitBranch l, v_version l, v_preview l,
   v_createdAt l, v_updatedAt l, v_userMessageCount l, v_assistantMessageCount l).

(** A statement run on an entry that does not touch them. *)
Definition MessageHook (h : jsval -> Stmt Locals unit) : Prop :=
  forall entry, Preserves metadata (h entry).

(** A message without its timestamp, and a result of the materializer
    without the timestamps of its messages. *)
Definition untimed (m : ParsedMessage)
  : Role * string * list MessageContentBlock * bool :=
  (role m, content m, contentBlocks m, hasToolBlocks m).

Definition without_message_times (r : result (option ParsedSession))
  : result (option (ClaudeSessionInfo
                    * list (Role * string * list MessageContentBlock * bool))) :=
  match r with
  | Ok (Some ps) => Ok (Some (info ps, List.map untimed (messages ps)))
  | Ok None => Ok None
  | Throw e => Throw e
  end.

Definition untimed_outcome (r : result (option ParsedMessage))
  : result (option (Role * string * list MessageContentBlock * bool)) :=
  match r with
  | Ok (Some m) => Ok (Some (untimed m))
  | Ok None => Ok None
  | Throw e => Throw e
  end.

(** Two stores that differ at most in the timestamps of their messages and
    in the number of clock readings. *)
Definition alike (l1 l2 : Locals) : Prop :=
  metadata l1 = metadata l2
  /\ List.map untimed (v_messages l1) = List.map untimed (v_messages l2).

(** A statement that takes alike stores to alike stores, with one
    outcome. *)
Definition Respects {A} (c : Stmt Locals A) : Prop :=
  forall l1 l2, alike l1 l2 -> fst (c l1) = fst (c l2) /\ alike (snd (c l1)) (snd (c l2)).

(* ================================================================== *)
(** * Path Decoder (lines 138-158) *)
(* ================================================================== *)

(** [encodedName.replace(/^-/, '/').replace(/-/g, '/')] behind the
    [startsWith('-')] guard. *)
Definition decodeProjectPath (encodedName : string) : string :=
  if negb (JsString.startsWith encodedName "-") then encodedName
  else JsString.replace_global "-" "/" (JsString.replace_anchored "-" "/" encodedName).

(** The wording of the specification: every escape character becomes a
    separator. *)
Definition escape_to_separator (c : ascii) : ascii :=
  if Ascii.eqb c "-" then "/"%char else c.

Section Parser.

Context {host : Host}.

(* ================================================================ *)
(** ** Conversions of the engine used by the parser *)
(* ================================================================ *)

(** ToString.  A plain object converts through [Object.prototype.toString]
    unless it has an own member [toString]: a value from JSON is never
    callable, [valueOf] gives back the object, and the conversion throws.
    An array converts through [join(",")]. *)
Fixpoint ToString (v : jsval) : result string :=
  match v with
  | JUndefined => Ok "undefined"
  | JNull => Ok "null"
  | JBool b => Ok (if b then "true" else "false")
  | JNumber m e => Ok (Number_toString m e)
  | JString s => Ok s
  | JArray elems =>
      (parts <- (fix each (l : list jsval) : result (list string) :=
                   match l with
                   | [] => Ok []
                   | x :: rest =>
                       s <- match x with
                            | JUndefined | JNull => Ok EmptyString
                            | _ => ToString x
                            end ;;
                       ss <- each rest ;;
                       Ok (s :: ss)
                   end) elems ;;
       Ok (JsString.join "," parts))%result
  | JObject members =>
      if Js.has_key "toString" members then Throw TypeError
      else Ok "[object Object]"
  end.

(** The string an array element contributes to [join]. *)
Definition element_string (x : jsval) : result string :=
  match x with
  | JUndefined | JNull => Ok EmptyString
  | _ => ToString x
  end.

Fixpoint element_strings (arr : list jsval) : result (list string) :=
  match arr with
  | [] => Ok []
  | x :: rest =>
      (s <- element_string x ;; ss <- element_strings rest ;; Ok (s :: ss))%result
  end.

(** [arr.join(sep)] *)
Definition Array_join (sep : string) (arr : list jsval) : result string :=
  (parts <- element_strings arr ;; Ok (JsString.join sep parts))%result.

(** [new Date(v).getTime()]; [None] is NaN.  An object or array is first
    converted to a primitive, which for values from JSON is its string. *)
Definition Date_getTime (v : jsval) : result (option Z) :=
  match v with
  | JUndefined => Ok None
  | JNull => Ok (Some 0%Z)
  | JBool b => Ok (Some (if b then 1 else 0)%Z)
  | JNumber m e => Ok (Number_timeClip m e)
  | JString s => Ok (Date_parse s)
  | JArray _ | JObject _ => (s <- ToString v ;; Ok (Date_parse s))%result
  end.

(** [arr.sort(cmp)]: a stable sort; a NaN from the comparator counts as 0
    and an exception of the comparator leaves [sort].  With fewer than two
    elements the comparator is not called.  (For a comparator that is not
    a consistent order the engine may produce another permutation.) *)
Fixpoint sort_insert {A} (cmp : A -> A -> result (option Z)) (x : A) (sorted : list A)
  : result (list A) :=
  match sorted with
  | [] => Ok [x]
  | y :: rest =>
      (c <- cmp x y ;;
       match c with
       | Some d =>
           if (0 <? d)%Z then (rest' <- sort_insert cmp x rest ;; Ok (y :: rest'))
           else Ok (x :: sorted)
       | None => Ok (x :: sorted)
       end)%result
  end.

Fixpoint Array_sort {A} (cmp : A -> A -> result (option Z)) (arr : list A)
  : result (list A) :=
  match arr with
  | [] => Ok []
  | x :: rest => (sorted <- Array_sort cmp rest ;; sort_insert cmp x sorted)%result
  end.

(* ================================================================ *)
(** ** File Reader Guard (lines 217-226) *)
(* ================================================================ *)

(** [path.join(os.homedir(), '.claude', 'projects')] *)
Definition getClaudeProjectsDir : string :=
  path_join (path_join os_homedir ".claude") "projects".

(** [content.split('\n').filter(l => l.trim())] *)
Definition nonblank_lines (content : string) : list string :=
  List.filter (fun l => JsString.nonEmpty (JsString.trim l))
              (JsString.split JsString.LF content).

(** [None] is the [null] returned for a file over the ceiling (after a
    [console.warn], which is not modelled). *)
Definition readJsonlLines (fs : FileSystem) (filePath : string)
  : result (option (list string * Stats)) :=
  (stat <- fs_call (statSync fs filePath) ;;
   if (size stat >? MAX_FILE_SIZE)%Z then Ok None
   else
     content <- fs_call (readFileSync fs filePath) ;;
     Ok (Some (nonblank_lines content, stat)))%result.

(* ================================================================ *)
(** ** Message Reconstructor (lines 435-527) *)
(* ================================================================ *)

(** [new Date().toISOString()]: the [n]-th reading of the wall clock
    during the call gives the time value [clock n]. *)
Definition now (clock : nat -> Z) : Stmt nat string :=
  fun n => (Ok (Date_toISOString (clock n)), S n).

(** [entry.timestamp || new Date().toISOString()] *)
Definition timestamp_or_now (clock : nat -> Z) (entry : jsval) : Stmt nat jsval :=
  (ts <- lift (Js.Get entry "timestamp") ;;
   if Js.truthy ts then ret ts
   else (s <- now clock ;; ret (JString s)))%stmt.

(** [blocks.filter(b => b.type === 'text').map(b => b.text || '').join('\n')] *)
Definition joined_text_fragments (blocks : list jsval) : result string :=
  (texts <- Js.filter (Js.type_is "text") blocks ;;
   parts <- Js.map (fun b => t <- Js.Get b "text" ;; Ok (Js.or t (JString EmptyString))) texts ;;
   Array_join (String JsString.LF EmptyString) parts)%result.

Definition parseUserMessage (clock : nat -> Z) (entry : jsval)
  : Stmt nat (option ParsedMessage) :=
  (message <- lift (Js.Get entry "message") ;;
   msgContent <- lift (Js.OptGet message "content") ;;
   if negb (Js.truthy msgContent) then ret None
   else
     text <- lift (match msgContent with
                   | JString s => Ok (Some s)
                   | JArray blocks =>
                       (t <- joined_text_fragments blocks ;; Ok (Some t))%result
                   | _ => Ok None
                   end) ;;
     match text with
     | None => ret None
     | Some text =>
         if negb (JsString.nonEmpty (JsString.trim text)) then ret None
         else
           ts <- timestamp_or_now clock entry ;;
           ret (Some {| role := user;
                        content := text;
                        contentBlocks := [TextBlock (JString text)];
                        hasToolBlocks := false;
                        timestamp := ts |})
     end)%stmt.

(** The three accumulators of the block loop of [parseAssistantMessage]:
    [contentBlocks], [textParts] and [hasToolBlocks]. *)
Definition BlockAcc : Type := (list MessageContentBlock * list jsval * bool)%type.

(** One turn of [for (const block of msgContent) switch (block.type)]. *)
Definition assistant_block (acc : BlockAcc) (block : jsval) : result BlockAcc :=
  let '(blocks, textParts, hasTool) := acc in
  (ty <- Js.Get block "type" ;;
   if Js.is_string ty "text" then
     text <- Js.Get block "text" ;;
     if Js.truthy text
     then Ok (blocks ++ [TextBlock text], textParts ++ [text], hasTool)
     else Ok acc
   else if Js.is_string ty "tool_use" then
     id <- Js.Get block "id" ;;
     name <- Js.Get block "name" ;;
     input <- Js.Get block "input" ;;
     Ok (blocks ++ [ToolUseBlock (Js.or id (JString EmptyString))
                                 (Js.or name (JString EmptyString)) input],
         textParts, true)
   else if Js.is_string ty "tool_result" then
     c <- Js.Get block "content" ;;
     resultContent <- match c with
                      | JString s => Ok s
                      | JArray cs => joined_text_fragments cs
                      | _ => Ok EmptyString
                      end ;;
     tool_use_id <- Js.Get block "tool_use_id" ;;
     is_error <- Js.Get block "is_error" ;;
     Ok (blocks ++ [ToolResultBlock (Js.or tool_use_id (JString EmptyString))
                                    resultContent
                                    (Js.or is_error (JBool false))],
         textParts, true)
   else Ok acc)%result.

Fixpoint assistant_blocks (acc : BlockAcc) (msgContent : list jsval) : result BlockAcc :=
  match msgContent with
  | [] => Ok acc
  | block :: rest =>
      (acc' <- assistant_block acc block ;; assistant_blocks acc' rest)%result
  end.

Definition parseAssistantMessage (clock : nat -> Z) (entry : jsval)
  : Stmt nat (option ParsedMessage) :=
  (message <- lift (Js.Get entry "message") ;;
   msgContent <- lift (Js.OptGet message "content") ;;
   match msgContent with
   | JArray blocks =>     (* truthy and [Array.isArray] *)
       acc <- lift (assistant_blocks ([], [], false) blocks) ;;
       let '(blocks', textParts, hasTool) := acc in
       match blocks' with
       | [] => ret None
       | _ :: _ =>
           plainText <- lift (Array_join (String JsString.LF EmptyString) textParts) ;;
           ts <- timestamp_or_now clock entry ;;
           ret (Some {| role := assistant;
                        content := plainText;
                        contentBlocks := blocks';
                        hasToolBlocks := hasTool;
                        timestamp := ts |})
       end
   | _ => ret None
   end)%stmt.

(* ================================================================ *)
(** ** Metadata pass over the lines (lines 251-285 and 364-405)

    The two loops are the same text up to the calls of the message
    reconstructors in [parseClaudeSession]; [scan_line] is that text,
    with the two calls as [onUser] and [onAssistant]. *)
(* ================================================================ *)

(** Lines 255-258 and 368-371. *)
Definition track_timestamps (entry : jsval) : Stmt Locals unit :=
  (ts <- lift (Js.Get entry "timestamp") ;;
   if Js.truthy ts then
     createdAt <- read v_createdAt ;;
     (if negb (Js.truthy createdAt) then assign (set_createdAt ts) else ret tt) ;;
     assign (set_updatedAt ts)
   else ret tt)%stmt.

(** [if (!x && userEntry.k) x = userEntry.k] *)
Definition capture_first (get : Locals -> jsval) (set : jsval -> Locals -> Locals)
           (userEntry : jsval) (k : string) : Stmt Locals unit :=
  (x <- read get ;;
   if negb (Js.truthy x) then
     value <- lift (Js.Get userEntry k) ;;
     if Js.truthy value then assign (set value) else ret tt
   else ret tt)%stmt.

(** Lines 268-278 and 381-391. *)
Definition capture_preview (userEntry : jsval) : Stmt Locals unit :=
  (preview <- read v_preview ;;
   if negb (Js.truthy preview) then
     message <- lift (Js.Get userEntry "message") ;;
     msgContent <- lift (Js.OptGet message "content") ;;
     if Js.truthy msgContent then
       match msgContent with
       | JString s => assign (set_preview (JString (JsString.slice0 120 s)))
       | JArray blocks =>
           textBlock <- lift (Js.find (Js.type_is "text") blocks) ;;
           text <- lift (Js.OptGet textBlock "text") ;;
           if Js.truthy text then
             sliced <- lift (Js.slice0 120 text) ;;
             assign (set_preview sliced)
           else ret tt
       | _ => ret tt
       end
     else ret tt
   else ret tt)%stmt.

(** Lines 261-278 and 374-391. *)
Definition user_metadata (userEntry : jsval) : Stmt Locals unit :=
  (assign (fun l => set_userMessageCount (S (v_userMessageCount l)) l) ;;
   capture_first v_cwd set_cwd userEntry "cwd" ;;
   capture_first v_gitBranch set_gitBranch userEntry "gitBranch" ;;
   capture_first v_version set_version userEntry "version" ;;
   capture_preview userEntry)%stmt.

Definition JSON_parse_or_throw (line : string) : result jsval :=
  match JSON_parse line with
  | Some entry => Ok entry
  | None => Throw SyntaxError
  end.

(** Lines 260-281 and 373-401: the branch on [entry.type]. *)
Definition dispatch (onUser onAssistant : jsval -> Stmt Locals unit) (entry : jsval)
  : Stmt Locals unit :=
  (ty <- lift (Js.Get entry "type") ;;
   if Js.is_string ty "user" then
     user_metadata entry ;;
     onUser entry
   else if Js.is_string ty "assistant" then
     assign (fun l => set_assistantMessageCount (S (v_assistantMessageCount l)) l) ;;
     onAssistant entry
   else ret tt)%stmt.

(** The body of the [try] of the line loop. *)
Definition scan_line (onUser onAssistant : jsval -> Stmt Locals unit) (line : string)
  : Stmt Locals unit :=
  (entry <- lift (JSON_parse_or_throw line) ;;
   track_timestamps entry ;;
   dispatch onUser onAssistant entry)%stmt.

(** [for (const line of lines) { try { ... } catch { } }] *)
Definition scan_lines (onUser onAssistant : jsval -> Stmt Locals unit)
           (lines : list string) (l : Locals) : Locals :=
  fold_left (fun l line => try_catch (scan_line onUser onAssistant line) l) lines l.

(** [d.toISOString()] for the Date that [fs.Stats] makes from [t]
    milliseconds: beyond 8.64e15 in magnitude the Date is invalid and the
    method throws a RangeError. *)
Definition stat_time_toISOString (t : Z) : result string :=
  if (Z.abs t <=? 8640000000000000)%Z then Ok (Date_toISOString t)
  else Throw RangeError.

(** [x || d.toISOString()]: the Date is converted only when [x] is
    falsy. *)
Definition or_toISOString (x : jsval) (t : Z) : result jsval :=
  if Js.truthy x then Ok x
  else (s <- stat_time_toISOString t ;; Ok (JString s))%result.

(** Lines 287-308 and 407-427: the empty-session test and the assembly of
    the info record, whose members are evaluated in the order written.
    [path.basename] throws on an argument that is not a string. *)
Definition session_info (l : Locals) (stat : Stats) (sessionId projectPath : string)
  : result (option ClaudeSessionInfo) :=
  if ((v_userMessageCount l =? 0) && (v_assistantMessageCount l =? 0))%nat then Ok None
  else
    match Js.or (v_cwd l) (JString projectPath) with
    | JString effectivePath =>
        (created <- or_toISOString (v_createdAt l) (birthtime stat) ;;
         updated <- or_toISOString (v_updatedAt l) (mtime stat) ;;
         Ok (Some {| sessionId := sessionId;
                     projectPath := effectivePath;
                     projectName := posix_basename effectivePath;
                     cwd := effectivePath;
                     gitBranch := Js.or (v_gitBranch l) (JString EmptyString);
                     version := Js.or (v_version l) (JString EmptyString);
                     preview := Js.or (v_preview l) (JString "(no preview)");
                     userMessageCount := v_userMessageCount l;
                     assistantMessageCount := v_assistantMessageCount l;
                     createdAt := created;
                     updatedAt := updated;
                     fileSize := size stat |}))%result
    | _ => Throw TypeError
    end.

Definition no_message (_ : jsval) : Stmt Locals unit := ret tt.

(** Lines 231-309. *)
Definition extractSessionInfo (fs : FileSystem) (filePath sessionId projectPath : string)
  : result (option ClaudeSessionInfo) :=
  (r <- readJsonlLines fs filePath ;;
   match r with
   | None => Ok None
   | Some (lines, stat) =>
       match lines with
       | [] => Ok None
       | _ :: _ =>
           session_info (scan_lines no_message no_message lines initial_locals)
                        stat sessionId projectPath
       end
   end)%result.

(* ================================================================ *)
(** ** Session Materializer (lines 319-430) *)
(* ================================================================ *)

(** [const parsed = parse...(entry); if (parsed) messages.push(parsed)] *)
Definition push_parsed (parse : jsval -> Stmt nat (option ParsedMessage)) (entry : jsval)
  : Stmt Locals unit :=
  (parsed <- zoom v_ticks set_ticks (parse entry) ;;
   match parsed with
   | Some m => assign (fun l => set_messages (v_messages l ++ [m]) l)
   | None => ret tt
   end)%stmt.

(** Lines 331-340: the first project directory that holds the file. *)
Fixpoint find_session_file (fs : FileSystem) (projectsDir sessionId : string)
         (projectDirs : list Dirent) : option (string * string) :=
  match projectDirs with
  | [] => None
  | projectDir :: rest =>
      if negb (isDirectory projectDir) then find_session_file fs projectsDir sessionId rest
      else
        let candidate :=
          path_join (path_join projectsDir (name projectDir)) (sessionId ++ ".jsonl") in
        if existsSync fs candidate
        then Some (candidate, decodeProjectPath (name projectDir))
        else find_session_file fs projectsDir sessionId rest
  end.

(** Lines 320-345; an exception of [readdirSync] is caught and gives
    not-found. *)
Definition locate_session (fs : FileSystem) (sessionId : string) : option (string * string) :=
  let projectsDir := getClaudeProjectsDir in
  if negb (existsSync fs projectsDir) then None
  else
    match readdirSync fs projectsDir with
    | None => None
    | Some projectDirs => find_session_file fs projectsDir sessionId projectDirs
    end.

(** Lines 354-405: the single pass that fills the metadata and the
    messages. *)
Definition materialize (clock : nat -> Z) (lines : list string) : Locals :=
  scan_lines (push_parsed (parseUserMessage clock))
             (push_parsed (parseAssistantMessage clock)) lines initial_locals.

Definition parseClaudeSession (fs : FileSystem) (clock : nat -> Z) (sessionId : string)
  : result (option ParsedSession) :=
  match locate_session fs sessionId with
  | None => Ok None
  | Some (filePath, projectPath) =>
      (r <- readJsonlLines fs filePath ;;
       match r with
       | None => Ok None
       | Some (lines, stat) =>
           match lines with
           | [] => Ok None
           | _ :: _ =>
               let l := materialize clock lines in
               i <- session_info l stat sessionId projectPath ;;
               match i with
               | None => Ok None
               | Some i => Ok (Some {| info := i; messages := v_messages l |})
               end
           end
       end)%result
  end.

(* ================================================================ *)
(** ** Session Enumerator (lines 164-211) *)
(* ================================================================ *)

(** [jsonlFile.replace('.jsonl', '')], line 188. *)
Definition sessionId_of_file (jsonlFile : string) : string :=
  JsString.replace ".jsonl" EmptyString jsonlFile.

(** Lines 186-198: the body of the loop over the session files of one
    project directory; any exception skips the file. *)
Definition list_file (fs : FileSystem) (projectPath decodedPath : string)
           (sessions : list ClaudeSessionInfo) (jsonlFile : string)
  : list ClaudeSessionInfo :=
  let filePath := path_join projectPath jsonlFile in
  let sessionId := sessionId_of_file jsonlFile in
  match extractSessionInfo fs filePath sessionId decodedPath with
  | Ok (Some info) => sessions ++ [info]
  | Ok None => sessions
  | Throw _ => sessions
  end.

(** Lines 176-202: the body of the loop over the project directories; a
    directory that cannot be read is skipped. *)
Definition list_project (fs : FileSystem) (projectsDir : string)
           (sessions : list ClaudeSessionInfo) (projectDir : Dirent)
  : list ClaudeSessionInfo :=
  if negb (isDirectory projectDir) then sessions
  else
    let projectPath := path_join projectsDir (name projectDir) in
    let decodedPath := decodeProjectPath (name projectDir) in
    match readdirSync fs projectPath with
    | None => sessions
    | Some entries =>
        let files := List.map name entries in
        let jsonlFiles := List.filter (fun f => JsString.endsWith f ".jsonl") files in
        fold_left (list_file fs projectPath decodedPath) jsonlFiles sessions
    end.

(** The sessions pushed before the sort. *)
Definition collect_sessions (fs : FileSystem) : list ClaudeSessionInfo :=
  let projectsDir := getClaudeProjectsDir in
  match readdirSync fs projectsDir with
  | None => []
  | Some projectDirs => fold_left (list_project fs projectsDir) projectDirs []
  end.

(** [(a, b) => new Date(b.updatedAt).getTime() - new Date(a.updatedAt).getTime()] *)
Definition by_updatedAt_desc (a b : ClaudeSessionInfo) : result (option Z) :=
  (tb <- Date_getTime (updatedAt b) ;;
   ta <- Date_getTime (updatedAt a) ;;
   Ok (match tb, ta with
       | Some x, Some y => Some (x - y)%Z
       | _, _ => None
       end))%result.

Definition listClaudeSessions (fs : FileSystem) : result (list ClaudeSessionInfo) :=
  if negb (existsSync fs getClaudeProjectsDir) then Ok []
  else Array_sort by_updatedAt_desc (collect_sessions fs).

(* ================================================================ *)
(** ** Notions used in the statements *)
(* ================================================================ *)


(** The [type] discriminator of a line, [undefined] when the line does
    not decode or has none. *)
Definition event_type (line : string) : jsval :=
  match JSON_parse line with
  | Some entry =>
      match Js.Get entry "type" with
      | Ok ty => ty
      | Throw _ => JUndefined
      end
  | None => JUndefined
  end.

Definition is_user_line (line : string) : bool :=
  Js.is_string (event_type line) "user".

Definition is_assistant_line (line : string) : bool :=
  Js.is_string (event_type line) "assistant".

(** A qualifying event: a decodable line of type user or assistant. *)
Definition qualifying (line : string) : bool :=
  is_user_line line || is_assistant_line line.

(** The in-band timestamp a line carries, if any. *)
Definition line_timestamp (line : string) : option jsval :=
  match JSON_parse line with
  | Some entry =>
      match Js.Get entry "timestamp" with
      | Ok ts => if Js.truthy ts then Some ts else None
      | Throw _ => None
      end
  | None => None
  end.

Definition in_band_timestamps (lines : list string) : list jsval :=
  flat_map (fun line => match line_timestamp line with
                        | Some ts => [ts]
                        | None => []
                        end) lines.

(** Every user or assistant event of the line carries a timestamp. *)
Definition timestamped (line : string) : bool :=
  negb (qualifying line)
  || match line_timestamp line with Some _ => true | None => false end.

(** [a <= b] as dates, read the way the sort of the listing reads them. *)
Definition date_leb (a b : jsval) : bool :=
  match Date_getTime a, Date_getTime b with
  | Ok (Some x), Ok (Some y) => (x <=? y)%Z
  | _, _ => false
  end.

(** The preview a fragment list yields: the text of its first fragment
    tagged [text], cut to 120; nothing when that text is empty or cannot
    be cut, or when a [null] fragment comes first. *)
Fixpoint fragments_preview (blocks : list jsval) : option jsval :=
  match blocks with
  | [] => None
  | JUndefined :: _ | JNull :: _ => None
  | JObject members :: rest =>
      match Js.lookup "type" members with
      | Some (JString tag) =>
          if String.eqb tag "text" then
            match Js.lookup "text" members with
            | Some (JString s) =>
                if JsString.nonEmpty s then Some (JString (JsString.slice0 120 s)) else None
            | Some (JArray a) => Some (JArray (firstn 120 a))
            | _ => None
            end
          else fragments_preview rest
      | _ => fragments_preview rest
      end
  | _ :: rest => fragments_preview rest
  end.

(** The preview a user event yields: its content cut to 120 when that is a
    non-empty string; for a fragment list, [fragments_preview]. *)
Definition event_preview (entry : jsval) : option jsval :=
  match entry with
  | JObject members =>
      match Js.lookup "type" members, Js.lookup "message" members with
      | Some (JString tag), Some (JObject message) =>
          if String.eqb tag "user" then
            match Js.lookup "content" message with
            | Some (JString s) =>
                if JsString.nonEmpty s then Some (JString (JsString.slice0 120 s)) else None
            | Some (JArray blocks) => fragments_preview blocks
            | _ => None
            end
          else None
      | _, _ => None
      end
  | _ => None
  end.

Definition line_preview (line : string) : option jsval :=
  match JSON_parse line with
  | Some entry => event_preview entry
  | None => None
  end.

(** The first preview in file order. *)
Fixpoint first_preview (lines : list string) : option jsval :=
  match lines with
  | [] => None
  | line :: rest =>
      match line_preview line with
      | Some p => Some p
      | None => first_preview rest
      end
  end.

(** The extractable text of a user event in the sense of
    [parseUserMessage]: the content itself, or the newline-joined texts of
    the fragments tagged [text]. *)
Definition extractable_text (entry : jsval) : option string :=
  match Js.Get entry "message" with
  | Ok message =>
      match Js.OptGet message "content" with
      | Ok (JString s) => Some s
      | Ok (JArray blocks) =>
          match joined_text_fragments blocks with
          | Ok t => Some t
          | Throw _ => None
          end
      | _ => None
      end
  | Throw _ => None
  end.

(** An info record that one of the two entry points produced. *)
Definition produced (fs : FileSystem) (i : ClaudeSessionInfo) : Prop :=
  (exists l, listClaudeSessions fs = Ok l /\ In i l)
  \/ (exists clock sid ps, parseClaudeSession fs clock sid = Ok (Some ps) /\ info ps = i).

(** The path of a session file as the enumerator builds it. *)
Definition session_file_path (projectDir : Dirent) (jsonlFile : string) : string :=
  path_join (path_join getClaudeProjectsDir (name projectDir)) jsonlFile.

(** The file [jsonlFile] of [projectDir] is enumerated, and its metadata
    pass gives [i]. *)
Definition listed_from (fs : FileSystem) (projectDir : Dirent) (jsonlFile : string)
           (i : ClaudeSessionInfo) : Prop :=
  (exists projectDirs, readdirSync fs getClaudeProjectsDir = Some projectDirs
                       /\ In projectDir projectDirs)
  /\ isDirectory projectDir = true
  /\ (exists entries,
         readdirSync fs (path_join getClaudeProjectsDir (name projectDir)) = Some entries
         /\ In jsonlFile (List.map name entries))
  /\ JsString.endsWith jsonlFile ".jsonl" = true
  /\ extractSessionInfo fs (session_file_path projectDir jsonlFile)
                        (sessionId_of_file jsonlFile)
                        (decodeProjectPath (name projectDir)) = Ok (Some i).

End Parser.

(* ================================================================== *)
(** * An executable host for the worked examples

    The theorems below hold for every [Host].  The examples need one that
    computes: a JSON reader, an ISO-8601 printer and reader of dates, and a
    printer of numbers. *)
(* ================================================================== *)

Module Json.

Definition is_ws (c : ascii) : bool :=
  let n := nat_of_ascii c in
  ((n =? 32) || (n =? 9) || (n =? 10) || (n =? 13))%nat.

Fixpoint skip_ws (s : string) : string :=
  match s with
  | String c r => if is_ws c then skip_ws r else s
  | EmptyString => EmptyString
  end.

Definition digit_of (c : ascii) : option Z :=
  let n := nat_of_ascii c in
  if ((48 <=? n) && (n <=? 57))%nat then Some (Z.of_nat (n - 48)) else None.

Definition hex_of (c : ascii) : option nat :=
  let n := nat_of_ascii c in
  if ((48 <=? n) && (n <=? 57))%nat then Some (n - 48)%nat
  else if ((65 <=? n) && (n <=? 70))%nat then Some (n - 55)%nat
  else if ((97 <=? n) && (n <=? 102))%nat then Some (n - 87)%nat
  else None.

(** The character a two-character escape stands for. *)
Definition simple_escape (e : ascii) : option ascii :=
  let n := nat_of_ascii e in
  if (n =? 34)%nat then Some "034"%char          (* quotation mark *)
  else if (n =? 92)%nat then Some "092"%char     (* reverse solidus *)
  else if (n =? 47)%nat then Some "/"%char
  else if (n =? 98)%nat then Some "008"%char     (* b *)
  else if (n =? 102)%nat then Some "012"%char    (* f *)
  else if (n =? 110)%nat then Some "010"%char    (* n *)
  else if (n =? 114)%nat then Some "013"%char    (* r *)
  else if (n =? 116)%nat then Some "009"%char    (* t *)
  else None.

Definition cons_char (c : ascii) (r : option (string * string)) : option (string * string) :=
  match r with
  | Some (s, rest) => Some (String c s, rest)
  | None => None
  end.

(** The characters of a string literal after its opening quote, and what
    follows the closing quote.  A [\u] escape above 00FF is outside the
    code units of the model and is refused. *)
Fixpoint string_body (s : string) : option (string * string) :=
  match s with
  | EmptyString => None
  | String c r =>
      if (nat_of_ascii c =? 34)%nat then Some (EmptyString, r)
      else if (nat_of_ascii c =? 92)%nat then
        match r with
        | EmptyString => None
        | String e r' =>
            match simple_escape e with
            | Some ch => cons_char ch (string_body r')
            | None =>
                if (nat_of_ascii e =? 117)%nat then
                  match r' with
                  | String h1 (String h2 (String h3 (String h4 r''))) =>
                      match hex_of h1, hex_of h2, hex_of h3, hex_of h4 with
                      | Some 0%nat, Some 0%nat, Some a, Some b =>
                          cons_char (ascii_of_nat (16 * a + b)) (string_body r'')
                      | _, _, _, _ => None
                      end
                  | _ => None
                  end
                else None
            end
        end
      else if (nat_of_ascii c <? 32)%nat then None
      else cons_char c (string_body r)
  end.

(** Reads digits: the number read onto [acc], how many, and the rest. *)
Fixpoint digits (s : string) (acc : Z) (count : nat) : Z * nat * string :=
  match s with
  | String c r =>
      match digit_of c with
      | Some d => digits r (10 * acc + d)%Z (S count)
      | None => (acc, count, s)
      end
  | EmptyString => (acc, count, s)
  end.

Definition exponent (m : Z) (scale : Z) (s : string) : option (Z * Z * string) :=
  match s with
  | String c r =>
      if ((nat_of_ascii c =? 101) || (nat_of_ascii c =? 69))%nat then
        let '(neg, r1) :=
          match r with
          | String "-"%char r' => (true, r')
          | String "+"%char r' => (false, r')
          | _ => (false, r)
          end in
        let '(x, k, r2) := digits r1 0%Z 0 in
        if (k =? 0)%nat then None
        else Some (m, ((if neg then - x else x) - scale)%Z, r2)
      else Some (m, (- scale)%Z, s)
  | EmptyString => Some (m, (- scale)%Z, s)
  end.

(** A number literal: mantissa, decimal exponent, and the rest. *)
Definition number (s : string) : option (Z * Z * string) :=
  let '(neg, s1) :=
    match s with
    | String "-"%char r => (true, r)
    | _ => (false, s)
    end in
  match s1 with
  | String c r =>
      match digit_of c with
      | None => None
      | Some d =>
          let '(ip, _, s2) := if (d =? 0)%Z then (0%Z, 0%nat, r) else digits r d 0 in
          let sign := fun m : Z => if neg then (- m)%Z else m in
          match s2 with
          | String "."%char r2 =>
              let '(m, k, s3) := digits r2 ip 0 in
              if (k =? 0)%nat then None else exponent (sign m) (Z.of_nat k) s3
          | _ => exponent (sign ip) 0%Z s2
          end
      end
  | EmptyString => None
  end.

Fixpoint value (fuel : nat) (s : string) {struct fuel} : option (jsval * string) :=
  match fuel with
  | O => None
  | S fuel' =>
      match skip_ws s with
      | EmptyString => None
      | String c r =>
          let n := nat_of_ascii c in
          if (n =? 123)%nat then                         (* left brace *)
            match skip_ws r with
            | String "}"%char r' => Some (JObject [], r')
            | _ => members fuel' r []
            end
          else if (n =? 91)%nat then                     (* left bracket *)
            match skip_ws r with
            | String "]"%char r' => Some (JArray [], r')
            | _ => elements fuel' r []
            end
          else if (n =? 34)%nat then
            match string_body r with
            | Some (str, r') => Some (JString str, r')
            | None => None
            end
          else if JsString.startsWith (String c r) "true"
          then Some (JBool true, JsString.drop 4 (String c r))
          else if JsString.startsWith (String c r) "false"
          then Some (JBool false, JsString.drop 5 (String c r))
          else if JsString.startsWith (String c r) "null"
          then Some (JNull, JsString.drop 4 (String c r))
          else
            match number (String c r) with
            | Some (m, e, r') => Some (JNumber m e, r')
            | None => None
            end
      end
  end
with elements (fuel : nat) (s : string) (acc : list jsval) {struct fuel}
  : option (jsval * string) :=
  match fuel with
  | O => None
  | S fuel' =>
      match value fuel' s with
      | None => None
      | Some (v, r) =>
          match skip_ws r with
          | String ","%char r' => elements fuel' r' (v :: acc)
          | String "]"%char r' => Some (JArray (rev (v :: acc)), r')
          | _ => None
          end
      end
  end
with members (fuel : nat) (s : string) (acc : list (string * jsval)) {struct fuel}
  : option (jsval * string) :=
  match fuel with
  | O => None
  | S fuel' =>
      match skip_ws s with
      | String q r =>
          if (nat_of_ascii q =? 34)%nat then
            match string_body r with
            | None => None
            | Some (k, r1) =>
                match skip_ws r1 with
                | String ":"%char r2 =>
                    match value fuel' r2 with
                    | None => None
                    | Some (v, r3) =>
                        match skip_ws r3 with
                        | String ","%char r4 => members fuel' r4 ((k, v) :: acc)
                        | String "}"%char r4 => Some (JObject (rev ((k, v) :: acc)), r4)
                        | _ => None
                        end
                    end
                | _ => None
                end
            end
          else None
      | EmptyString => None
      end
  end.

(** [JSON.parse]: one value between optional white space. *)
Definition parse (text : string) : option jsval :=
  match value (2 * String.length text + 2) text with
  | Some (v, r) =>
      match skip_ws r with
      | EmptyString => Some v
      | _ => None
      end
  | None => None
  end.

End Json.

Module Node.

Local Open Scope Z_scope.

Definition digit_char (d : Z) : ascii := ascii_of_nat (48 + Z.to_nat d).

(** The last [width] decimal digits of [n >= 0], zero padded. *)
Fixpoint pad (width : nat) (n : Z) : string :=
  match width with
  | O => EmptyString
  | S w => pad w (n / 10) ++ String (digit_char (n mod 10)) EmptyString
  end.

(** Decimal digits of [n > 0], most significant first ([fuel] bounds their
    number). *)
Fixpoint decimal (fuel : nat) (n : Z) : string :=
  match fuel with
  | O => EmptyString
  | S f => if n <=? 0 then EmptyString
           else decimal f (n / 10) ++ String (digit_char (n mod 10)) EmptyString
  end.

Definition natural_string (n : Z) : string :=
  if n <=? 0 then "0" else decimal (S (Z.to_nat (Z.log2 n))) n.

Fixpoint strip_zeros (fuel : nat) (m e : Z) : Z * Z :=
  match fuel with
  | O => (m, e)
  | S f => if (e <? 0) && (m mod 10 =? 0) then strip_zeros f (m / 10) (e + 1) else (m, e)
  end.

(** Number::toString for a value that is an integer below [10^21] or a
    short decimal fraction (at most 15 significant digits, magnitude at
    least [10^-6]); only those are used in the examples. *)
Definition number_string (m e : Z) : string :=
  if m =? 0 then "0"
  else
    let sign := if m <? 0 then "-" else EmptyString in
    let a := Z.abs m in
    if 0 <=? e then (sign ++ natural_string (a * 10 ^ e))%string
    else
      let '(a', e') := strip_zeros (Z.to_nat (- e)) a e in
      if 0 <=? e' then (sign ++ natural_string a')%string
      else
        let scale := 10 ^ (- e') in
        (sign ++ natural_string (a' / scale) ++ "."
              ++ pad (Z.to_nat (- e')) (a' mod scale))%string.

(** The time value of a number: its integer part, NaN beyond 8.64e15. *)
Definition time_clip (m e : Z) : option Z :=
  let v := if 0 <=? e then m * 10 ^ e else Z.quot m (10 ^ (- e)) in
  if Z.abs v <=? 8640000000000000 then Some v else None.

(** Days since 1970-01-01 of a date of the proleptic Gregorian calendar,
    and back. *)
Definition days_from_civil (y m d : Z) : Z :=
  let y' := if m <=? 2 then y - 1 else y in
  let era := y' / 400 in
  let yoe := y' - era * 400 in
  let mp := (m + 9) mod 12 in
  let doy := (153 * mp + 2) / 5 + d - 1 in
  let doe := yoe * 365 + yoe / 4 - yoe / 100 + doy in
  era * 146097 + doe - 719468.

Definition civil_from_days (z : Z) : Z * Z * Z :=
  let z' := z + 719468 in
  let era := z' / 146097 in
  let doe := z' - era * 146097 in
  let yoe := (doe - doe / 1460 + doe / 36524 - doe / 146096) / 365 in
  let doy := doe - (365 * yoe + yoe / 4 - yoe / 100) in
  let mp := (5 * doy + 2) / 153 in
  let d := doy - (153 * mp + 2) / 5 + 1 in
  let m := if mp <? 10 then mp + 3 else mp - 9 in
  let y := yoe + era * 400 + (if m <=? 2 then 1 else 0) in
  (y, m, d).

Definition ms_per_day : Z := 86400000.

(** [Date.prototype.toISOString] for a valid time value. *)
Definition toISOString (t : Z) : string :=
  let days := t / ms_per_day in
  let ms := t mod ms_per_day in
  let '(y, m, d) := civil_from_days days in
  let year := if (0 <=? y) && (y <=? 9999) then pad 4 y
              else ((if (y <? 0)%Z then "-" else "+") ++ pad 6 (Z.abs y))%string in
  (year ++ "-" ++ pad 2 m ++ "-" ++ pad 2 d ++ "T"
        ++ pad 2 (ms / 3600000) ++ ":" ++ pad 2 ((ms / 60000) mod 60) ++ ":"
        ++ pad 2 ((ms / 1000) mod 60) ++ "." ++ pad 3 (ms mod 1000) ++ "Z")%string.

Fixpoint read_digits (n : nat) (s : string) (acc : Z) : option (Z * string) :=
  match n with
  | O => Some (acc, s)
  | S n' =>
      match s with
      | String c r =>
          match Json.digit_of c with
          | Some d => read_digits n' r (10 * acc + d)
          | None => None
          end
      | EmptyString => None
      end
  end.

Definition expect (c : ascii) (s : string) : option string :=
  match s with
  | String d r => if Ascii.eqb c d then Some r else None
  | EmptyString => None
  end.

Definition days_in_month (y m : Z) : Z :=
  days_from_civil (if m =? 12 then y + 1 else y) (if m =? 12 then 1 else m + 1) 1
  - days_from_civil y m 1.

Definition obind {A B} (o : option A) (k : A -> option B) : option B :=
  match o with Some a => k a | None => None end.

(** [Date.parse] on the format that [toISOString] prints for four-digit
    years, [YYYY-MM-DDTHH:mm:ss.sssZ]; every other string is NaN here
    (engines read more formats; the examples use this one only). *)
Definition parse_date (s : string) : option Z :=
  obind (read_digits 4 s 0) (fun '(y, s) =>
  obind (expect "-" s) (fun s =>
  obind (read_digits 2 s 0) (fun '(m, s) =>
  obind (expect "-" s) (fun s =>
  obind (read_digits 2 s 0) (fun '(d, s) =>
  obind (expect "T" s) (fun s =>
  obind (read_digits 2 s 0) (fun '(hh, s) =>
  obind (expect ":" s) (fun s =>
  obind (read_digits 2 s 0) (fun '(mm, s) =>
  obind (expect ":" s) (fun s =>
  obind (read_digits 2 s 0) (fun '(ss, s) =>
  obind (expect "." s) (fun s =>
  obind (read_digits 3 s 0) (fun '(mmm, s) =>
  match s with
  | String "Z"%char EmptyString =>
      if (1 <=? m) && (m <=? 12) && (1 <=? d) && (d <=? days_in_month y m)
         && (hh <=? 23) && (mm <=? 59) && (ss <=? 59)
      then Some (days_from_civil y m d * ms_per_day
                 + hh * 3600000 + mm * 60000 + ss * 1000 + mmm)
      else None
  | _ => None
  end))))))))))))).

#[export] Instance host : Host := {|
  JSON_parse := Json.parse;
  Number_toString := number_string;
  Number_timeClip := time_clip;
  Date_parse := parse_date;
  Date_toISOString := toISOString;
  os_homedir := "/root"
|}.

End Node.

(* ================================================================== *)
(** * Concrete session stores for the worked examples *)
(* ================================================================== *)

Module Disk.

(** Writes a JSON text with apostrophes in place of quotation marks. *)
Definition dq (s : string) : string :=
  JsString.map (fun c => if Ascii.eqb c "'" then JsString.DQUOTE else c) s.

(** The content of a log file: one line per entry, each ended by LF. *)
Fixpoint log (entries : list string) : string :=
  match entries with
  | [] => EmptyString
  | e :: rest => dq e ++ String JsString.LF (log rest)
  end.

Definition projects : string := "/root/.claude/projects".

(** A file: name, stat, and content ([None]: reading it fails). *)
Definition FileNode : Type := (string * Stats * option string)%type.
Definition Project : Type := (string * list FileNode)%type.

Fixpoint find_project (p : string) (ps : list Project) : option (list FileNode) :=
  match ps with
  | [] => None
  | (d, files) :: rest =>
      if String.eqb p (path_join projects d) then Some files else find_project p rest
  end.

Fixpoint find_file (p dir : string) (files : list FileNode) : option FileNode :=
  match files with
  | [] => None
  | (f, st, c) :: rest =>
      if String.eqb p (path_join dir f) then Some (f, st, c) else find_file p dir rest
  end.

Fixpoint find_node (p : string) (ps : list Project) : option FileNode :=
  match ps with
  | [] => None
  | (d, files) :: rest =>
      match find_file p (path_join projects d) files with
      | Some n => Some n
      | None => find_node p rest
      end
  end.

Definition is_some {A} (o : option A) : bool :=
  match o with Some _ => true | None => false end.

Definition dir_stats : Stats := {| size := 4096; birthtime := 0; mtime := 0 |}.

(** The store that holds exactly the given project directories. *)
Definition disk (ps : list Project) : FileSystem :=
  {| existsSync := fun p =>
       String.eqb p projects || is_some (find_project p ps) || is_some (find_node p ps);
     readdirSync := fun p =>
       if String.eqb p projects
       then Some (List.map (fun d : Project => {| name := fst d; isDirectory := true |}) ps)
       else option_map
              (List.map (fun n : FileNode => {| name := fst (fst n); isDirectory := false |}))
              (find_project p ps);
     statSync := fun p =>
       match find_node p ps with
       | Some (_, st, _) => Some st
       | None =>
           if String.eqb p projects || is_some (find_project p ps)
           then Some dir_stats else None
       end;
     readFileSync := fun p =>
       match find_node p ps with
       | Some (_, _, c) => c
       | None => None
       end |}.

Definition small : Stats := {| size := 200; birthtime := 1000; mtime := 2000 |}.

Definition one_session (dir file : string) (st : Stats) (content : option string)
  : FileSystem :=
  disk [(dir, [(file, st, content)])].

(** The end-to-end example of the tests: a lifecycle marker, a user
    message and an assistant reply, all with timestamps. *)
Definition hello_log : string :=
  log [ "{'type':'queue-operation','operation':'dequeue','timestamp':'2026-01-15T10:00:00.000Z'}"
      ; "{'type':'user','cwd':'/home/user/myproject','message':{'role':'user','content':'Hello, can you help me?'},'timestamp':'2026-01-15T10:00:01.000Z'}"
      ; "{'type':'assistant','message':{'role':'assistant','content':[{'type':'text','text':'Of course!'}]},'timestamp':'2026-01-15T10:00:02.000Z'}" ].

Definition hello_fs : FileSystem :=
  one_session "-home-user-myproject" "s1.jsonl" small (Some hello_log).

(** A user message without a timestamp. *)
Definition unstamped_fs : FileSystem :=
  one_session "-root-proj" "s1.jsonl" small
              (Some (log ["{'type':'user','message':{'content':'hi'}}"])).

(** A session file that exists and cannot be read. *)
Definition unreadable_fs : FileSystem :=
  one_session "-root-proj" "s1.jsonl" small None.

(** Timestamps that run backwards in file order. *)
Definition backwards_fs : FileSystem :=
  one_session "-root-proj" "s1.jsonl" small
    (Some (log [ "{'type':'user','message':{'content':'a'},'timestamp':'2026-01-02T00:00:00.000Z'}"
               ; "{'type':'assistant','message':{'content':[{'type':'text','text':'b'}]},'timestamp':'2026-01-01T00:00:00.000Z'}" ])).

(** A user message made of two text fragments. *)
Definition fragments_line : string :=
  "{'type':'user','message':{'content':[{'type':'text','text':'a'},{'type':'text','text':'b'}]},'timestamp':'2026-01-01T00:00:00.000Z'}".

Definition fragments_fs : FileSystem :=
  one_session "-root-proj" "s1.jsonl" small
              (Some (log [fragments_line])).

(** Malformed lines among valid ones, as in the tests, and the same log
    without the malformed lines. *)
Definition mixed_log : string :=
  log [ "{'type':'queue-operation','timestamp':'2026-01-15T10:00:00.000Z'}"
      ; "this is not valid json"
      ; "{'type':'user','message':{'content':'Valid message after bad line'},'timestamp':'2026-01-15T10:00:01.000Z'}"
      ; "{'incomplete': true" ].

Definition valid_only_log : string :=
  log [ "{'type':'queue-operation','timestamp':'2026-01-15T10:00:00.000Z'}"
      ; "{'type':'user','message':{'content':'Valid message after bad line'},'timestamp':'2026-01-15T10:00:01.000Z'}" ].

Definition mixed_fs : FileSystem :=
  one_session "-root-proj" "s1.jsonl" small (Some mixed_log).

Definition valid_only_fs : FileSystem :=
  one_session "-root-proj" "s1.jsonl" small (Some valid_only_log).

(** Three events that give a message each, with a malformed line before,
    between and after them; the second user event carries no timestamp. *)
Definition interleaved_log : string :=
  log [ "{'type':'user'"
      ; "{'type':'user','message':{'content':'first'},'timestamp':'2026-01-15T10:00:01.000Z'}"
      ; "not json"
      ; "{'type':'assistant','message':{'content':[{'type':'text','text':'second'}]},'timestamp':'2026-01-15T10:00:02.000Z'}"
      ; "{'type':'user','message':{'content':'third'}}"
      ; "]" ].


Definition interleaved_fs : FileSystem :=
  one_session "-root-proj" "s1.jsonl" small (Some interleaved_log).


(** Only lifecycle markers. *)
Definition markers_fs : FileSystem :=
  one_session "-root-proj" "s1.jsonl" small
    (Some (log [ "{'type':'queue-operation','operation':'enqueue','timestamp':'2026-01-15T10:00:00.000Z'}"
               ; "{'type':'queue-operation','operation':'dequeue','timestamp':'2026-01-15T10:00:01.000Z'}" ])).

Definition over_ceiling : Stats :=
  {| size := 50 * 1024 * 1024 + 1; birthtime := 1000; mtime := 2000 |}.

Definition at_ceiling : Stats :=
  {| size := 50 * 1024 * 1024; birthtime := 1000; mtime := 2000 |}.

Definition oversize_fs : FileSystem :=
  one_session "-root-proj" "s1.jsonl" over_ceiling (Some hello_log).

Definition ceiling_fs : FileSystem :=
  one_session "-root-proj" "s1.jsonl" at_ceiling (Some hello_log).

(** A file name that holds the extension twice. *)
Definition odd_name_fs : FileSystem :=
  one_session "-root-proj" "a.jsonl.b.jsonl" small (Some hello_log).

(** A user message of white space only. *)
Definition blank_fs : FileSystem :=
  one_session "-root-proj" "s1.jsonl" small
    (Some (log ["{'type':'user','message':{'content':'   '},'timestamp':'2026-01-15T10:00:01.000Z'}"])).

(** Two sessions, one of which ends on a timestamp that is an object with
    a member [toString]. *)
Definition object_stamp_fs : FileSystem :=
  disk [("-root-proj",
         [ ("s1.jsonl", small, Some hello_log)
         ; ("s2.jsonl", small,
            Some (log ["{'type':'user','message':{'content':'x'},'timestamp':{'toString':1}}"])) ])].

(** The info record of [hello_fs]. *)
Definition hello_info : ClaudeSessionInfo :=
  {| sessionId := "s1";
     projectPath := "/home/user/myproject";
     projectName := "myproject";
     cwd := "/home/user/myproject";
     gitBranch := JString EmptyString;
     version := JString EmptyString;
     preview := JString "Hello, can you help me?";
     userMessageCount := 1;
     assistantMessageCount := 1;
     createdAt := JString "2026-01-15T10:00:00.000Z";
     updatedAt := JString "2026-01-15T10:00:02.000Z";
     fileSize := 200 |}.

(** Where the single file of a [one_session] store with directory
    [-root-proj] and file [s1.jsonl] lies. *)
Definition s1_path : string := "/root/.claude/projects/-root-proj/s1.jsonl".

(** The tool-use and tool-result example of the tests. *)
Definition tools_fs : FileSystem :=
  one_session "-home-user-resultproject" "s1.jsonl" small
    (Some (log [ "{'type':'queue-operation','operation':'dequeue','timestamp':'2026-01-15T10:00:00.000Z'}"
               ; "{'type':'user','cwd':'/home/user/resultproject','message':{'role':'user','content':'Show me the file'},'timestamp':'2026-01-15T10:00:01.000Z'}"
               ; "{'type':'assistant','message':{'role':'assistant','content':[{'type':'text','text':'Here is the content.'},{'type':'tool_use','id':'tool-002','name':'Read','input':{'file_path':'test.txt'}},{'type':'tool_result','tool_use_id':'tool-002','content':'file content here','is_error':false}]},'timestamp':'2026-01-15T10:00:02.000Z'}" ])).

(** An assistant event with an empty block list, and a user event whose
    fragments are all images. *)
Definition silent_fs : FileSystem :=
  one_session "-root-proj" "s1.jsonl" small
    (Some (log [ "{'type':'user','message':{'content':[{'type':'image','source':{}}]},'timestamp':'2026-01-15T10:00:01.000Z'}"
               ; "{'type':'assistant','message':{'content':[]},'timestamp':'2026-01-15T10:00:02.000Z'}" ])).

Fixpoint repeat_char (n : nat) (c : ascii) : string :=
  match n with
  | O => EmptyString
  | S n' => String c (repeat_char n' c)
  end.

(** A user message of 200 characters. *)
Definition long_fs : FileSystem :=
  one_session "-root-proj" "s1.jsonl" small
    (Some ((dq "{'type':'user','message':{'content':'" ++ repeat_char 200 "A"
               ++ dq "'},'timestamp':'2026-01-15T10:00:01.000Z'}"
               ++ String JsString.LF EmptyString)%string)).

Definition epoch : nat -> Z := fun _ => 0%Z.
Definition later : nat -> Z := fun _ => 1000%Z.

End Disk.

(* ================================================================== *)
(** * Further notions, for the properties beyond the claims *)
(* ================================================================== *)

From Stdlib Require Import Sorted.

(** A block that sets [hasToolBlocks]. *)
Definition is_tool_block (b : MessageContentBlock) : bool :=
  match b with
  | TextBlock _ => false
  | ToolUseBlock _ _ _ | ToolResultBlock _ _ _ => true
  end.

(** The texts of the text blocks, in order. *)
Definition block_texts (blocks : list MessageContentBlock) : list jsval :=
  flat_map (fun b => match b with
                     | TextBlock t => [t]
                     | _ => []
                     end) blocks.

Definition is_user_message (m : ParsedMessage) : bool :=
  match role m with user => true | assistant => false end.

Definition is_assistant_message (m : ParsedMessage) : bool :=
  match role m with user => false | assistant => true end.

(** What the accumulators of the block loop of [parseAssistantMessage]
    satisfy after every turn. *)
Definition blocks_invariant (acc : BlockAcc) : Prop :=
  let '(blocks, textParts, hasTool) := acc in
  textParts = block_texts blocks
  /\ hasTool = existsb is_tool_block blocks
  /\ Forall (fun t => Js.truthy t = true) textParts.

(** The character [c] occurs in [s]. *)
Fixpoint has_char (c : ascii) (s : string) : bool :=
  match s with
  | EmptyString => false
  | String d s' => Ascii.eqb d c || has_char c s'
  end.

(** The string holds a character that is not white space. *)
Fixpoint has_ink (s : string) : bool :=
  match s with
  | EmptyString => false
  | String c s' => negb (JsString.isWhiteSpace c) || has_ink s'
  end.

Definition is_array_or_object (v : jsval) : bool :=
  match v with
  | JArray _ | JObject _ => true
  | _ => false
  end.

(** A number of milliseconds from which no valid Date is made. *)
Definition invalid_time (t : Z) : bool := (8640000000000000 <? Z.abs t)%Z.

Definition is_jstring (v : jsval) : bool :=
  match v with
  | JString _ => true
  | _ => false
  end.

(** Two stores with the same metadata variables, and a statement whose
    outcome and whose effect on these variables depend on nothing else. *)
Definition same_metadata (l1 l2 : Locals) : Prop := metadata l1 = metadata l2.

Definition MetadataOnly {A} (c : Stmt Locals A) : Prop :=
  forall l1 l2,
    same_metadata l1 l2 ->
    fst (c l1) = fst (c l2) /\ same_metadata (snd (c l1)) (snd (c l2)).

(** The info record of a result of [parseClaudeSession]. *)
Definition info_outcome (r : result (option ParsedSession))
  : result (option ClaudeSessionInfo) :=
  match r with
  | Ok (Some ps) => Ok (Some (info ps))
  | Ok None => Ok None
  | Throw e => Throw e
  end.

Section MoreNotions.

Context {host : Host}.

(** What every message that [parseClaudeSession] emits satisfies: a user
    message is one text block holding its non-blank content; an assistant
    message has at least one block, its flag tells whether a tool block is
    among them, its text blocks are non-empty and its content is their
    texts joined by newlines. *)
Definition well_formed_message (m : ParsedMessage) : Prop :=
  match role m with
  | user =>
      hasToolBlocks m = false
      /\ contentBlocks m = [TextBlock (JString (content m))]
      /\ JsString.nonEmpty (JsString.trim (content m)) = true
  | assistant =>
      contentBlocks m <> []
      /\ hasToolBlocks m = existsb is_tool_block (contentBlocks m)
      /\ Forall (fun t => Js.truthy t = true) (block_texts (contentBlocks m))
      /\ Array_join (String JsString.LF EmptyString) (block_texts (contentBlocks m))
         = Ok (content m)
  end.

(** The info record [i] was read from the file [path], whose lines are
    [lines] and whose stat is [stat], in a project directory of decoded
    name [pp]: it is the outcome of the metadata pass of the listing on
    that file of that directory, or the info of a result of
    [parseClaudeSession] for a session id under which that file is the
    one located. *)
Definition read_from (fs : FileSystem) (i : ClaudeSessionInfo) (path pp : string)
           (lines : list string) (stat : Stats) : Prop :=
  readJsonlLines fs path = Ok (Some (lines, stat))
  /\ ((exists projectDir jsonlFile,
          listed_from fs projectDir jsonlFile i
          /\ path = session_file_path projectDir jsonlFile
          /\ pp = decodeProjectPath (name projectDir))
      \/ (exists clock sid ps,
             parseClaudeSession fs clock sid = Ok (Some ps)
             /\ info ps = i
             /\ locate_session fs sid = Some (path, pp))).

(** The cut of the preview (lines 381-391) throws on the user event of
    the line when it is run while no preview has been found: the catch
    of the line loop then skips the call of [parseUserMessage] on that
    event. *)
Definition preview_cut_throws (line : string) : bool :=
  match JSON_parse line with
  | Some entry =>
      is_user_line line
      && match fst (capture_preview entry initial_locals) with
         | Throw _ => true
         | Ok _ => false
         end
  | None => false
  end.

(** The message reconstructor on the event of a line, called when the
    clock has been read [n] times: [parseUserMessage] on a user event,
    [parseAssistantMessage] on an assistant event; zero or one message,
    and the number of readings of the clock after the call.  A line that
    does not decode, or an event of another type, gives no message. *)
Definition reconstruct (clock : nat -> Z) (line : string) (n : nat)
  : option ParsedMessage * nat :=
  match JSON_parse line with
  | Some entry =>
      let '(r, n') :=
        if is_user_line line then parseUserMessage clock entry n
        else if is_assistant_line line then parseAssistantMessage clock entry n
        else (Ok None, n) in
      (match r with Ok (Some m) => Some m | _ => None end, n')
  | None => (None, n)
  end.

(** The messages of the events of [lines], one event after the other in
    file order: each event gives what the reconstructor makes of it,
    except a user event on which the cut of the preview throws while no
    line before it has given a preview ([found] tells whether one has),
    which gives none.  With [found] true from the start, every event
    gives what the reconstructor makes of it. *)
Fixpoint messages_in_order (clock : nat -> Z) (found : bool) (n : nat)
         (lines : list string) : list ParsedMessage :=
  match lines with
  | [] => []
  | line :: rest =>
      let '(m, n') :=
        if negb found && preview_cut_throws line then (None, n)
        else reconstruct clock line n in
      match m with Some m => [m] | None => [] end
      ++ messages_in_order clock
           (found || match line_preview line with Some _ => true | None => false end)
           n' rest
  end.

(** The value a user event offers for a variable captured from its member
    [k] ([cwd], [gitBranch], [version]): the member, when it is truthy. *)
Definition event_field (k : string) (entry : jsval) : option jsval :=
  match Js.Get entry k with
  | Ok v => if Js.truthy v then Some v else None
  | Throw _ => None
  end.

Definition line_field (k : string) (line : string) : option jsval :=
  if is_user_line line then
    match JSON_parse line with
    | Some entry => event_field k entry
    | None => None
    end
  else None.

(** The first such value in file order. *)
Fixpoint first_field (k : string) (lines : list string) : option jsval :=
  match lines with
  | [] => None
  | line :: rest =>
      match line_field k line with
      | Some v => Some v
      | None => first_field k rest
      end
  end.

(** The project directory [d] holds a file for the session [sessionId]. *)
Definition holds_session (fs : FileSystem) (sessionId : string) (d : Dirent) : bool :=
  isDirectory d && existsSync fs (session_file_path d (sessionId ++ ".jsonl")).

(** The time value the sort of the listing reads from [updatedAt], when
    there is one: the conversion does not throw and does not give NaN. *)
Definition updated_time (i : ClaudeSessionInfo) : option Z :=
  match Date_getTime (updatedAt i) with
  | Ok (Some t) => Some t
  | _ => None
  end.

Definition dated (i : ClaudeSessionInfo) : bool :=
  match updated_time i with Some _ => true | None => false end.

Definition updated_at (t : Z) (i : ClaudeSessionInfo) : bool :=
  match updated_time i with Some t' => (t' =? t)%Z | None => false end.

(** [a] was updated no earlier than [b]. *)
Definition not_older (a b : ClaudeSessionInfo) : Prop :=
  date_leb (updatedAt b) (updatedAt a) = true.

(** [new Date(v)] does not throw. *)
Definition date_readable (v : jsval) : bool :=
  match Date_getTime v with Ok _ => true | Throw _ => false end.

End MoreNotions.

(* ================================================================== *)
(** * The import route (src/app/api/claude-sessions/import/route.ts)

    The route calls four functions of the database layer, [@/lib/db],
    which is not among the sources at hand.  It is modelled over any
    implementation of them: a statement on the state [Db] of the database
    that returns or throws.  Rows are of a type [Session] of which the
    route reads [id] and compares [sdk_session_id]. *)
(* ================================================================== *)

Record Backend (Db Session : Type) : Type := {
  (** [session.id] *)
  session_id : Session -> jsval;
  (** [s.sdk_session_id === sessionId] *)
  sdk_session_id_is : Session -> jsval -> bool;
  (** [getAllSessions()] *)
  getAllSessions : Stmt Db (list Session);
  (** [createSession(title, undefined, undefined, workingDirectory, 'code')] *)
  createSession : string -> string -> Stmt Db Session;
  (** [updateSdkSessionId(id, sdkSessionId)] *)
  updateSdkSessionId : jsval -> jsval -> Stmt Db unit;
  (** [addMessage(id, role, content)] *)
  addMessage : jsval -> Role -> string -> Stmt Db unit
}.

(** The calls of [Response.json] of the two routes, with the fields of their
    bodies that are computed; the texts of the error messages are left
    out. *)
Inductive Response : Type :=
| SessionIdRequired                       (* status 400 *)
| AlreadyImported (existingSessionId : jsval)           (* status 409 *)
| NotFound                                (* status 404 *)
| NoMessages                              (* status 400 *)
| Imported (id : jsval) (title : string) (messageCount : nat)
           (projectPath : string) (sdkSessionId : jsval)  (* status 201 *)
| Listed (sessions : list ClaudeSessionInfo)              (* status 200 *)
| Failed (error : exn).                   (* status 500 *)

Definition status (r : Response) : Z :=
  match r with
  | SessionIdRequired => 400
  | AlreadyImported _ => 409
  | NotFound => 404
  | NoMessages => 400
  | Imported _ _ _ _ _ => 201
  | Listed _ => 200
  | Failed _ => 500
  end.

(** A string that is not white space only: [s.trim()] is truthy. *)
Definition not_blank (s : string) : bool := JsString.nonEmpty (JsString.trim s).

(** A call of [addMessage] with the role user. *)
Definition is_user_call (c : Role * string) : bool :=
  match fst c with user => true | assistant => false end.

(** The title of the imported session (lines 48-51 of the route):
    [firstUserMsg.content.slice(0, 50) + (firstUserMsg.content.length > 50 ? '...' : '')],
    or [`Imported: ${info.projectName}`] without a user message. *)
Definition import_title (ps : ParsedSession) : string :=
  match List.find is_user_message (messages ps) with
  | Some firstUserMsg =>
      JsString.slice0 50 (content firstUserMsg)
      ++ (if (50 <? String.length (content firstUserMsg))%nat then "..." else EmptyString)
  | None => "Imported: " ++ projectName (info ps)
  end.

(** [info.cwd || info.projectPath] *)
Definition working_directory (i : ClaudeSessionInfo) : string :=
  if JsString.nonEmpty (cwd i) then cwd i else projectPath i.

Section Routes.

Context {host : Host}.

(** [GET] of the listing route, which follows in the same source file
    (lines 95-104): the listing, or status 500 when [listClaudeSessions]
    throws. *)
Definition GET (fs : FileSystem) : Response :=
  match listClaudeSessions fs with
  | Ok sessions => Listed sessions
  | Throw error => Failed error
  end.

Variables Db Session : Type.
Variable db : Backend Db Session.

(** [JSON.stringify(msg.contentBlocks)], a built-in of the engine. *)
Variable JSON_stringify : list MessageContentBlock -> string.

(** [msg.hasToolBlocks ? JSON.stringify(msg.contentBlocks) : msg.content] *)
Definition stored_content (msg : ParsedMessage) : string :=
  if hasToolBlocks msg then JSON_stringify (contentBlocks msg) else content msg.

(** The body of the loop over the messages. *)
Definition import_message (id : jsval) (msg : ParsedMessage) : Stmt Db unit :=
  let content := stored_content msg in
  if not_blank content then addMessage db id (role msg) content else ret tt.

(** [for (const msg of messages) ...]; an exception of [addMessage] ends
    the loop. *)
Fixpoint import_messages (id : jsval) (msgs : list ParsedMessage) : Stmt Db unit :=
  match msgs with
  | [] => ret tt
  | msg :: rest => (import_message id msg ;; import_messages id rest)%stmt
  end.

(** The calls of [addMessage] that the loop makes for [msgs], in order:
    one for each message whose stored content is not blank, with its
    role and that content. *)
Definition stored_calls (msgs : list ParsedMessage) : list (Role * string) :=
  List.map (fun m => (role m, stored_content m))
           (List.filter (fun m => not_blank (stored_content m)) msgs).

(** Calls of [addMessage] made one after the other; an exception ends
    them. *)
Fixpoint add_all (id : jsval) (calls : list (Role * string)) : Stmt Db unit :=
  match calls with
  | [] => ret tt
  | (r, c) :: rest => (addMessage db id r c ;; add_all id rest)%stmt
  end.

(** [parseClaudeSession(sessionId)] for the value found in the request.
    The parser uses its argument in the template literal
    [`${sessionId}.jsonl`], which converts it to a string inside the [try]
    of lines 328-343, so that a conversion that throws gives [null]; and
    as the field [sessionId] of the info record, which the route does not
    read.  (After a [null] the route converts the value once more, see
    [import_session].) *)
Definition parse_requested (fs : FileSystem) (clock : nat -> Z) (sessionId : jsval)
  : result (option ParsedSession) :=
  match ToString sessionId with
  | Ok s => parseClaudeSession fs clock s
  | Throw _ => Ok None
  end.

(** The body of the [try] of [POST] (lines 7-86); [text] is the decoded
    body of the request, which [request.json()] hands to the JSON
    reader.  The message of the 404 answer is the template literal of
    line 33, which converts [sessionId] to a string: a conversion that
    throws leaves the [try] before the answer is made. *)
Definition import_session (fs : FileSystem) (clock : nat -> Z) (text : string)
  : Stmt Db Response :=
  (body <- lift (JSON_parse_or_throw text) ;;
   sessionId <- lift (Js.Get body "sessionId") ;;
   if negb (Js.truthy sessionId) then ret SessionIdRequired
   else
     existingSessions <- getAllSessions db ;;
     match List.find (fun s => sdk_session_id_is db s sessionId) existingSessions with
     | Some alreadyImported => ret (AlreadyImported (session_id db alreadyImported))
     | None =>
         parsed <- lift (parse_requested fs clock sessionId) ;;
         match parsed with
         | None => lift (ToString sessionId) ;; ret NotFound
         | Some ps =>
             match messages ps with
             | [] => ret NoMessages
             | _ :: _ =>
                 let title := import_title ps in
                 session <- createSession db title (working_directory (info ps)) ;;
                 updateSdkSessionId db (session_id db session) sessionId ;;
                 import_messages (session_id db session) (messages ps) ;;
                 ret (Imported (session_id db session) title (length (messages ps))
                               (projectPath (info ps)) sessionId)
             end
         end
     end)%stmt.

(** [POST] (lines 5-92): any exception becomes the response with status
    500. *)
Definition POST (fs : FileSystem) (clock : nat -> Z) (text : string) (d : Db)
  : Response * Db :=
  match import_session fs clock text d with
  | (Ok response, d') => (response, d')
  | (Throw error, d') => (Failed error, d')
  end.

End Routes.

(* ================================================================== *)
(** * The size shown in the import dialog
      (src/components/layout/ImportSessionDialog.tsx, lines 63-67)

    [bytes] is the [fileSize] of an info record: an integer, of magnitude
    below [2^53], so that it is a double exactly and so are its quotients
    by 1024 and by 1024 * 1024. *)
(* ================================================================== *)

(** [`${n}`] for an integer [n]. *)
Definition integer_string (n : Z) : string :=
  if (n <? 0)%Z then "-" ++ Node.natural_string (- n) else Node.natural_string n.

(** [(num / den).toFixed(1)] for [0 <= num] and [0 < den]: the digits of
    the integer [n] for which [n / 10] is nearest to [num / den], the
    larger one of two, with a point before the last digit. *)
Definition toFixed1 (num den : Z) : string :=
  let n := ((20 * num + den) / (2 * den))%Z in
  Node.natural_string (n / 10) ++ "." ++ String (Node.digit_char (n mod 10)) EmptyString.

Definition formatFileSize (bytes : Z) : string :=
  if (bytes <? 1024)%Z then integer_string bytes ++ " B"
  else if (bytes <? 1024 * 1024)%Z then toFixed1 bytes 1024 ++ " KB"
  else toFixed1 bytes (1024 * 1024) ++ " MB".

(* ================================================================== *)
(** * Further inputs for the examples *)
(* ================================================================== *)

Module Cases.

Import Disk.

(** The end-to-end log after one more exchange was appended to it. *)
Definition appended_lines : string :=
  log [ "{'type':'user','message':{'content':'Thanks'},'timestamp':'2026-01-15T10:00:03.000Z'}"
      ; "{'type':'progress','timestamp':'2026-01-15T10:00:04.000Z'}" ].

Definition grown_fs : FileSystem :=
  one_session "-home-user-myproject" "s1.jsonl" small
              (Some (hello_log ++ appended_lines)%string).

(** A log whose one user event carries no timestamp, before and after
    the same lines were appended to it. *)
Definition unstamped_log : string :=
  log ["{'type':'user','message':{'content':'hi'}}"].

Definition unstamped_grown_fs : FileSystem :=
  one_session "-root-proj" "s1.jsonl" small
              (Some (unstamped_log ++ appended_lines)%string).

(** Two project directories; the session of the second was updated
    last. *)
Definition newer_log : string :=
  log [ "{'type':'user','cwd':'/srv/app','gitBranch':'main','version':'1.0.3','message':{'content':'Deploy'},'timestamp':'2026-02-01T08:00:00.000Z'}" ].

Definition two_projects_fs : FileSystem :=
  disk [ ("-home-user-myproject", [("s1.jsonl", small, Some hello_log)])
       ; ("-srv-app", [("s2.jsonl", small, Some newer_log)]) ].

Definition newer_info : ClaudeSessionInfo :=
  {| sessionId := "s2";
     projectPath := "/srv/app";
     projectName := "app";
     cwd := "/srv/app";
     gitBranch := JString "main";
     version := JString "1.0.3";
     preview := JString "Deploy";
     userMessageCount := 1;
     assistantMessageCount := 0;
     createdAt := JString "2026-02-01T08:00:00.000Z";
     updatedAt := JString "2026-02-01T08:00:00.000Z";
     fileSize := 200 |}.

Definition hello_path : string :=
  "/root/.claude/projects/-home-user-myproject/s1.jsonl".

(** A file with blank lines between its events. *)
Definition spaced_content : string :=
  String JsString.LF
    (dq "{'type':'user','message':{'content':'one'}}"
     ++ String JsString.LF (String " " (String "009" (String JsString.LF
          (String JsString.LF
             (dq "{'type':'user','message':{'content':'two'}}"))))))%string.

Definition spaced_fs : FileSystem :=
  one_session "-root-proj" "s1.jsonl" small (Some spaced_content).

(** Three sessions in two project directories; the first and the third
    were updated at the same time, the second after them. *)
Definition tied_log : string :=
  log [ "{'type':'user','message':{'content':'Tie'},'timestamp':'2026-01-15T10:00:02.000Z'}" ].

Definition tied_fs : FileSystem :=
  disk [ ("-home-user-myproject",
          [("s1.jsonl", small, Some hello_log); ("s2.jsonl", small, Some newer_log)])
       ; ("-srv-app", [("s3.jsonl", small, Some tied_log)]) ].

Definition tied_info : ClaudeSessionInfo :=
  {| sessionId := "s3";
     projectPath := "/srv/app";
     projectName := "app";
     cwd := "/srv/app";
     gitBranch := JString EmptyString;
     version := JString EmptyString;
     preview := JString "Tie";
     userMessageCount := 1;
     assistantMessageCount := 0;
     createdAt := JString "2026-01-15T10:00:02.000Z";
     updatedAt := JString "2026-01-15T10:00:02.000Z";
     fileSize := 200 |}.

Definition root_proj : Dirent := {| name := "-root-proj"; isDirectory := true |}.

(** A user event whose [cwd] is a number. *)
Definition numeric_cwd_fs : FileSystem :=
  one_session "-root-proj" "s1.jsonl" small
    (Some (log ["{'type':'user','cwd':5,'message':{'content':'hi'},'timestamp':'2026-01-15T10:00:01.000Z'}"])).

(** A session file whose events carry no timestamp and whose
    modification time is beyond the range of a Date. *)
Definition beyond_range : Stats :=
  {| size := 200; birthtime := 1000; mtime := 9000000000000000 |}.

Definition undated_fs : FileSystem :=
  one_session "-root-proj" "s1.jsonl" beyond_range (Some unstamped_log).

(** A database held in memory. *)
Record MemSession : Type := {
  ms_id : jsval;
  ms_title : string;
  ms_directory : string;
  ms_sdk : jsval
}.

Record MemDb : Type := {
  db_sessions : list MemSession;
  db_messages : list (jsval * Role * string)
}.

Definition same_string (a b : jsval) : bool :=
  match a, b with
  | JString x, JString y => String.eqb x y
  | _, _ => false
  end.

Definition memory : Backend MemDb MemSession :=
  {| session_id := ms_id;
     sdk_session_id_is := fun s v => same_string (ms_sdk s) v;
     getAllSessions := read db_sessions;
     createSession := fun title directory d =>
       let s := {| ms_id := JString ("chat-" ++ Node.natural_string
                                                  (Z.of_nat (length (db_sessions d))));
                   ms_title := title;
                   ms_directory := directory;
                   ms_sdk := JString EmptyString |} in
       (Ok s, {| db_sessions := db_sessions d ++ [s]; db_messages := db_messages d |});
     updateSdkSessionId := fun id v =>
       assign (fun d =>
                 {| db_sessions :=
                      List.map (fun s => if same_string (ms_id s) id
                                         then {| ms_id := ms_id s;
                                                 ms_title := ms_title s;
                                                 ms_directory := ms_directory s;
                                                 ms_sdk := v |}
                                         else s) (db_sessions d);
                    db_messages := db_messages d |});
     addMessage := fun id role content =>
       assign (fun d => {| db_sessions := db_sessions d;
                           db_messages := db_messages d ++ [(id, role, content)] |}) |}.

Definition empty_db : MemDb := {| db_sessions := []; db_messages := [] |}.

(** The database after the end-to-end example was imported. *)
Definition hello_db : MemDb :=
  {| db_sessions := [ {| ms_id := JString "chat-0";
                         ms_title := "Hello, can you help me?";
                         ms_directory := "/home/user/myproject";
                         ms_sdk := JString "s1" |} ];
     db_messages := [ (JString "chat-0", user, "Hello, can you help me?")
                    ; (JString "chat-0", assistant, "Of course!") ] |}.

(** The request of the dialog for the session [s1]. *)
Definition import_s1 : string := dq "{'sessionId':'s1'}".

(** A request whose session id is an object with a member [toString]. *)
Definition import_object : string := dq "{'sessionId':{'toString':1}}".

(** A database that stores user messages and fails on the others. *)
Definition user_only : Backend MemDb MemSession :=
  {| session_id := session_id memory;
     sdk_session_id_is := sdk_session_id_is memory;
     getAllSessions := getAllSessions memory;
     createSession := createSession memory;
     updateSdkSessionId := updateSdkSessionId memory;
     addMessage := fun id role content =>
       match role with
       | user => addMessage memory id role content
       | assistant => lift (Throw SystemError)
       end |}.

(** A user event whose only text fragment holds a number, alone and after
    a user event that has set the preview. *)
Definition number_text_line : string :=
  "{'type':'user','message':{'content':[{'type':'text','text':5}]},'timestamp':'2026-01-15T10:00:02.000Z'}".

Definition number_text_fs : FileSystem :=
  one_session "-root-proj" "s1.jsonl" small (Some (log [number_text_line])).

Definition number_text_later_fs : FileSystem :=
  one_session "-root-proj" "s1.jsonl" small
    (Some (log [ "{'type':'user','message':{'content':'hi'},'timestamp':'2026-01-15T10:00:01.000Z'}"
               ; number_text_line ])).

(** A reply of white space only. *)
Definition blank_reply_fs : FileSystem :=
  one_session "-root-proj" "s1.jsonl" small
    (Some (log [ "{'type':'user','message':{'content':'hi'},'timestamp':'2026-01-15T10:00:01.000Z'}"
               ; "{'type':'assistant','message':{'content':[{'type':'text','text':' '}]},'timestamp':'2026-01-15T10:00:02.000Z'}" ])).

(** [JSON.stringify] in the examples without tool blocks, where it is not
    called. *)
Definition not_called : list MessageContentBlock -> string := fun _ => EmptyString.

End Cases.

Unset Implicit Arguments.

(* ================================================================== *)
(** * Facts about the string helpers and the path decoder *)
(* ================================================================== *)

Lemma slice0_length (n : nat) (s : string) :
  String.length (JsString.slice0 n s) <= n.
Proof.
  revert s; induction n as [|n IH]; intros [|c s]; simpl; try lia.
  specialize (IH s); lia.
Qed.

Lemma slice0_nonEmpty (n : nat) (s : string) :
  JsString.nonEmpty s = true -> JsString.nonEmpty (JsString.slice0 (S n) s) = true.
Proof. destruct s; simpl; auto. Qed.

Lemma replace_global_single (c r : ascii) (s : string) :
  JsString.replace_global c (String r EmptyString) s
  = JsString.map (fun d => if Ascii.eqb d c then r else d) s.
Proof.
  induction s as [|d s IH]; simpl; [reflexivity|].
  rewrite IH. destruct (Ascii.eqb d c); reflexivity.
Qed.

Lemma startsWith_one (c d : ascii) (s : string) :
  JsString.startsWith (String d s) (String c EmptyString) = Ascii.eqb c d.
Proof. cbn [JsString.startsWith]. apply andb_true_r. Qed.

(** C9.  [decodeProjectPath] gives back a name that does not begin with the
    escape character; on a name that does, the leading escape and every
    other escape become a separator.  The three examples of the
    specification hold.  The function is total: it cannot throw. *)
Theorem decodeProjectPath_spec :
  (forall encodedName : string,
      decodeProjectPath encodedName
      = match encodedName with
        | String c rest =>
            if Ascii.eqb c "-"
            then String "/" (JsString.map escape_to_separator rest)
            else encodedName
        | EmptyString => encodedName
        end)
  /\ decodeProjectPath "-root-myproject" = "/root/myproject"
  /\ decodeProjectPath "-Users-john-projects-myapp" = "/Users/john/projects/myapp"
  /\ decodeProjectPath "some-dir" = "some-dir".
Proof.
  split; [|repeat split; reflexivity].
  intros [|c rest]; [reflexivity|].
  unfold decodeProjectPath, JsString.replace_anchored.
  rewrite startsWith_one, (Ascii.eqb_sym "-" c).
  destruct (Ascii.eqb c "-") eqn:E; [|reflexivity].
  cbn [negb JsString.replace_global].
  change (Ascii.eqb "/" "-") with false.
  cbn [String.append]. rewrite replace_global_single. reflexivity.
Qed.

(* ================================================================== *)
(** * Frame rules for statements *)
(* ================================================================== *)

Section Frames.

Context {S T : Type} (p : S -> T).

Lemma preserves_ret {A} (a : A) : Preserves p (ret a).
Proof. intro s; reflexivity. Qed.

Lemma preserves_lift {A} (r : result A) : Preserves p (lift r).
Proof. intro s; reflexivity. Qed.

Lemma preserves_read {A} (f : S -> A) : Preserves p (read f).
Proof. intro s; reflexivity. Qed.

Lemma preserves_assign (f : S -> S) :
  (forall s, p (f s) = p s) -> Preserves p (assign f).
Proof. intros H s; apply H. Qed.

Lemma preserves_bind {A B} (c : Stmt S A) (k : A -> Stmt S B) :
  Preserves p c -> (forall a, Preserves p (k a)) -> Preserves p (bind c k).
Proof.
  intros Hc Hk s. unfold bind. specialize (Hc s).
  destruct (c s) as [[a|e] s']; simpl in *.
  - rewrite Hk. exact Hc.
  - exact Hc.
Qed.

Lemma preserves_zoom {U A} (get : S -> U) (set : U -> S -> S) (c : Stmt U A) :
  (forall u s, p (set u s) = p s) -> Preserves p (zoom get set c).
Proof.
  intros H s. unfold zoom. destruct (c (get s)) as [r u]. simpl. apply H.
Qed.

End Frames.

(** Walks through a statement, leaving the assignments to [tac]. *)
Ltac frame_step tac :=
  match goal with
  | |- Preserves _ (ret _) => apply preserves_ret
  | |- Preserves _ (lift _) => apply preserves_lift
  | |- Preserves _ (read _) => apply preserves_read
  | |- Preserves _ (assign _) => apply preserves_assign; intro; cbv beta; tac
  | |- Preserves _ (zoom _ _ _) => apply preserves_zoom; intros; tac
  | |- Preserves _ (bind _ _) => apply preserves_bind; [|intro]
  | |- Preserves _ (if ?b then _ else _) => destruct b
  | |- Preserves _ (match ?x with _ => _ end) => destruct x
  end.

Ltac frame_with tac := repeat (frame_step tac).

Ltac frame := frame_with ltac:(reflexivity).

Section ScanFacts.

Context {host : Host}.

Lemma preserves_part {S T U A} (p : S -> T) (f : T -> U) (c : Stmt S A) :
  Preserves p c -> Preserves (fun s => f (p s)) c.
Proof. intros H s. simpl. rewrite H. reflexivity. Qed.

Lemma bind_assign {S A} (f : S -> S) (k : unit -> Stmt S A) (s : S) :
  bind (assign f) k s = k tt (f s).
Proof. reflexivity. Qed.

Lemma bind_lift_ok {S A B} (a : A) (k : A -> Stmt S B) (s : S) :
  bind (lift (Ok a)) k s = k a s.
Proof. reflexivity. Qed.

Lemma bind_lift_throw {S A B} (e : exn) (k : A -> Stmt S B) (s : S) :
  bind (lift (@Throw A e)) k s = (Throw e, s).
Proof. reflexivity. Qed.

(** ** The two kinds of hook *)

Lemma hook_no_message : MessageHook no_message.
Proof. intros entry l. reflexivity. Qed.

Lemma hook_push_parsed parse : MessageHook (push_parsed parse).
Proof. intros entry. unfold push_parsed. frame. Qed.

(** ** What each part of the loop body leaves alone *)

Lemma capture_first_frame {T} (p : Locals -> T) get set entry k :
  (forall x l, p (set x l) = p l) -> Preserves p (capture_first get set entry k).
Proof. intros H. unfold capture_first. frame_with ltac:(apply H). Qed.

Lemma capture_preview_frame {T} (p : Locals -> T) entry :
  (forall x l, p (set_preview x l) = p l) -> Preserves p (capture_preview entry).
Proof. intros H. unfold capture_preview. frame_with ltac:(apply H). Qed.

Lemma user_metadata_frame {T} (p : Locals -> T) entry :
  (forall x l, p (set_cwd x l) = p l) ->
  (forall x l, p (set_gitBranch x l) = p l) ->
  (forall x l, p (set_version x l) = p l) ->
  (forall x l, p (set_preview x l) = p l) ->
  (forall x l, p (set_userMessageCount x l) = p l) ->
  Preserves p (user_metadata entry).
Proof.
  intros. unfold user_metadata.
  repeat first [ apply capture_first_frame; assumption
               | apply capture_preview_frame; assumption
               | frame_step ltac:(auto) ].
Qed.

Lemma dispatch_frame {T} (p : Locals -> T) onUser onAssistant entry :
  (forall e, Preserves p (onUser e)) ->
  (forall e, Preserves p (onAssistant e)) ->
  (forall x l, p (set_cwd x l) = p l) ->
  (forall x l, p (set_gitBranch x l) = p l) ->
  (forall x l, p (set_version x l) = p l) ->
  (forall x l, p (set_preview x l) = p l) ->
  (forall x l, p (set_userMessageCount x l) = p l) ->
  (forall x l, p (set_assistantMessageCount x l) = p l) ->
  Preserves p (dispatch onUser onAssistant entry).
Proof.
  intros. unfold dispatch.
  repeat first [ apply user_metadata_frame; assumption
               | match goal with
                 | |- Preserves _ (onUser _) => auto
                 | |- Preserves _ (onAssistant _) => auto
                 end
               | frame_step ltac:(auto) ].
Qed.

(** ** Timestamps: first seen and last seen *)

Lemma track_timestamps_run entry l :
  track_timestamps entry l
  = match Js.Get entry "timestamp" with
    | Throw e => (Throw e, l)
    | Ok ts =>
        (Ok tt,
         if Js.truthy ts
         then set_updatedAt ts (if Js.truthy (v_createdAt l) then l else set_createdAt ts l)
         else l)
    end.
Proof.
  unfold track_timestamps, bind, lift, read, assign, ret.
  destruct (Js.Get entry "timestamp") as [ts|e]; [|reflexivity].
  destruct (Js.truthy ts); [|reflexivity].
  destruct (Js.truthy (v_createdAt l)); reflexivity.
Qed.

Lemma hook_stamps h :
  MessageHook h -> forall e, Preserves (fun l => (v_createdAt l, v_updatedAt l)) (h e).
Proof.
  intros H e.
  exact (@preserves_part _ _ _ _ metadata
           (fun m => let '(_, _, _, _, c, u, _, _) := m in (c, u)) (h e) (H e)).
Qed.

Lemma scan_line_stamps onUser onAssistant line l :
  MessageHook onUser -> MessageHook onAssistant ->
  let l' := try_catch (scan_line onUser onAssistant line) l in
  v_createdAt l'
  = match line_timestamp line with
    | Some ts => if Js.truthy (v_createdAt l) then v_createdAt l else ts
    | None => v_createdAt l
    end
  /\ v_updatedAt l'
     = match line_timestamp line with
       | Some ts => ts
       | None => v_updatedAt l
       end.
Proof.
  intros HU HA.
  cbv beta iota zeta delta [try_catch scan_line JSON_parse_or_throw line_timestamp bind lift].
  destruct (JSON_parse line) as [entry|]; [|split; reflexivity].
  rewrite track_timestamps_run.
  destruct (Js.Get entry "timestamp") as [ts|e]; [|split; reflexivity].
  assert (F : Preserves (fun l => (v_createdAt l, v_updatedAt l))
                        (dispatch onUser onAssistant entry)).
  { apply dispatch_frame; try reflexivity; apply hook_stamps; assumption. }
  match goal with
  | |- context [dispatch _ _ _ ?s] => specialize (F s)
  end.
  injection F as F1 F2. rewrite F1, F2.
  destruct (Js.truthy ts); [|split; reflexivity].
  destruct (Js.truthy (v_createdAt l)); split; reflexivity.
Qed.

(** ** Counts: one per qualifying event *)

Lemma bind_preserved {S T A B} (p : S -> T) (c : Stmt S A) (k : A -> Stmt S B) s :
  (forall a, Preserves p (k a)) -> p (snd (bind c k s)) = p (snd (c s)).
Proof.
  intros H. unfold bind. destruct (c s) as [[a|e] s']; simpl; [apply H|reflexivity].
Qed.

Lemma Get_throws_always entry k k' e :
  Js.Get entry k = Throw e -> Js.Get entry k' = Throw e.
Proof. destruct entry; simpl; congruence. Qed.

Lemma user_metadata_counts entry l :
  v_userMessageCount (snd (user_metadata entry l)) = S (v_userMessageCount l)
  /\ v_assistantMessageCount (snd (user_metadata entry l)) = v_assistantMessageCount l.
Proof.
  split.
  - unfold user_metadata. rewrite bind_assign.
    match goal with
    | |- _ (snd (?c ?s)) = _ => assert (P : Preserves v_userMessageCount c)
    end.
    { repeat first [ apply capture_first_frame; reflexivity
                   | apply capture_preview_frame; reflexivity
                   | frame_step ltac:(reflexivity) ]. }
    rewrite P. reflexivity.
  - apply (user_metadata_frame v_assistantMessageCount); reflexivity.
Qed.

Lemma hook_counts h :
  MessageHook h ->
  forall e, Preserves (fun l => (v_userMessageCount l, v_assistantMessageCount l)) (h e).
Proof.
  intros H e.
  exact (@preserves_part _ _ _ _ metadata
           (fun m => let '(_, _, _, _, _, _, u, a) := m in (u, a)) (h e) (H e)).
Qed.

Lemma dispatch_counts onUser onAssistant entry ty l :
  MessageHook onUser -> MessageHook onAssistant ->
  Js.Get entry "type" = Ok ty ->
  let l' := snd (dispatch onUser onAssistant entry l) in
  v_userMessageCount l'
  = v_userMessageCount l + (if Js.is_string ty "user" then 1 else 0)
  /\ v_assistantMessageCount l'
     = v_assistantMessageCount l + (if Js.is_string ty "assistant" then 1 else 0).
Proof.
  intros HU HA Hty. unfold dispatch. rewrite Hty, bind_lift_ok.
  destruct (Js.is_string ty "user") eqn:EU.
  - assert (Js.is_string ty "assistant" = false) as ->.
    { destruct ty; try discriminate. simpl in *.
      apply String.eqb_eq in EU. subst. reflexivity. }
    pose proof (hook_counts _ HU) as P.
    pose proof (bind_preserved (fun l => (v_userMessageCount l, v_assistantMessageCount l))
                  (user_metadata entry) (fun _ => onUser entry) l (fun _ => P entry)) as Q.
    cbv beta in Q. injection Q as Q1 Q2. cbv zeta. rewrite Q1, Q2.
    destruct (user_metadata_counts entry l) as [-> ->]. lia.
  - destruct (Js.is_string ty "assistant").
    + rewrite bind_assign.
      pose proof (hook_counts _ HA entry
                    (set_assistantMessageCount (S (v_assistantMessageCount l)) l)) as Q.
      cbv beta in Q. injection Q as Q1 Q2. cbv zeta. rewrite Q1, Q2. simpl. lia.
    + simpl. lia.
Qed.

Lemma scan_line_counts onUser onAssistant line l :
  MessageHook onUser -> MessageHook onAssistant ->
  let l' := try_catch (scan_line onUser onAssistant line) l in
  v_userMessageCount l'
  = v_userMessageCount l + (if is_user_line line then 1 else 0)
  /\ v_assistantMessageCount l'
     = v_assistantMessageCount l + (if is_assistant_line line then 1 else 0).
Proof.
  intros HU HA.
  cbv beta iota zeta delta [try_catch scan_line JSON_parse_or_throw is_user_line
                            is_assistant_line event_type bind lift].
  destruct (JSON_parse line) as [entry|]; [|simpl; lia].
  rewrite track_timestamps_run.
  destruct (Js.Get entry "timestamp") as [ts|e] eqn:Hts.
  - destruct (Js.Get entry "type") as [ty|e] eqn:Hty.
    + match goal with
      | |- context [dispatch _ _ _ ?s] =>
          destruct (dispatch_counts _ _ _ _ s HU HA Hty) as [Q1 Q2]
      end.
      rewrite Q1, Q2.
      destruct (Js.truthy ts); [destruct (Js.truthy (v_createdAt l))|]; split; reflexivity.
    + rewrite (Get_throws_always _ _ "timestamp" _ Hty) in Hts. discriminate.
  - rewrite (Get_throws_always _ _ "type" _ Hts). simpl. lia.
Qed.

(** ** Preview: the first one in file order *)

Lemma find_fragments blocks :
  forall l,
  v_preview (snd (bind (lift (Js.find (Js.type_is "text") blocks)) (fun textBlock =>
                  bind (lift (Js.OptGet textBlock "text")) (fun text =>
                  if Js.truthy text
                  then bind (lift (Js.slice0 120 text))
                            (fun sliced => assign (set_preview sliced))
                  else ret tt)) l))
  = match fragments_preview blocks with
    | Some p => p
    | None => v_preview l
    end.
Proof.
  induction blocks as [|x rest IH]; intros l; [reflexivity|].
  cbn [Js.find fragments_preview].
  unfold Js.type_is at 1.
  destruct x as [| |b|m e|s|a|members]; cbn [Js.Get rbind]; try reflexivity;
    try (change (Js.is_string JUndefined "text") with false; cbv iota; apply IH).
  destruct (Js.lookup "type" members) as [[| |b|m e|s|a|ms]|] eqn:Hty;
    try (cbn [Js.is_string]; apply IH).
  cbn [Js.is_string].
  destruct (String.eqb s "text"); [|apply IH].
  rewrite bind_lift_ok. cbn [Js.OptGet Js.Get].
  rewrite bind_lift_ok.
  destruct (Js.lookup "text" members) as [[| |b|m e|s'|a|ms]|]; try reflexivity.
  all: cbn [Js.truthy];
    match goal with |- context [if ?c then _ else _] => destruct c end; reflexivity.
Qed.

Lemma capture_preview_run members l :
  Js.lookup "type" members = Some (JString "user") ->
  v_preview (snd (capture_preview (JObject members) l))
  = if Js.truthy (v_preview l) then v_preview l
    else match event_preview (JObject members) with
         | Some p => p
         | None => v_preview l
         end.
Proof.
  intros Hty. unfold capture_preview, event_preview. rewrite Hty.
  change (String.eqb "user" "user") with true. cbv iota.
  unfold read at 1. unfold bind at 1.
  destruct (Js.truthy (v_preview l)); [reflexivity|]. cbn [negb].
  cbn [Js.Get]. rewrite bind_lift_ok.
  destruct (Js.lookup "message" members) as [[| |b|m e|s|a|message]|];
    try reflexivity.
  cbn [Js.OptGet Js.Get]. rewrite bind_lift_ok.
  destruct (Js.lookup "content" message) as [[| |b|m e|s|blocks|ms]|];
    try reflexivity.
  - destruct (Js.truthy (JBool b)); reflexivity.
  - destruct (Js.truthy (JNumber m e)); reflexivity.
  - cbn [Js.truthy]. destruct (JsString.nonEmpty s); reflexivity.
  - cbn [Js.truthy]. apply find_fragments.
Qed.

Lemma capture_first_ok get set members k l :
  fst (capture_first get set (JObject members) k l) = Ok tt.
Proof.
  unfold capture_first, bind, read, lift, assign, ret. cbn [Js.Get].
  destruct (negb (Js.truthy (get l))); [|reflexivity].
  match goal with |- context [if ?c then _ else _] => destruct c end; reflexivity.
Qed.

Lemma bind_ok {S A B} (c : Stmt S A) (k : A -> Stmt S B) (s : S) (a : A) :
  fst (c s) = Ok a -> bind c k s = k a (snd (c s)).
Proof. unfold bind. destruct (c s) as [r s']. simpl. intros ->. reflexivity. Qed.

Lemma user_metadata_preview members l :
  Js.lookup "type" members = Some (JString "user") ->
  v_preview (snd (user_metadata (JObject members) l))
  = if Js.truthy (v_preview l) then v_preview l
    else match event_preview (JObject members) with
         | Some p => p
         | None => v_preview l
         end.
Proof.
  intros Hty. unfold user_metadata. rewrite bind_assign.
  repeat (erewrite bind_ok; [|apply capture_first_ok]).
  rewrite capture_preview_run by assumption.
  repeat rewrite (capture_first_frame v_preview) by reflexivity.
  reflexivity.
Qed.

Lemma Get_is_string entry k ty t :
  Js.Get entry k = Ok ty -> Js.is_string ty t = true ->
  exists members, entry = JObject members /\ Js.lookup k members = Some (JString t).
Proof.
  intros HG Hs.
  destruct entry as [| |b|m e|s|a|members]; simpl in HG;
    try discriminate; try (injection HG as <-; discriminate).
  exists members. split; [reflexivity|].
  injection HG as <-.
  destruct (Js.lookup k members) as [v|]; [|discriminate].
  destruct v; try discriminate. simpl in Hs. apply String.eqb_eq in Hs. congruence.
Qed.

Lemma event_preview_other entry ty :
  Js.Get entry "type" = Ok ty -> Js.is_string ty "user" = false ->
  event_preview entry = None.
Proof.
  intros HG Hs.
  destruct entry as [| |b|m e|s|a|members]; try reflexivity.
  simpl in HG. injection HG as <-. unfold event_preview.
  destruct (Js.lookup "type" members) as [[| |b|m e|s|a|ms]|]; try reflexivity.
  simpl in Hs. rewrite Hs.
  destruct (Js.lookup "message" members) as [[| | | | | |?]|]; reflexivity.
Qed.

Lemma event_preview_nullish entry k e :
  Js.Get entry k = Throw e -> event_preview entry = None.
Proof. destruct entry; simpl; try discriminate; reflexivity. Qed.

Lemma hook_preview h : MessageHook h -> forall e, Preserves v_preview (h e).
Proof.
  intros H e.
  exact (@preserves_part _ _ _ _ metadata
           (fun m => let '(_, _, _, p, _, _, _, _) := m in p) (h e) (H e)).
Qed.

Lemma scan_line_preview onUser onAssistant line l :
  MessageHook onUser -> MessageHook onAssistant ->
  v_preview (try_catch (scan_line onUser onAssistant line) l)
  = if Js.truthy (v_preview l) then v_preview l
    else match line_preview line with
         | Some p => p
         | None => v_preview l
         end.
Proof.
  intros HU HA.
  cbv beta iota zeta delta [try_catch scan_line JSON_parse_or_throw line_preview bind lift].
  destruct (JSON_parse line) as [entry|]; [|simpl; destruct (Js.truthy _); reflexivity].
  rewrite track_timestamps_run.
  destruct (Js.Get entry "timestamp") as [ts|e] eqn:Hts.
  2:{ rewrite (event_preview_nullish _ _ _ Hts). simpl.
      destruct (Js.truthy _); reflexivity. }
  destruct (Js.Get entry "type") as [ty|e] eqn:Hty.
  2:{ rewrite (Get_throws_always _ _ "timestamp" _ Hty) in Hts. discriminate. }
  match goal with
  | |- context [dispatch _ _ _ ?s] =>
      assert (E : v_preview s = v_preview l)
        by (destruct (Js.truthy ts); [destruct (Js.truthy (v_createdAt l))|]; reflexivity);
      generalize dependent s
  end.
  intros l1 E. cbn [fst snd]. rewrite <- E. clear E Hts ts l.
  unfold dispatch. rewrite Hty, bind_lift_ok.
  destruct (Js.is_string ty "user") eqn:EU.
  - destruct (Get_is_string _ _ _ _ Hty EU) as (members & -> & Hm).
    rewrite (bind_preserved v_preview) by (intros _; apply hook_preview; assumption).
    apply user_metadata_preview. assumption.
  - rewrite (event_preview_other _ _ Hty EU).
    destruct (Js.is_string ty "assistant").
    + rewrite bind_assign, (hook_preview _ HA). simpl.
      destruct (Js.truthy _); reflexivity.
    + simpl. destruct (Js.truthy _); reflexivity.
Qed.

(** ** The loop over the lines *)

Lemma scan_lines_cons onUser onAssistant line lines l :
  scan_lines onUser onAssistant (line :: lines) l
  = scan_lines onUser onAssistant lines (try_catch (scan_line onUser onAssistant line) l).
Proof. reflexivity. Qed.



Lemma scan_lines_counts onUser onAssistant lines :
  MessageHook onUser -> MessageHook onAssistant ->
  forall l,
    v_userMessageCount (scan_lines onUser onAssistant lines l)
    = v_userMessageCount l + length (List.filter is_user_line lines)
    /\ v_assistantMessageCount (scan_lines onUser onAssistant lines l)
       = v_assistantMessageCount l + length (List.filter is_assistant_line lines).
Proof.
  intros HU HA.
  induction lines as [|line lines IH]; intros l; [simpl; lia|].
  rewrite scan_lines_cons.
  destruct (IH (try_catch (scan_line onUser onAssistant line) l)) as [-> ->].
  destruct (scan_line_counts onUser onAssistant line l HU HA) as [-> ->].
  cbn [List.filter].
  destruct (is_user_line line), (is_assistant_line line); simpl; lia.
Qed.

Lemma last_cons {A} (a d : A) (l : list A) : last (a :: l) d = last l a.
Proof.
  revert a d. induction l as [|b l IH]; intros a d; [reflexivity|].
  change (last (a :: b :: l) d) with (last (b :: l) d).
  rewrite (IH b d), (IH b a). reflexivity.
Qed.

Lemma line_timestamp_truthy line ts :
  line_timestamp line = Some ts -> Js.truthy ts = true.
Proof.
  unfold line_timestamp.
  destruct (JSON_parse line) as [entry|]; [|discriminate].
  destruct (Js.Get entry "timestamp") as [v|]; [|discriminate].
  destruct (Js.truthy v) eqn:E; [|discriminate].
  intros [= <-]. exact E.
Qed.

Lemma scan_lines_stamps onUser onAssistant lines :
  MessageHook onUser -> MessageHook onAssistant ->
  forall l,
    v_createdAt (scan_lines onUser onAssistant lines l)
    = (if Js.truthy (v_createdAt l) then v_createdAt l
       else hd (v_createdAt l) (in_band_timestamps lines))
    /\ v_updatedAt (scan_lines onUser onAssistant lines l)
       = last (in_band_timestamps lines) (v_updatedAt l).
Proof.
  intros HU HA.
  induction lines as [|line lines IH]; intros l.
  - simpl. destruct (Js.truthy (v_createdAt l)); split; reflexivity.
  - rewrite scan_lines_cons.
    destruct (IH (try_catch (scan_line onUser onAssistant line) l)) as [-> ->].
    destruct (scan_line_stamps onUser onAssistant line l HU HA) as [-> ->].
    cbn [in_band_timestamps flat_map].
    fold (in_band_timestamps lines).
    destruct (line_timestamp line) as [ts|] eqn:Hts; cbn [app].
    + rewrite last_cons.
      pose proof (line_timestamp_truthy _ _ Hts) as T.
      destruct (Js.truthy (v_createdAt l)) eqn:C.
      * rewrite C. split; reflexivity.
      * rewrite T. split; reflexivity.
    + split; reflexivity.
Qed.

Lemma fragments_preview_truthy blocks p :
  fragments_preview blocks = Some p -> Js.truthy p = true.
Proof.
  induction blocks as [|x rest IH]; [discriminate|].
  cbn [fragments_preview].
  destruct x as [| |b|m e|s|a|members]; try discriminate; try exact IH.
  destruct (Js.lookup "type" members) as [[| |b|m e|s|a|ms]|]; try exact IH.
  destruct (String.eqb s "text"); [|exact IH].
  destruct (Js.lookup "text" members) as [[| |b|m e|s'|a|ms]|]; try discriminate.
  - clear IH. destruct (JsString.nonEmpty s') eqn:E; [|discriminate].
    intros [= <-]. cbn [Js.truthy]. apply (slice0_nonEmpty 119). exact E.
  - intros [= <-]. reflexivity.
Qed.

Lemma event_preview_truthy entry p :
  event_preview entry = Some p -> Js.truthy p = true.
Proof.
  unfold event_preview.
  destruct entry as [| |b|m e|s|a|members]; try discriminate.
  destruct (Js.lookup "type" members) as [[| |b|m e|s|a|ms]|]; try discriminate.
  destruct (Js.lookup "message" members) as [[| |b|m e|s'|a|message]|]; try discriminate.
  destruct (String.eqb s "user"); [|discriminate].
  destruct (Js.lookup "content" message) as [[| |b|m e|s'|blocks|ms]|]; try discriminate.
  - destruct (JsString.nonEmpty s') eqn:E; [|discriminate].
    intros [= <-]. cbn [Js.truthy]. apply (slice0_nonEmpty 119). exact E.
  - apply fragments_preview_truthy.
Qed.

Lemma line_preview_truthy line p :
  line_preview line = Some p -> Js.truthy p = true.
Proof.
  unfold line_preview. destruct (JSON_parse line); [|discriminate].
  apply event_preview_truthy.
Qed.

Lemma scan_lines_preview onUser onAssistant lines :
  MessageHook onUser -> MessageHook onAssistant ->
  forall l,
    v_preview (scan_lines onUser onAssistant lines l)
    = if Js.truthy (v_preview l) then v_preview l
      else match first_preview lines with
           | Some p => p
           | None => v_preview l
           end.
Proof.
  intros HU HA.
  induction lines as [|line lines IH]; intros l.
  - simpl. destruct (Js.truthy (v_preview l)); reflexivity.
  - rewrite scan_lines_cons, IH, (scan_line_preview _ _ _ _ HU HA).
    cbn [first_preview].
    destruct (Js.truthy (v_preview l)) eqn:P.
    + rewrite P. reflexivity.
    + destruct (line_preview line) as [p|] eqn:LP.
      * rewrite (line_preview_truthy _ _ LP). reflexivity.
      * rewrite P. reflexivity.
Qed.

(** ** The wall clock is read only for an event without a timestamp *)

Lemma timestamp_or_now_stamped clock entry ts n :
  Js.Get entry "timestamp" = Ok ts -> Js.truthy ts = true ->
  timestamp_or_now clock entry n = (Ok ts, n).
Proof.
  intros HG HT. unfold timestamp_or_now. rewrite HG, bind_lift_ok, HT. reflexivity.
Qed.

Ltac clock_free c1 c2 HG HT :=
  repeat first
    [ reflexivity
    | rewrite (timestamp_or_now_stamped c1 _ _ _ HG HT)
    | rewrite (timestamp_or_now_stamped c2 _ _ _ HG HT)
    | match goal with
      | |- context [match ?x with _ => _ end] =>
          lazymatch x with
          | context [timestamp_or_now] => fail
          | _ => destruct x
          end
      end ].

Lemma parseUserMessage_stamped c1 c2 entry ts :
  Js.Get entry "timestamp" = Ok ts -> Js.truthy ts = true ->
  forall n, parseUserMessage c1 entry n = parseUserMessage c2 entry n.
Proof.
  intros HG HT n. unfold parseUserMessage, bind, lift, ret.
  clock_free c1 c2 HG HT.
Qed.

Lemma parseAssistantMessage_stamped c1 c2 entry ts :
  Js.Get entry "timestamp" = Ok ts -> Js.truthy ts = true ->
  forall n, parseAssistantMessage c1 entry n = parseAssistantMessage c2 entry n.
Proof.
  intros HG HT n. unfold parseAssistantMessage, bind, lift, ret.
  clock_free c1 c2 HG HT.
Qed.

Lemma push_parsed_ext parse parse' entry :
  (forall n, parse entry n = parse' entry n) ->
  forall l, push_parsed parse entry l = push_parsed parse' entry l.
Proof.
  intros H l. unfold push_parsed, bind, zoom. rewrite H. reflexivity.
Qed.

Lemma dispatch_ext onUser onAssistant onUser' onAssistant' entry :
  (forall l, onUser entry l = onUser' entry l) ->
  (forall l, onAssistant entry l = onAssistant' entry l) ->
  forall l, dispatch onUser onAssistant entry l = dispatch onUser' onAssistant' entry l.
Proof.
  intros HU HA l. unfold dispatch, bind, lift.
  destruct (Js.Get entry "type") as [ty|]; [|reflexivity].
  destruct (Js.is_string ty "user").
  - destruct (user_metadata entry l) as [[[]|] l']; [apply HU|reflexivity].
  - destruct (Js.is_string ty "assistant"); [|reflexivity].
    cbn [assign]. apply HA.
Qed.

Lemma dispatch_other onUser onAssistant onUser' onAssistant' entry ty :
  Js.Get entry "type" = Ok ty ->
  Js.is_string ty "user" || Js.is_string ty "assistant" = false ->
  forall l, dispatch onUser onAssistant entry l = dispatch onUser' onAssistant' entry l.
Proof.
  intros HG HQ l. apply orb_false_elim in HQ as [H1 H2].
  unfold dispatch. rewrite HG, !bind_lift_ok, H1, H2. reflexivity.
Qed.

Lemma scan_line_clock c1 c2 line l :
  timestamped line = true ->
  try_catch (scan_line (push_parsed (parseUserMessage c1))
                       (push_parsed (parseAssistantMessage c1)) line) l
  = try_catch (scan_line (push_parsed (parseUserMessage c2))
                         (push_parsed (parseAssistantMessage c2)) line) l.
Proof.
  unfold timestamped, qualifying, is_user_line, is_assistant_line, event_type,
    line_timestamp.
  cbv beta iota zeta delta [try_catch scan_line JSON_parse_or_throw bind lift].
  destruct (JSON_parse line) as [entry|]; [|reflexivity].
  intros HT. f_equal.
  destruct (track_timestamps entry l) as [[[]|] l1]; [|reflexivity].
  destruct (Js.Get entry "type") as [ty|e] eqn:Hty.
  - destruct (Js.is_string ty "user" || Js.is_string ty "assistant") eqn:Q.
    + cbn [negb orb] in HT.
      destruct (Js.Get entry "timestamp") as [ts|] eqn:Hts; [|discriminate].
      destruct (Js.truthy ts) eqn:T; [|discriminate].
      apply dispatch_ext; apply push_parsed_ext.
      * exact (parseUserMessage_stamped c1 c2 entry ts Hts T).
      * exact (parseAssistantMessage_stamped c1 c2 entry ts Hts T).
    + exact (dispatch_other _ _ _ _ entry ty Hty Q l1).
  - unfold dispatch. rewrite Hty. reflexivity.
Qed.

Lemma scan_lines_clock c1 c2 lines :
  forallb timestamped lines = true ->
  forall l,
    scan_lines (push_parsed (parseUserMessage c1))
               (push_parsed (parseAssistantMessage c1)) lines l
    = scan_lines (push_parsed (parseUserMessage c2))
                 (push_parsed (parseAssistantMessage c2)) lines l.
Proof.
  induction lines as [|line lines IH]; intros H l; [reflexivity|].
  cbn [forallb] in H. apply andb_prop in H as [H1 H2].
  rewrite !scan_lines_cons, (scan_line_clock c1 c2 line l H1).
  apply IH. exact H2.
Qed.

(** ** Two runs differ at most in the timestamps of their messages *)

Lemma respects_ret {A} (a : A) : Respects (ret a).
Proof. intros l1 l2 H. split; [reflexivity|exact H]. Qed.

Lemma respects_lift {A} (r : result A) : Respects (lift r).
Proof. intros l1 l2 H. split; [reflexivity|exact H]. Qed.

Lemma respects_read {A} (f : Locals -> A) :
  (forall l1 l2, alike l1 l2 -> f l1 = f l2) -> Respects (read f).
Proof. intros F l1 l2 H. split; [cbn; f_equal; apply F; exact H|exact H]. Qed.

Lemma respects_assign (f : Locals -> Locals) :
  (forall l1 l2, alike l1 l2 -> alike (f l1) (f l2)) -> Respects (assign f).
Proof. intros F l1 l2 H. split; [reflexivity|apply F; exact H]. Qed.

Lemma respects_bind {A B} (c : Stmt Locals A) (k : A -> Stmt Locals B) :
  Respects c -> (forall a, Respects (k a)) -> Respects (bind c k).
Proof.
  intros Hc Hk l1 l2 H. unfold bind.
  destruct (Hc l1 l2 H) as [E S].
  destruct (c l1) as [[a1|e1] s1], (c l2) as [[a2|e2] s2]; cbn in E, S; try discriminate.
  - injection E as <-. apply Hk. exact S.
  - injection E as ->. split; [reflexivity|exact S].
Qed.

Ltac alike_fields :=
  let M := fresh in
  intros [? ? ? ? ? ? ? ? ? ?] [? ? ? ? ? ? ? ? ? ?] [M ?];
  unfold alike, metadata in *; cbn in *; injection M as ?; subst;
  try split; try reflexivity; try assumption; try congruence.

Ltac respects_step :=
  match goal with
  | |- Respects (ret _) => apply respects_ret
  | |- Respects (lift _) => apply respects_lift
  | |- Respects (read _) => apply respects_read; alike_fields
  | |- Respects (assign _) => apply respects_assign; alike_fields
  | |- Respects (bind _ _) => apply respects_bind; [|intro]
  | |- Respects (if ?b then _ else _) => destruct b
  | |- Respects (match ?x with _ => _ end) => destruct x
  end.

Lemma track_timestamps_respects entry : Respects (track_timestamps entry).
Proof. unfold track_timestamps. repeat respects_step. Qed.

Lemma user_metadata_respects entry : Respects (user_metadata entry).
Proof. unfold user_metadata, capture_first, capture_preview. repeat respects_step. Qed.

Ltac same_outcome :=
  repeat match goal with
         | |- context [match ?x with _ => _ end] =>
             lazymatch x with
             | context [match _ with _ => _ end] => fail
             | _ => destruct x
             end
         end;
  reflexivity.

Lemma parseUserMessage_outcome c1 c2 entry n1 n2 :
  untimed_outcome (fst (parseUserMessage c1 entry n1))
  = untimed_outcome (fst (parseUserMessage c2 entry n2)).
Proof.
  unfold parseUserMessage, timestamp_or_now, now, bind, lift, ret.
  same_outcome.
Qed.

Lemma parseAssistantMessage_outcome c1 c2 entry n1 n2 :
  untimed_outcome (fst (parseAssistantMessage c1 entry n1))
  = untimed_outcome (fst (parseAssistantMessage c2 entry n2)).
Proof.
  unfold parseAssistantMessage, timestamp_or_now, now, bind, lift, ret.
  same_outcome.
Qed.

Lemma push_parsed_alike parse1 parse2 entry l1 l2 :
  (forall n1 n2,
      untimed_outcome (fst (parse1 entry n1)) = untimed_outcome (fst (parse2 entry n2))) ->
  alike l1 l2 ->
  alike (snd (push_parsed parse1 entry l1)) (snd (push_parsed parse2 entry l2)).
Proof.
  intros P [M E]. unfold push_parsed, bind, zoom.
  specialize (P (v_ticks l1) (v_ticks l2)).
  destruct (parse1 entry (v_ticks l1)) as [[[m1|]|e1] t1],
           (parse2 entry (v_ticks l2)) as [[[m2|]|e2] t2];
    cbn [fst untimed_outcome] in P; try discriminate; cbn [snd assign ret].
  - assert (U : untimed m1 = untimed m2) by congruence.
    split; [exact M|].
    cbn [v_messages set_messages set_ticks]. rewrite !map_app, E. cbn [List.map].
    rewrite U. reflexivity.
  - split; [exact M|exact E].
  - split; [exact M|exact E].
Qed.

Lemma dispatch_alike c1 c2 entry l1 l2 :
  alike l1 l2 ->
  alike (snd (dispatch (push_parsed (parseUserMessage c1))
                       (push_parsed (parseAssistantMessage c1)) entry l1))
        (snd (dispatch (push_parsed (parseUserMessage c2))
                       (push_parsed (parseAssistantMessage c2)) entry l2)).
Proof.
  intros H. unfold dispatch.
  destruct (Js.Get entry "type") as [ty|e].
  2:{ rewrite !bind_lift_throw. exact H. }
  rewrite !bind_lift_ok.
  destruct (Js.is_string ty "user").
  - unfold bind.
    destruct (user_metadata_respects entry l1 l2 H) as [R S].
    destruct (user_metadata entry l1) as [[[]|e1] s1],
             (user_metadata entry l2) as [[[]|e2] s2];
      cbn [fst snd] in R, S; try discriminate; [|exact S].
    apply push_parsed_alike; [|exact S].
    intros n1 n2. apply parseUserMessage_outcome.
  - destruct (Js.is_string ty "assistant"); [|exact H].
    rewrite !bind_assign.
    apply push_parsed_alike; [intros n1 n2; apply parseAssistantMessage_outcome|].
    revert H. generalize l1 l2. alike_fields.
Qed.

Lemma scan_line_alike c1 c2 line l1 l2 :
  alike l1 l2 ->
  alike (try_catch (scan_line (push_parsed (parseUserMessage c1))
                              (push_parsed (parseAssistantMessage c1)) line) l1)
        (try_catch (scan_line (push_parsed (parseUserMessage c2))
                              (push_parsed (parseAssistantMessage c2)) line) l2).
Proof.
  intros H.
  cbv beta iota zeta delta [try_catch scan_line JSON_parse_or_throw bind lift].
  destruct (JSON_parse line) as [entry|]; [|exact H].
  destruct (track_timestamps_respects entry l1 l2 H) as [R S].
  destruct (track_timestamps entry l1) as [[[]|e1] s1],
           (track_timestamps entry l2) as [[[]|e2] s2];
    cbn [fst snd] in R, S; try discriminate; [|exact S].
  apply dispatch_alike. exact S.
Qed.

Lemma materialize_alike c1 c2 lines :
  alike (materialize c1 lines) (materialize c2 lines).
Proof.
  unfold materialize.
  assert (G : forall l1 l2,
             alike l1 l2 ->
             alike (scan_lines (push_parsed (parseUserMessage c1))
                               (push_parsed (parseAssistantMessage c1)) lines l1)
                   (scan_lines (push_parsed (parseUserMessage c2))
                               (push_parsed (parseAssistantMessage c2)) lines l2)).
  { induction lines as [|line lines IH]; intros l1 l2 H; [exact H|].
    rewrite !scan_lines_cons. apply IH. apply scan_line_alike. exact H. }
  apply G. split; reflexivity.
Qed.

Lemma session_info_alike l1 l2 stat sid pp :
  alike l1 l2 -> session_info l1 stat sid pp = session_info l2 stat sid pp.
Proof.
  revert l1 l2.
  intros [? ? ? ? ? ? ? ? ? ?] [? ? ? ? ? ? ? ? ? ?] [M _].
  unfold metadata in M. cbn in M. injection M as ?. subst. reflexivity.
Qed.

(** ** Assembly of the info record *)

Lemma session_info_empty l stat sid pp :
  v_userMessageCount l = 0 -> v_assistantMessageCount l = 0 ->
  session_info l stat sid pp = Ok None.
Proof. intros H1 H2. unfold session_info. rewrite H1, H2. reflexivity. Qed.

Lemma or_toISOString_ok x t v :
  or_toISOString x t = Ok v ->
  v = Js.or x (JString (Date_toISOString t))
  /\ (Js.truthy x = true \/ (Z.abs t <= 8640000000000000)%Z).
Proof.
  unfold or_toISOString, stat_time_toISOString, Js.or.
  destruct (Js.truthy x); [intros [= <-]; auto|].
  destruct (Z.abs t <=? 8640000000000000)%Z eqn:E; cbn [rbind]; [|discriminate].
  intros [= <-]. split; [reflexivity|]. right. apply Z.leb_le. exact E.
Qed.

Lemma session_info_some l stat sid pp i :
  session_info l stat sid pp = Ok (Some i) ->
  (0 < v_userMessageCount l + v_assistantMessageCount l)
  /\ sessionId i = sid
  /\ preview i = Js.or (v_preview l) (JString "(no preview)")
  /\ userMessageCount i = v_userMessageCount l
  /\ assistantMessageCount i = v_assistantMessageCount l
  /\ createdAt i = Js.or (v_createdAt l) (JString (Date_toISOString (birthtime stat)))
  /\ updatedAt i = Js.or (v_updatedAt l) (JString (Date_toISOString (mtime stat)))
  /\ fileSize i = size stat.
Proof.
  unfold session_info.
  destruct ((v_userMessageCount l =? 0) && (v_assistantMessageCount l =? 0))%nat eqn:E;
    [discriminate|].
  destruct (Js.or (v_cwd l) (JString pp)); try discriminate.
  destruct (or_toISOString (v_createdAt l) (birthtime stat)) as [c|] eqn:C;
    cbn [rbind]; [|discriminate].
  destruct (or_toISOString (v_updatedAt l) (mtime stat)) as [u|] eqn:U;
    cbn [rbind]; [|discriminate].
  apply or_toISOString_ok in C as [-> _]. apply or_toISOString_ok in U as [-> _].
  intros [= <-]. cbn.
  repeat split.
  apply andb_false_iff in E as [E|E]; apply Nat.eqb_neq in E; lia.
Qed.

Lemma session_info_paths l stat sid pp i :
  session_info l stat sid pp = Ok (Some i) ->
  JString (cwd i) = Js.or (v_cwd l) (JString pp)
  /\ projectPath i = cwd i
  /\ projectName i = posix_basename (cwd i)
  /\ gitBranch i = Js.or (v_gitBranch l) (JString EmptyString)
  /\ version i = Js.or (v_version l) (JString EmptyString).
Proof.
  unfold session_info.
  destruct ((v_userMessageCount l =? 0) && (v_assistantMessageCount l =? 0))%nat;
    [discriminate|].
  destruct (Js.or (v_cwd l) (JString pp)); try discriminate.
  destruct (or_toISOString (v_createdAt l) (birthtime stat)) as [c|];
    cbn [rbind]; [|discriminate].
  destruct (or_toISOString (v_updatedAt l) (mtime stat)) as [u|];
    cbn [rbind]; [|discriminate].
  intros [= <-]. cbn. repeat split.
Qed.

Lemma session_info_initial stat sid pp :
  session_info initial_locals stat sid pp = Ok None.
Proof. reflexivity. Qed.

(** ** The two passes, once the file has been read *)

Lemma extractSessionInfo_read fs path sid pp lines stat :
  readJsonlLines fs path = Ok (Some (lines, stat)) ->
  extractSessionInfo fs path sid pp
  = session_info (scan_lines no_message no_message lines initial_locals) stat sid pp.
Proof.
  intros H. unfold extractSessionInfo. rewrite H. cbn [rbind].
  destruct lines; reflexivity.
Qed.

Lemma extractSessionInfo_inv fs path sid pp i :
  extractSessionInfo fs path sid pp = Ok (Some i) ->
  exists lines stat,
    readJsonlLines fs path = Ok (Some (lines, stat))
    /\ session_info (scan_lines no_message no_message lines initial_locals) stat sid pp
       = Ok (Some i).
Proof.
  intros H.
  destruct (readJsonlLines fs path) as [[[lines stat]|]|e] eqn:R.
  - exists lines, stat. split; [reflexivity|].
    rewrite <- H. symmetry. apply extractSessionInfo_read. exact R.
  - unfold extractSessionInfo in H. rewrite R in H. discriminate.
  - unfold extractSessionInfo in H. rewrite R in H. discriminate.
Qed.

Lemma parseClaudeSession_read fs clock sid path pp lines stat :
  locate_session fs sid = Some (path, pp) ->
  readJsonlLines fs path = Ok (Some (lines, stat)) ->
  parseClaudeSession fs clock sid
  = rbind (session_info (materialize clock lines) stat sid pp)
          (fun i => match i with
                    | None => Ok None
                    | Some i => Ok (Some {| info := i;
                                            messages := v_messages (materialize clock lines) |})
                    end).
Proof.
  intros L R. unfold parseClaudeSession. rewrite L, R. cbn [rbind].
  destruct lines; reflexivity.
Qed.

Lemma parseClaudeSession_inv fs clock sid ps :
  parseClaudeSession fs clock sid = Ok (Some ps) ->
  exists path pp lines stat,
    locate_session fs sid = Some (path, pp)
    /\ readJsonlLines fs path = Ok (Some (lines, stat))
    /\ session_info (materialize clock lines) stat sid pp = Ok (Some (info ps))
    /\ messages ps = v_messages (materialize clock lines).
Proof.
  intros H.
  destruct (locate_session fs sid) as [[path pp]|] eqn:L.
  2:{ unfold parseClaudeSession in H. rewrite L in H. discriminate. }
  destruct (readJsonlLines fs path) as [[[lines stat]|]|e] eqn:R.
  - rewrite (parseClaudeSession_read fs clock sid path pp lines stat L R) in H.
    exists path, pp, lines, stat.
    split; [reflexivity|]. split; [exact R|].
    destruct (session_info (materialize clock lines) stat sid pp) as [[i|]|];
      try discriminate.
    cbn in H. injection H as <-. split; reflexivity.
  - unfold parseClaudeSession in H. rewrite L, R in H. discriminate.
  - unfold parseClaudeSession in H. rewrite L, R in H. discriminate.
Qed.

(** ** The enumerator: where a listed session comes from *)

Lemma list_file_in fs projectPath decodedPath sessions jsonlFile i :
  In i (list_file fs projectPath decodedPath sessions jsonlFile) ->
  In i sessions
  \/ extractSessionInfo fs (path_join projectPath jsonlFile)
                        (sessionId_of_file jsonlFile) decodedPath = Ok (Some i).
Proof.
  unfold list_file.
  destruct (extractSessionInfo fs (path_join projectPath jsonlFile)
                               (sessionId_of_file jsonlFile) decodedPath)
    as [[info|]|e]; auto.
  intros H. apply in_app_or in H as [H|[H|[]]]; [auto|subst; auto].
Qed.

Lemma list_files_in fs projectPath decodedPath jsonlFiles :
  forall sessions i,
    In i (fold_left (list_file fs projectPath decodedPath) jsonlFiles sessions) ->
    In i sessions
    \/ exists jsonlFile,
         In jsonlFile jsonlFiles
         /\ extractSessionInfo fs (path_join projectPath jsonlFile)
                               (sessionId_of_file jsonlFile) decodedPath = Ok (Some i).
Proof.
  induction jsonlFiles as [|f files IH]; intros sessions i H; [left; exact H|].
  cbn [fold_left] in H. apply IH in H as [H|(g & Hg & E)].
  - apply list_file_in in H as [H|H]; [left; exact H|].
    right. exists f. split; [left; reflexivity|exact H].
  - right. exists g. split; [right; exact Hg|exact E].
Qed.

Lemma list_project_in fs sessions projectDir i :
  In i (list_project fs getClaudeProjectsDir sessions projectDir) ->
  In i sessions
  \/ exists jsonlFile,
       isDirectory projectDir = true
       /\ (exists entries,
              readdirSync fs (path_join getClaudeProjectsDir (name projectDir))
              = Some entries
              /\ In jsonlFile (List.map name entries))
       /\ JsString.endsWith jsonlFile ".jsonl" = true
       /\ extractSessionInfo fs (session_file_path projectDir jsonlFile)
                             (sessionId_of_file jsonlFile)
                             (decodeProjectPath (name projectDir)) = Ok (Some i).
Proof.
  unfold list_project.
  destruct (isDirectory projectDir); cbn [negb]; [|auto].
  destruct (readdirSync fs (path_join getClaudeProjectsDir (name projectDir)))
    as [entries|] eqn:R; [|auto].
  intros H. apply list_files_in in H as [H|(f & Hf & E)]; [auto|].
  right. exists f. apply filter_In in Hf as [Hf1 Hf2].
  repeat split; try assumption.
  exists entries. split; [reflexivity|assumption].
Qed.

Lemma list_projects_in fs projectDirs :
  forall sessions i,
    In i (fold_left (list_project fs getClaudeProjectsDir) projectDirs sessions) ->
    In i sessions
    \/ exists projectDir jsonlFile,
         In projectDir projectDirs
         /\ isDirectory projectDir = true
         /\ (exists entries,
                readdirSync fs (path_join getClaudeProjectsDir (name projectDir))
                = Some entries
                /\ In jsonlFile (List.map name entries))
         /\ JsString.endsWith jsonlFile ".jsonl" = true
         /\ extractSessionInfo fs (session_file_path projectDir jsonlFile)
                               (sessionId_of_file jsonlFile)
                               (decodeProjectPath (name projectDir)) = Ok (Some i).
Proof.
  induction projectDirs as [|d ds IH]; intros sessions i H; [left; exact H|].
  cbn [fold_left] in H. apply IH in H as [H|(d' & f & Hd & R)].
  - apply list_project_in in H as [H|(f & R)]; [left; exact H|].
    right. exists d, f. split; [left; reflexivity|exact R].
  - right. exists d', f. split; [right; exact Hd|exact R].
Qed.

Lemma collect_sessions_in fs i :
  In i (collect_sessions fs) ->
  exists projectDir jsonlFile, listed_from fs projectDir jsonlFile i.
Proof.
  unfold collect_sessions.
  destruct (readdirSync fs getClaudeProjectsDir) as [projectDirs|] eqn:R; [|intros []].
  intros H. apply list_projects_in in H as [[]|(d & f & Hd & H1 & H2 & H3 & H4)].
  exists d, f. unfold listed_from. repeat split; try assumption.
  exists projectDirs. split; [exact R|assumption].
Qed.

Lemma sort_insert_perm {A} (cmp : A -> A -> result (option Z)) x :
  forall sorted out, sort_insert cmp x sorted = Ok out -> Permutation (x :: sorted) out.
Proof.
  induction sorted as [|y rest IH]; intros out H; cbn [sort_insert] in H.
  - injection H as <-. apply Permutation_refl.
  - destruct (cmp x y) as [[d|]|]; cbn [rbind] in H; try discriminate.
    + destruct (0 <? d)%Z.
      * destruct (sort_insert cmp x rest) as [rest'|] eqn:E; [|discriminate].
        cbn [rbind] in H. injection H as <-.
        eapply perm_trans; [apply perm_swap|].
        apply perm_skip. apply IH. reflexivity.
      * injection H as <-. apply Permutation_refl.
    + injection H as <-. apply Permutation_refl.
Qed.

Lemma Array_sort_perm {A} (cmp : A -> A -> result (option Z)) :
  forall arr out, Array_sort cmp arr = Ok out -> Permutation arr out.
Proof.
  induction arr as [|x rest IH]; intros out H; cbn [Array_sort] in H.
  - injection H as <-. apply perm_nil.
  - destruct (Array_sort cmp rest) as [sorted|] eqn:E; [|discriminate].
    cbn [rbind] in H.
    eapply perm_trans; [apply perm_skip; apply IH; reflexivity|].
    apply sort_insert_perm with (cmp := cmp). exact H.
Qed.

Lemma listClaudeSessions_in fs l i :
  listClaudeSessions fs = Ok l -> In i l ->
  exists projectDir jsonlFile, listed_from fs projectDir jsonlFile i.
Proof.
  unfold listClaudeSessions.
  destruct (existsSync fs getClaudeProjectsDir); cbn [negb].
  - intros H Hi. apply Array_sort_perm in H.
    apply collect_sessions_in.
    apply Permutation_in with (l := l); [apply Permutation_sym; exact H|exact Hi].
  - intros [= <-] [].
Qed.

End ScanFacts.

(* ================================================================== *)
(** * The claims of the specification, for every host *)
(* ================================================================== *)

Section Claims.

Context {host : Host}.

(** ** The file an info record was read from *)

Lemma read_from_pass fs i path pp lines stat :
  read_from fs i path pp lines stat ->
  exists onUser onAssistant sid,
    MessageHook onUser /\ MessageHook onAssistant
    /\ session_info (scan_lines onUser onAssistant lines initial_locals) stat sid pp
       = Ok (Some i).
Proof.
  intros [R [(d & f & LF & -> & ->)|(clock & sid & ps & P & <- & L)]].
  - destruct LF as (_ & _ & _ & _ & E).
    rewrite (extractSessionInfo_read _ _ _ _ lines stat R) in E.
    exists no_message, no_message, (sessionId_of_file f).
    split; [apply hook_no_message|]. split; [apply hook_no_message|exact E].
  - rewrite (parseClaudeSession_read fs clock sid path pp lines stat L R) in P.
    exists (push_parsed (parseUserMessage clock)),
           (push_parsed (parseAssistantMessage clock)), sid.
    split; [apply hook_push_parsed|]. split; [apply hook_push_parsed|].
    fold (materialize clock lines).
    destruct (session_info (materialize clock lines) stat sid pp) as [[i|]|];
      cbn [rbind] in P; try discriminate.
    injection P as <-. reflexivity.
Qed.

Lemma produced_read_from fs i :
  produced fs i -> exists path pp lines stat, read_from fs i path pp lines stat.
Proof.
  intros [(l & Hl & Hi)|(clock & sid & ps & Hp & <-)].
  - destruct (listClaudeSessions_in fs l i Hl Hi) as (d & f & LF).
    pose proof LF as (_ & _ & _ & _ & E).
    apply extractSessionInfo_inv in E as (lines & stat & R & _).
    exists (session_file_path d f), (decodeProjectPath (name d)), lines, stat.
    split; [exact R|]. left. exists d, f. auto.
  - pose proof Hp as Hp0.
    apply parseClaudeSession_inv in Hp as (path & pp & lines & stat & L & R & _ & _).
    exists path, pp, lines, stat. split; [exact R|].
    right. exists clock, sid, ps. auto.
Qed.

(** C1 (as amended).  Two runs of [parseClaudeSession] on an unmodified
    file with the same session id, at whatever two times, give the same
    outcome, the same info and the same messages up to the timestamps of
    the messages; and when every user and assistant event of the log
    carries a timestamp they give the same result altogether, message
    timestamps included.  (A message built from an event without a
    timestamp takes the time of the call.) *)
Theorem parse_twice_same_up_to_clock fs clock1 clock2 sid :
  without_message_times (parseClaudeSession fs clock1 sid)
  = without_message_times (parseClaudeSession fs clock2 sid)
  /\ ((forall path pp lines stat,
          locate_session fs sid = Some (path, pp) ->
          readJsonlLines fs path = Ok (Some (lines, stat)) ->
          forallb timestamped lines = true) ->
      parseClaudeSession fs clock1 sid = parseClaudeSession fs clock2 sid).
Proof.
  destruct (locate_session fs sid) as [[path pp]|] eqn:L.
  2:{ unfold parseClaudeSession. rewrite L. split; reflexivity. }
  destruct (readJsonlLines fs path) as [[[lines stat]|]|e] eqn:R.
  - rewrite (parseClaudeSession_read fs clock1 sid path pp lines stat L R).
    rewrite (parseClaudeSession_read fs clock2 sid path pp lines stat L R).
    split.
    + pose proof (materialize_alike clock1 clock2 lines) as A.
      rewrite (session_info_alike _ _ stat sid pp A).
      destruct (session_info (materialize clock2 lines) stat sid pp) as [[i|]|];
        cbn [rbind without_message_times info messages]; try reflexivity.
      destruct A as [_ ->]. reflexivity.
    + intros H. unfold materialize.
      rewrite (scan_lines_clock clock1 clock2 lines (H path pp lines stat eq_refl R)).
      reflexivity.
  - unfold parseClaudeSession. rewrite L, R. split; reflexivity.
  - unfold parseClaudeSession. rewrite L, R. split; reflexivity.
Qed.

(** ** Timestamps of the info record *)

Lemma in_band_timestamps_truthy lines :
  Forall (fun ts => Js.truthy ts = true) (in_band_timestamps lines).
Proof.
  induction lines as [|line lines IH]; [constructor|].
  cbn [in_band_timestamps flat_map]. fold (in_band_timestamps lines).
  destruct (line_timestamp line) as [ts|] eqn:E; [|exact IH].
  constructor; [exact (line_timestamp_truthy _ _ E)|exact IH].
Qed.

Lemma last_truthy rest :
  forall first,
    Js.truthy first = true ->
    Forall (fun ts => Js.truthy ts = true) rest ->
    Js.truthy (last rest first) = true.
Proof.
  induction rest as [|x rest IH]; intros first Hf HF; [exact Hf|].
  rewrite last_cons. inversion HF; subst. apply IH; assumption.
Qed.

Lemma or_truthy a b : Js.truthy a = true -> Js.or a b = a.
Proof. unfold Js.or. intros ->. reflexivity. Qed.

Lemma info_stamps onUser onAssistant lines stat sid pp i :
  MessageHook onUser -> MessageHook onAssistant ->
  session_info (scan_lines onUser onAssistant lines initial_locals) stat sid pp
  = Ok (Some i) ->
  match in_band_timestamps lines with
  | [] =>
      createdAt i = JString (Date_toISOString (birthtime stat))
      /\ updatedAt i = JString (Date_toISOString (mtime stat))
  | first :: rest =>
      createdAt i = first /\ updatedAt i = last rest first
  end.
Proof.
  intros HU HA H.
  apply session_info_some in H as (_ & _ & _ & _ & _ & -> & -> & _).
  destruct (scan_lines_stamps onUser onAssistant lines HU HA initial_locals) as [-> ->].
  pose proof (in_band_timestamps_truthy lines) as T.
  cbn [initial_locals v_createdAt v_updatedAt Js.truthy JsString.nonEmpty].
  destruct (in_band_timestamps lines) as [|first rest]; [split; reflexivity|].
  inversion T; subst. cbn [hd]. rewrite last_cons.
  split; apply or_truthy; [assumption|apply last_truthy; assumption].
Qed.

(** C3 (as amended).  Every info record that [listClaudeSessions] or
    [parseClaudeSession] produces was read from a session file, and for
    the file it was read from: [createdAt] is the first timestamp the
    lines of that file carry in file order and [updatedAt] the last, so
    that [createdAt <= updatedAt] holds exactly when the first is not
    later than the last; when no line of the file carries a timestamp,
    [createdAt] is the birth time of the file and [updatedAt] its
    modification time. *)
Theorem stamps_first_and_last_seen fs i :
  (produced fs i -> exists path pp lines stat, read_from fs i path pp lines stat)
  /\ (forall path pp lines stat,
         read_from fs i path pp lines stat ->
         match in_band_timestamps lines with
         | [] =>
             createdAt i = JString (Date_toISOString (birthtime stat))
             /\ updatedAt i = JString (Date_toISOString (mtime stat))
         | first :: rest =>
             createdAt i = first
             /\ updatedAt i = last rest first
             /\ date_leb (createdAt i) (updatedAt i) = date_leb first (last rest first)
         end).
Proof.
  split; [apply produced_read_from|].
  intros path pp lines stat RF.
  destruct (read_from_pass _ _ _ _ _ _ RF) as (onUser & onAssistant & sid & HU & HA & H).
  pose proof (info_stamps onUser onAssistant lines stat sid pp i HU HA H) as S.
  destruct (in_band_timestamps lines); [exact S|].
  destruct S as [-> ->]. repeat split.
Qed.

(** ** Preview *)

Lemma fragments_preview_length blocks s :
  fragments_preview blocks = Some (JString s) -> String.length s <= 120.
Proof.
  induction blocks as [|x rest IH]; [discriminate|].
  cbn [fragments_preview].
  destruct x as [| |b|m e|t|a|members]; try discriminate; try exact IH.
  destruct (Js.lookup "type" members) as [[| |b|m e|t|a|ms]|]; try exact IH.
  destruct (String.eqb t "text"); [|exact IH].
  destruct (Js.lookup "text" members) as [[| |b|m e|s'|a|ms]|]; try discriminate.
  clear IH. destruct (JsString.nonEmpty s'); [|discriminate].
  intros E. assert (E' : JsString.slice0 120 s' = s) by congruence.
  rewrite <- E'. apply slice0_length.
Qed.

Lemma line_preview_length line s :
  line_preview line = Some (JString s) -> String.length s <= 120.
Proof.
  unfold line_preview, event_preview.
  destruct (JSON_parse line) as [[| |b|m e|t|a|members]|]; try discriminate.
  destruct (Js.lookup "type" members) as [[| |b|m e|t|a|ms]|]; try discriminate.
  destruct (Js.lookup "message" members) as [[| |b|m e|t'|a|message]|]; try discriminate.
  destruct (String.eqb t "user"); [|discriminate].
  destruct (Js.lookup "content" message) as [[| |b|m e|s'|blocks|ms]|]; try discriminate.
  - destruct (JsString.nonEmpty s'); [|discriminate].
    intros E. assert (E' : JsString.slice0 120 s' = s) by congruence.
    rewrite <- E'. apply slice0_length.
  - apply fragments_preview_length.
Qed.

Lemma first_preview_split pre line post p :
  Forall (fun x => line_preview x = None) pre ->
  line_preview line = Some p ->
  first_preview (pre ++ line :: post) = Some p.
Proof.
  intros HF HL. induction HF as [|x pre Hx _ IH]; cbn [app first_preview].
  - rewrite HL. reflexivity.
  - rewrite Hx. exact IH.
Qed.

Lemma first_preview_none lines :
  (forall x, In x lines -> line_preview x = None) -> first_preview lines = None.
Proof.
  induction lines as [|x lines IH]; intros H; [reflexivity|].
  cbn [first_preview]. rewrite (H x (or_introl eq_refl)).
  apply IH. intros y Hy. apply H. right. exact Hy.
Qed.

Lemma first_preview_length lines s :
  first_preview lines = Some (JString s) -> String.length s <= 120.
Proof.
  induction lines as [|x lines IH]; [discriminate|].
  cbn [first_preview]. destruct (line_preview x) as [p|] eqn:E; [|exact IH].
  intros [= ->]. exact (line_preview_length _ _ E).
Qed.

Lemma fragments_preview_array_length blocks a :
  fragments_preview blocks = Some (JArray a) -> List.length a <= 120.
Proof.
  induction blocks as [|x rest IH]; [discriminate|].
  cbn [fragments_preview].
  destruct x as [| |b|m e|t|a'|members]; try discriminate; try exact IH.
  destruct (Js.lookup "type" members) as [[| |b|m e|t|a'|ms]|]; try exact IH.
  destruct (String.eqb t "text"); [|exact IH].
  destruct (Js.lookup "text" members) as [[| |b|m e|s'|a'|ms]|]; try discriminate.
  - destruct (JsString.nonEmpty s'); discriminate.
  - clear IH. intros E. assert (E' : firstn 120 a' = a) by congruence.
    rewrite <- E'. apply firstn_le_length.
Qed.

Lemma line_preview_array_length line a :
  line_preview line = Some (JArray a) -> List.length a <= 120.
Proof.
  unfold line_preview, event_preview.
  destruct (JSON_parse line) as [[| |b|m e|t|a'|members]|]; try discriminate.
  destruct (Js.lookup "type" members) as [[| |b|m e|t|a'|ms]|]; try discriminate.
  destruct (Js.lookup "message" members) as [[| |b|m e|t'|a'|message]|]; try discriminate.
  destruct (String.eqb t "user"); [|discriminate].
  destruct (Js.lookup "content" message) as [[| |b|m e|s'|blocks|ms]|]; try discriminate.
  - destruct (JsString.nonEmpty s'); discriminate.
  - apply fragments_preview_array_length.
Qed.

Lemma first_preview_array_length lines a :
  first_preview lines = Some (JArray a) -> List.length a <= 120.
Proof.
  induction lines as [|x lines IH]; [discriminate|].
  cbn [first_preview]. destruct (line_preview x) as [p|] eqn:E; [|exact IH].
  intros [= ->]. exact (line_preview_array_length _ _ E).
Qed.

Lemma info_preview onUser onAssistant lines stat sid pp i :
  MessageHook onUser -> MessageHook onAssistant ->
  session_info (scan_lines onUser onAssistant lines initial_locals) stat sid pp
  = Ok (Some i) ->
  preview i = match first_preview lines with
              | Some p => p
              | None => JString "(no preview)"
              end.
Proof.
  intros HU HA H.
  apply session_info_some in H as (_ & _ & -> & _).
  rewrite (scan_lines_preview onUser onAssistant lines HU HA initial_locals).
  cbn [initial_locals v_preview Js.truthy JsString.nonEmpty].
  destruct (first_preview lines) as [p|] eqn:E; [|reflexivity].
  apply or_truthy.
  clear - E. induction lines as [|x lines IH]; [discriminate|].
  cbn [first_preview] in E. destruct (line_preview x) as [q|] eqn:Q; [|exact (IH E)].
  injection E as <-. exact (line_preview_truthy _ _ Q).
Qed.

(** C4 (as amended).  Every info record that [listClaudeSessions] or
    [parseClaudeSession] produces was read from a session file, and for
    the file it was read from: the preview is the one yielded by the
    first line of that file, in file order, that yields one
    ([line_preview]: for a user event, its content cut to 120 characters
    when that is a non-empty string, and, when it is a fragment list, the
    text of its first text-tagged fragment cut to 120, not the joined
    texts); later lines never overwrite it; when no line yields one it is
    the placeholder; a preview has at most 120 characters (at most 120
    elements, should the log hold an array in the place of the text). *)
Theorem preview_first_wins fs i :
  (produced fs i -> exists path pp lines stat, read_from fs i path pp lines stat)
  /\ (forall path pp lines stat,
         read_from fs i path pp lines stat ->
         (forall pre line post p,
             lines = pre ++ line :: post ->
             Forall (fun x => line_preview x = None) pre ->
             line_preview line = Some p ->
             preview i = p)
         /\ ((forall x, In x lines -> line_preview x = None) ->
             preview i = JString "(no preview)")
         /\ (forall s, preview i = JString s -> String.length s <= 120)
         /\ (forall a, preview i = JArray a -> List.length a <= 120)).
Proof.
  split; [apply produced_read_from|].
  intros path pp lines stat RF.
  destruct (read_from_pass _ _ _ _ _ _ RF) as (onUser & onAssistant & sid & HU & HA & H).
  pose proof (info_preview _ _ _ _ _ _ _ HU HA H) as E.
  split; [|split; [|split]].
  - intros pre line post p -> HF HL.
    rewrite E, (first_preview_split pre line post p HF HL). reflexivity.
  - intros HN. rewrite E, (first_preview_none lines HN). reflexivity.
  - intros s Hs. rewrite E in Hs.
    destruct (first_preview lines) as [p|] eqn:F.
    + rewrite Hs in F. exact (first_preview_length lines s F).
    + injection Hs as <-. cbn. lia.
  - intros a Ha. rewrite E in Ha.
    destruct (first_preview lines) as [p|] eqn:F; [|discriminate].
    rewrite Ha in F. exact (first_preview_array_length lines a F).
Qed.

(** ** The messages of the events, one after the other *)









(** ** A file whose metadata pass gives nothing might as well be absent *)

Lemma fold_left_ext {A B} (f g : A -> B -> A) (l : list B) :
  (forall a b, f a b = g a b) -> forall a, fold_left f l a = fold_left g l a.
Proof.
  intros H. induction l as [|b l IH]; intros a; [reflexivity|].
  cbn [fold_left]. rewrite H. apply IH.
Qed.

Lemma list_files_skip fs projectPath decodedPath file entries :
  (forall sessions, list_file fs projectPath decodedPath sessions file = sessions) ->
  forall sessions,
    fold_left (list_file fs projectPath decodedPath)
              (List.filter (fun f => JsString.endsWith f ".jsonl")
                 (List.map name
                    (List.filter (fun d => negb (String.eqb (name d) file)) entries)))
              sessions
    = fold_left (list_file fs projectPath decodedPath)
                (List.filter (fun f => JsString.endsWith f ".jsonl")
                   (List.map name entries))
                sessions.
Proof.
  intros Skip. induction entries as [|d entries IH]; intros sessions; [reflexivity|].
  cbn [List.filter List.map].
  destruct (String.eqb (name d) file) eqn:E; cbn [negb List.map List.filter].
  - apply String.eqb_eq in E.
    destruct (JsString.endsWith (name d) ".jsonl"); [|apply IH].
    cbn [fold_left]. rewrite E, Skip. apply IH.
  - destruct (JsString.endsWith (name d) ".jsonl"); [|apply IH].
    cbn [fold_left]. apply IH.
Qed.

Lemma collect_sessions_without_file fs dir file :
  dir <> getClaudeProjectsDir ->
  (forall sid pp,
      extractSessionInfo fs (path_join dir file) sid pp = Ok None
      \/ exists e, extractSessionInfo fs (path_join dir file) sid pp = Throw e) ->
  collect_sessions (without_file fs dir file) = collect_sessions fs.
Proof.
  intros Root Nothing.
  unfold collect_sessions. cbn [readdirSync without_file].
  assert (String.eqb getClaudeProjectsDir dir = false) as ->.
  { apply String.eqb_neq. congruence. }
  destruct (readdirSync fs getClaudeProjectsDir) as [projectDirs|]; [|reflexivity].
  apply fold_left_ext. intros sessions projectDir.
  unfold list_project. destruct (isDirectory projectDir); cbn [negb]; [|reflexivity].
  cbn [readdirSync without_file].
  destruct (String.eqb (path_join getClaudeProjectsDir (name projectDir)) dir) eqn:E.
  - apply String.eqb_eq in E.
    destruct (readdirSync fs (path_join getClaudeProjectsDir (name projectDir)))
      as [entries|]; [|reflexivity].
    cbn [option_map].
    change (list_file (without_file fs dir file)) with (list_file fs).
    apply list_files_skip. intros acc. unfold list_file. rewrite E.
    destruct (Nothing (sessionId_of_file file) (decodeProjectPath (name projectDir)))
      as [-> | [e ->]]; reflexivity.
  - destruct (readdirSync fs (path_join getClaudeProjectsDir (name projectDir)));
      reflexivity.
Qed.

Lemma listClaudeSessions_without_file fs dir file :
  dir <> getClaudeProjectsDir ->
  (forall sid pp,
      extractSessionInfo fs (path_join dir file) sid pp = Ok None
      \/ exists e, extractSessionInfo fs (path_join dir file) sid pp = Throw e) ->
  listClaudeSessions (without_file fs dir file) = listClaudeSessions fs.
Proof.
  intros Root Nothing. unfold listClaudeSessions.
  rewrite (collect_sessions_without_file fs dir file Root Nothing). reflexivity.
Qed.

Lemma length_append (a b : string) :
  String.length (a ++ b) = String.length a + String.length b.
Proof. induction a as [|c a IH]; cbn; [reflexivity|rewrite IH; reflexivity]. Qed.

Lemma path_join_longer (a b : string) : path_join a b <> a.
Proof.
  unfold path_join. intros E. apply (f_equal String.length) in E.
  rewrite !length_append in E. cbn in E. lia.
Qed.

(** The listing is the one of the store without the file, for a file of a
    project directory whose metadata pass gives nothing. *)
Lemma listing_without_silent_file fs projectDir file :
  (forall sid pp,
      extractSessionInfo fs (session_file_path projectDir file) sid pp = Ok None) ->
  listClaudeSessions
    (without_file fs (path_join getClaudeProjectsDir (name projectDir)) file)
  = listClaudeSessions fs.
Proof.
  intros X. apply listClaudeSessions_without_file.
  - apply path_join_longer.
  - intros sid pp. left. apply X.
Qed.

(** ** Sessions without a qualifying event *)

Lemma filter_none {A} (f : A -> bool) (l : list A) :
  forallb (fun x => negb (f x)) l = true -> List.filter f l = [].
Proof.
  induction l as [|x l IH]; [reflexivity|].
  cbn [forallb List.filter]. intros H. apply andb_prop in H as [H1 H2].
  apply negb_true_iff in H1. rewrite H1. apply IH. exact H2.
Qed.

Lemma no_qualifying_no_info onUser onAssistant lines stat sid pp :
  MessageHook onUser -> MessageHook onAssistant ->
  forallb (fun line => negb (qualifying line)) lines = true ->
  session_info (scan_lines onUser onAssistant lines initial_locals) stat sid pp = Ok None.
Proof.
  intros HU HA H.
  destruct (scan_lines_counts onUser onAssistant lines HU HA initial_locals) as [C1 C2].
  assert (HU' : forallb (fun line => negb (is_user_line line)) lines = true).
  { rewrite forallb_forall in *. intros x Hx. specialize (H x Hx).
    unfold qualifying in H. apply negb_true_iff in H.
    apply orb_false_elim in H as [H _]. rewrite H. reflexivity. }
  assert (HA' : forallb (fun line => negb (is_assistant_line line)) lines = true).
  { rewrite forallb_forall in *. intros x Hx. specialize (H x Hx).
    unfold qualifying in H. apply negb_true_iff in H.
    apply orb_false_elim in H as [_ H]. rewrite H. reflexivity. }
  rewrite (filter_none _ _ HU') in C1. rewrite (filter_none _ _ HA') in C2.
  apply session_info_empty; [rewrite C1|rewrite C2]; reflexivity.
Qed.

(** C6.  For a session file whose lines hold no decodable event of type
    user or assistant: its metadata pass gives nothing, so
    [listClaudeSessions] answers as it does on the store without the file,
    and every session it lists comes from another file; and
    [parseClaudeSession], when this is the file it locates, gives
    not-found. *)
Theorem no_qualifying_event_no_session fs path lines stat :
  readJsonlLines fs path = Ok (Some (lines, stat)) ->
  forallb (fun line => negb (qualifying line)) lines = true ->
  (forall sid pp, extractSessionInfo fs path sid pp = Ok None)
  /\ (forall projectDir file,
         path = session_file_path projectDir file ->
         listClaudeSessions
           (without_file fs (path_join getClaudeProjectsDir (name projectDir)) file)
         = listClaudeSessions fs)
  /\ (forall l i,
         listClaudeSessions fs = Ok l -> In i l ->
         exists projectDir jsonlFile,
           listed_from fs projectDir jsonlFile i
           /\ session_file_path projectDir jsonlFile <> path)
  /\ (forall clock sid pp,
         locate_session fs sid = Some (path, pp) ->
         parseClaudeSession fs clock sid = Ok None).
Proof.
  intros R H.
  assert (X : forall sid pp, extractSessionInfo fs path sid pp = Ok None).
  { intros sid pp. rewrite (extractSessionInfo_read fs path sid pp lines stat R).
    apply no_qualifying_no_info; [apply hook_no_message|apply hook_no_message|exact H]. }
  split; [exact X|]. split; [|split].
  - intros projectDir file ->. apply listing_without_silent_file. exact X.
  - intros l i Hl Hi.
    destruct (listClaudeSessions_in fs l i Hl Hi) as (d & f & LF).
    exists d, f. split; [exact LF|].
    intros E. destruct LF as (_ & _ & _ & _ & LF). rewrite E, X in LF. discriminate.
  - intros clock sid pp L.
    rewrite (parseClaudeSession_read fs clock sid path pp lines stat L R).
    unfold materialize.
    rewrite no_qualifying_no_info;
      [reflexivity|apply hook_push_parsed|apply hook_push_parsed|exact H].
Qed.

(** C7.  A session file larger than 50 MiB is not read: its metadata pass
    gives nothing, so [listClaudeSessions] answers as it does on the store
    without the file, and every session it lists comes from another file;
    and [parseClaudeSession], when this is the file it locates, gives
    not-found.  A file of exactly 50 MiB passes the guard: its lines are
    read. *)
Theorem size_ceiling fs path stat :
  statSync fs path = Some stat ->
  ((MAX_FILE_SIZE < size stat)%Z ->
   readJsonlLines fs path = Ok None
   /\ (forall sid pp, extractSessionInfo fs path sid pp = Ok None)
   /\ (forall projectDir file,
          path = session_file_path projectDir file ->
          listClaudeSessions
            (without_file fs (path_join getClaudeProjectsDir (name projectDir)) file)
          = listClaudeSessions fs)
   /\ (forall l i,
          listClaudeSessions fs = Ok l -> In i l ->
          exists projectDir jsonlFile,
            listed_from fs projectDir jsonlFile i
            /\ session_file_path projectDir jsonlFile <> path)
   /\ (forall clock sid pp,
          locate_session fs sid = Some (path, pp) ->
          parseClaudeSession fs clock sid = Ok None))
  /\ (size stat = MAX_FILE_SIZE ->
      forall content,
        readFileSync fs path = Some content ->
        readJsonlLines fs path = Ok (Some (nonblank_lines content, stat))).
Proof.
  intros S. split.
  - intros Big.
    assert (R : readJsonlLines fs path = Ok None).
    { unfold readJsonlLines. rewrite S. cbn [fs_call rbind].
      apply Z.gtb_lt in Big. rewrite Big. reflexivity. }
    assert (X : forall sid pp, extractSessionInfo fs path sid pp = Ok None).
    { intros sid pp. unfold extractSessionInfo. rewrite R. reflexivity. }
    split; [exact R|]. split; [exact X|]. split; [|split].
    + intros projectDir file ->. apply listing_without_silent_file. exact X.
    + intros l i Hl Hi.
      destruct (listClaudeSessions_in fs l i Hl Hi) as (d & f & LF).
      exists d, f. split; [exact LF|].
      intros E. destruct LF as (_ & _ & _ & _ & LF). rewrite E, X in LF. discriminate.
    + intros clock sid pp L. unfold parseClaudeSession. rewrite L, R. reflexivity.
  - intros Eq content C. unfold readJsonlLines. rewrite S. cbn [fs_call rbind].
    rewrite Eq, C. reflexivity.
Qed.

(** ** Further facts about the two failure paths and the session id *)

(** Every located session file that passes the size guard and cannot be
    read makes [parseClaudeSession] throw. *)
Lemma parseClaudeSession_unreadable fs clock sid path pp stat :
  locate_session fs sid = Some (path, pp) ->
  statSync fs path = Some stat ->
  (size stat <= MAX_FILE_SIZE)%Z ->
  readFileSync fs path = None ->
  parseClaudeSession fs clock sid = Throw SystemError.
Proof.
  intros L S Small C. unfold parseClaudeSession, readJsonlLines.
  rewrite L, S. cbn [fs_call rbind].
  assert ((size stat >? MAX_FILE_SIZE)%Z = false) as ->.
  { rewrite Z.gtb_ltb. apply Z.ltb_ge. exact Small. }
  rewrite C. reflexivity.
Qed.

Lemma sort_insert_throws {A} (cmp : A -> A -> result (option Z)) x e :
  forall sorted,
    sort_insert cmp x sorted = Throw e -> exists y, In y sorted /\ cmp x y = Throw e.
Proof.
  induction sorted as [|y rest IH]; cbn [sort_insert]; [discriminate|].
  destruct (cmp x y) as [[d|]|e'] eqn:C; cbn [rbind]; try discriminate.
  - destruct (0 <? d)%Z; [|discriminate].
    destruct (sort_insert cmp x rest) as [rest'|e'] eqn:E; cbn [rbind]; [discriminate|].
    intros [= ->]. destruct (IH eq_refl) as (z & Hz & Cz).
    exists z. split; [right; exact Hz|exact Cz].
  - intros [= ->]. exists y. split; [left; reflexivity|exact C].
Qed.

Lemma Array_sort_throws {A} (cmp : A -> A -> result (option Z)) e :
  forall arr,
    Array_sort cmp arr = Throw e ->
    exists x y, In x arr /\ In y arr /\ cmp x y = Throw e.
Proof.
  induction arr as [|x rest IH]; cbn [Array_sort]; [discriminate|].
  destruct (Array_sort cmp rest) as [sorted|e'] eqn:E; cbn [rbind].
  - intros H. apply sort_insert_throws in H as (y & Hy & C).
    exists x, y. split; [left; reflexivity|]. split; [|exact C].
    right. apply Permutation_in with (l := sorted); [|exact Hy].
    apply Permutation_sym. apply Array_sort_perm with (cmp := cmp). exact E.
  - intros [= ->]. destruct (IH eq_refl) as (a & b & Ha & Hb & C).
    exists a, b. repeat split; [right; exact Ha|right; exact Hb|exact C].
Qed.

(** No failure of the file system leaves [listClaudeSessions]: it throws
    only when the comparator of the final sort throws on two of the sessions
    it has gathered. *)
Lemma listClaudeSessions_throws_only_in_sort fs e :
  listClaudeSessions fs = Throw e ->
  exists a b,
    In a (collect_sessions fs) /\ In b (collect_sessions fs)
    /\ by_updatedAt_desc a b = Throw e.
Proof.
  unfold listClaudeSessions.
  destruct (existsSync fs getClaudeProjectsDir); cbn [negb]; [|discriminate].
  apply Array_sort_throws.
Qed.

(** When the root directory is absent both entry points give the empty
    answer. *)
Lemma absent_root fs clock sid :
  existsSync fs getClaudeProjectsDir = false ->
  listClaudeSessions fs = Ok [] /\ parseClaudeSession fs clock sid = Ok None.
Proof.
  intros H. unfold listClaudeSessions, parseClaudeSession, locate_session.
  rewrite H. split; reflexivity.
Qed.

(** The session id is the file name without its extension when the rest of
    the name holds no dot, as for the UUID names the external tool uses. *)
Lemma sessionId_of_dotless_name stem :
  (forall c, In c (list_ascii_of_string stem) -> c <> "."%char) ->
  sessionId_of_file (stem ++ ".jsonl") = stem.
Proof.
  unfold sessionId_of_file.
  induction stem as [|c stem IH]; intros H; [reflexivity|].
  cbn [String.append JsString.replace JsString.startsWith].
  assert (Ascii.eqb "." c = false) as ->.
  { apply Ascii.eqb_neq. intros E. apply (H c); [left; reflexivity|congruence]. }
  cbn [andb]. f_equal. apply IH. intros d Hd. apply H. right. exact Hd.
Qed.

(** ** The shapes of a line that yield a preview *)

Lemma event_preview_of_text members message s :
  Js.lookup "type" members = Some (JString "user") ->
  Js.lookup "message" members = Some (JObject message) ->
  Js.lookup "content" message = Some (JString s) ->
  JsString.nonEmpty s = true ->
  event_preview (JObject members) = Some (JString (JsString.slice0 120 s)).
Proof.
  intros T M C N. unfold event_preview. rewrite T, M, C, N. reflexivity.
Qed.

Lemma event_preview_of_fragments members message blocks :
  Js.lookup "type" members = Some (JString "user") ->
  Js.lookup "message" members = Some (JObject message) ->
  Js.lookup "content" message = Some (JArray blocks) ->
  event_preview (JObject members) = fragments_preview blocks.
Proof.
  intros T M C. unfold event_preview. rewrite T, M, C. reflexivity.
Qed.

Lemma fragments_preview_first_text fragment rest s :
  Js.lookup "type" fragment = Some (JString "text") ->
  Js.lookup "text" fragment = Some (JString s) ->
  JsString.nonEmpty s = true ->
  fragments_preview (JObject fragment :: rest) = Some (JString (JsString.slice0 120 s)).
Proof.
  intros T X N. cbn [fragments_preview]. rewrite T, X, N. reflexivity.
Qed.

Lemma fragments_preview_skips_other fragment rest tag :
  Js.lookup "type" fragment = Some (JString tag) ->
  String.eqb tag "text" = false ->
  fragments_preview (JObject fragment :: rest) = fragments_preview rest.
Proof.
  intros T N. cbn [fragments_preview]. rewrite T, N. reflexivity.
Qed.

End Claims.


(* ================================================================== *)
(** * Worked examples on the executable host *)
(* ================================================================== *)

Section Worked.

Import Disk.
#[local] Existing Instance Node.host.

(** The end-to-end example of the tests. *)
Example hello_listed : listClaudeSessions hello_fs = Ok [hello_info].
Proof. vm_compute. reflexivity. Qed.

Example hello_parsed :
  exists ps,
    parseClaudeSession hello_fs epoch "s1" = Ok (Some ps)
    /\ info ps = hello_info
    /\ List.map (fun m => (role m, content m)) (messages ps)
       = [(user, "Hello, can you help me?"); (assistant, "Of course!")].
Proof. eexists. split; [vm_compute; reflexivity|]. split; vm_compute; reflexivity. Qed.

Lemma hello_produced : produced hello_fs hello_info.
Proof. left. exists [hello_info]. split; [vm_compute; reflexivity|left; reflexivity]. Qed.

(** C1, counterexample.  The log of [unstamped_fs] holds one user message
    without a timestamp; two calls on the unmodified file, one at time 0
    and one at time 1000, give different results. *)
Lemma parse_twice_differs_without_timestamp :
  parseClaudeSession unstamped_fs epoch "s1" <> parseClaudeSession unstamped_fs later "s1".
Proof. vm_compute. discriminate. Qed.

(** Witness of C1: the end-to-end example, read at two different times. *)
Lemma parse_twice_same_up_to_clock_witness :
  parseClaudeSession hello_fs epoch "s1" = parseClaudeSession hello_fs later "s1".
Proof.
  apply (proj2 (@parse_twice_same_up_to_clock Node.host hello_fs epoch later "s1")).
  intros path pp lines stat L R.
  vm_compute in L. injection L as <- <-.
  vm_compute in R. injection R as <- <-.
  vm_compute. reflexivity.
Defined.

(** C2, failing input.  The session file exists and cannot be read:
    [parseClaudeSession] throws, where [listClaudeSessions] skips the
    file. *)
Example parse_raises_on_unreadable_file :
  parseClaudeSession unreadable_fs epoch "s1" = Throw SystemError
  /\ listClaudeSessions unreadable_fs = Ok [].
Proof. split; vm_compute; reflexivity. Qed.

(** A second way to an exception: the sort of the listing converts every
    [updatedAt] to a date, and the conversion of an object that has a
    member [toString] throws. *)
Example list_raises_on_object_timestamp :
  listClaudeSessions object_stamp_fs = Throw TypeError.
Proof. vm_compute. reflexivity. Qed.

(** C3, counterexample.  The log of [backwards_fs] carries the timestamp
    2026-01-02 on its first line and 2026-01-01 on its second: both entry
    points give an info record whose [createdAt] is later than its
    [updatedAt]. *)
Lemma createdAt_after_updatedAt :
  exists ps,
    parseClaudeSession backwards_fs epoch "s1" = Ok (Some ps)
    /\ listClaudeSessions backwards_fs = Ok [info ps]
    /\ createdAt (info ps) = JString "2026-01-02T00:00:00.000Z"
    /\ updatedAt (info ps) = JString "2026-01-01T00:00:00.000Z"
    /\ date_leb (createdAt (info ps)) (updatedAt (info ps)) = false.
Proof.
  eexists. split; [vm_compute; reflexivity|].
  repeat split; vm_compute; reflexivity.
Qed.

Lemma hello_listed_from :
  listed_from hello_fs {| name := "-home-user-myproject"; isDirectory := true |}
              "s1.jsonl" hello_info.
Proof.
  unfold listed_from. split; [|split; [|split; [|split]]].
  - eexists. split; [vm_compute; reflexivity|left; reflexivity].
  - reflexivity.
  - eexists. split; [vm_compute; reflexivity|left; reflexivity].
  - vm_compute. reflexivity.
  - vm_compute. reflexivity.
Defined.

(** The listing entry of the end-to-end example was read from the one
    file of the store. *)
Lemma hello_read_from :
  read_from hello_fs hello_info Cases.hello_path "/home/user/myproject"
            (nonblank_lines hello_log) small.
Proof.
  split; [vm_compute; reflexivity|].
  left. exists {| name := "-home-user-myproject"; isDirectory := true |}, "s1.jsonl".
  split; [exact hello_listed_from|]. split; vm_compute; reflexivity.
Defined.

(** Witness of C3: the listing entry of the end-to-end example. *)
Lemma stamps_first_and_last_seen_witness :
  match in_band_timestamps (nonblank_lines hello_log) with
  | [] =>
      createdAt hello_info = JString (Date_toISOString (birthtime small))
      /\ updatedAt hello_info = JString (Date_toISOString (mtime small))
  | first :: rest =>
      createdAt hello_info = first
      /\ updatedAt hello_info = last rest first
      /\ date_leb (createdAt hello_info) (updatedAt hello_info)
         = date_leb first (last rest first)
  end.
Proof.
  apply (proj2 (@stamps_first_and_last_seen Node.host hello_fs hello_info)
               Cases.hello_path "/home/user/myproject" (nonblank_lines hello_log) small).
  exact hello_read_from.
Defined.

(** C4, counterexample.  The one user event of [fragments_fs] has the two
    text fragments [a] and [b]; its extractable text is the two joined by
    a newline, and the preview is [a], which is not the first 120
    characters of that text. *)
Lemma preview_is_not_cut_from_joined_text :
  exists ps entry text,
    JSON_parse (dq fragments_line) = Some entry
    /\ extractable_text entry = Some text
    /\ text = String "a" (String JsString.LF (String "b" EmptyString))
    /\ parseClaudeSession fragments_fs epoch "s1" = Ok (Some ps)
    /\ List.map content (messages ps) = [text]
    /\ preview (info ps) = JString "a"
    /\ preview (info ps) <> JString (JsString.slice0 120 text).
Proof.
  eexists. eexists. eexists.
  split; [vm_compute; reflexivity|].
  split; [vm_compute; reflexivity|].
  split; [reflexivity|].
  split; [vm_compute; reflexivity|].
  split; [vm_compute; reflexivity|].
  split; [vm_compute; reflexivity|].
  vm_compute. discriminate.
Qed.

(** Witness of C4: the listing entry of the end-to-end example. *)
Lemma preview_first_wins_witness :
  (forall pre line post p,
      nonblank_lines hello_log = pre ++ line :: post ->
      Forall (fun x => line_preview x = None) pre ->
      line_preview line = Some p ->
      preview hello_info = p)
  /\ ((forall x, In x (nonblank_lines hello_log) -> line_preview x = None) ->
      preview hello_info = JString "(no preview)")
  /\ (forall s, preview hello_info = JString s -> String.length s <= 120)
  /\ (forall a, preview hello_info = JArray a -> List.length a <= 120).
Proof.
  apply (proj2 (@preview_first_wins Node.host hello_fs hello_info)
               Cases.hello_path "/home/user/myproject" (nonblank_lines hello_log) small).
  exact hello_read_from.
Defined.


(** The messages of that log: the three events in file order, the last
    with the time of the call. *)
Example interleaved_messages :
  messages_in_order later false 0 (nonblank_lines interleaved_log)
  = [ {| role := user; content := "first";
         contentBlocks := [TextBlock (JString "first")]; hasToolBlocks := false;
         timestamp := JString "2026-01-15T10:00:01.000Z" |}
    ; {| role := assistant; content := "second";
         contentBlocks := [TextBlock (JString "second")]; hasToolBlocks := false;
         timestamp := JString "2026-01-15T10:00:02.000Z" |}
    ; {| role := user; content := "third";
         contentBlocks := [TextBlock (JString "third")]; hasToolBlocks := false;
         timestamp := JString "1970-01-01T00:00:01.000Z" |} ]
  /\ (exists ps,
         parseClaudeSession interleaved_fs later "s1" = Ok (Some ps)
         /\ List.map content (messages ps) = ["first"; "second"; "third"])
  /\ forallb (fun line => negb (preview_cut_throws line))
             (nonblank_lines interleaved_log) = true.
Proof.
  split; [vm_compute; reflexivity|].
  split; [|vm_compute; reflexivity].
  eexists. split; vm_compute; reflexivity.
Qed.

(** Witness of C6: a log of lifecycle markers only. *)
Lemma no_qualifying_event_no_session_witness :
  (forall sid pp, extractSessionInfo markers_fs s1_path sid pp = Ok None)
  /\ (forall projectDir file,
         s1_path = session_file_path projectDir file ->
         listClaudeSessions
           (without_file markers_fs (path_join getClaudeProjectsDir (name projectDir)) file)
         = listClaudeSessions markers_fs)
  /\ (forall l i,
         listClaudeSessions markers_fs = Ok l -> In i l ->
         exists projectDir jsonlFile,
           listed_from markers_fs projectDir jsonlFile i
           /\ session_file_path projectDir jsonlFile <> s1_path)
  /\ (forall clock sid pp,
         locate_session markers_fs sid = Some (s1_path, pp) ->
         parseClaudeSession markers_fs clock sid = Ok None).
Proof.
  refine (@no_qualifying_event_no_session Node.host markers_fs s1_path
            (nonblank_lines
               (log [ "{'type':'queue-operation','operation':'enqueue','timestamp':'2026-01-15T10:00:00.000Z'}"
                    ; "{'type':'queue-operation','operation':'dequeue','timestamp':'2026-01-15T10:00:01.000Z'}" ]))
            small _ _);
    vm_compute; reflexivity.
Defined.

(** Witness of C7: the same log in a file one byte over the ceiling, and in
    a file of exactly the ceiling. *)
Lemma size_ceiling_witness :
  readJsonlLines oversize_fs s1_path = Ok None
  /\ readJsonlLines ceiling_fs s1_path = Ok (Some (nonblank_lines hello_log, at_ceiling)).
Proof.
  split.
  - refine (proj1 (proj1 (@size_ceiling Node.host oversize_fs s1_path over_ceiling _) _));
      vm_compute; reflexivity.
  - refine (proj2 (@size_ceiling Node.host ceiling_fs s1_path at_ceiling _) _ hello_log _);
      vm_compute; reflexivity.
Defined.

(** C8, failing input.  For the file [a.jsonl.b.jsonl] the listing gives
    the session id [a.b.jsonl], not the name without its trailing
    extension, [a.jsonl.b]; [parseClaudeSession] does not find a session
    under the listed id; and two distinct file names give one id. *)
Example sessionId_drops_first_extension :
  (exists i, listClaudeSessions odd_name_fs = Ok [i] /\ sessionId i = "a.b.jsonl")
  /\ parseClaudeSession odd_name_fs epoch "a.b.jsonl" = Ok None
  /\ JsString.endsWith "x.jsonly.jsonl" ".jsonl" = true
  /\ JsString.endsWith "xy.jsonl.jsonl" ".jsonl" = true
  /\ sessionId_of_file "x.jsonly.jsonl" = sessionId_of_file "xy.jsonl.jsonl".
Proof.
  split; [eexists; split; vm_compute; reflexivity|].
  repeat split; vm_compute; reflexivity.
Qed.

(** C10.  [parseClaudeSession] can give a session with no message: the log
    of [blank_fs] holds one user event whose content is three spaces; the
    result counts one user event, has no message, and the session is
    listed. *)
Theorem session_without_messages :
  exists ps,
    parseClaudeSession blank_fs epoch "s1" = Ok (Some ps)
    /\ 0 < userMessageCount (info ps) + assistantMessageCount (info ps)
    /\ messages ps = []
    /\ listClaudeSessions blank_fs = Ok [info ps].
Proof.
  eexists. split; [vm_compute; reflexivity|].
  split; [vm_compute; lia|]. split; vm_compute; reflexivity.
Qed.

(** ** Further examples of the tests and of the specification *)

Example tool_blocks_parsed :
  exists ps u a,
    parseClaudeSession tools_fs epoch "s1" = Ok (Some ps)
    /\ messages ps = [u; a]
    /\ role a = assistant
    /\ content a = "Here is the content."
    /\ hasToolBlocks a = true
    /\ contentBlocks a
       = [ TextBlock (JString "Here is the content.")
         ; ToolUseBlock (JString "tool-002") (JString "Read")
                        (JObject [("file_path", JString "test.txt")])
         ; ToolResultBlock (JString "tool-002") "file content here" (JBool false) ].
Proof.
  eexists. eexists. eexists.
  split; [vm_compute; reflexivity|]. repeat split.
Qed.

Example silent_events_give_no_message :
  exists ps,
    parseClaudeSession silent_fs epoch "s1" = Ok (Some ps)
    /\ userMessageCount (info ps) = 1
    /\ assistantMessageCount (info ps) = 1
    /\ messages ps = []
    /\ preview (info ps) = JString "(no preview)".
Proof. eexists. split; [vm_compute; reflexivity|]. repeat split. Qed.

Example markers_not_listed :
  listClaudeSessions markers_fs = Ok []
  /\ parseClaudeSession markers_fs epoch "s1" = Ok None.
Proof. split; vm_compute; reflexivity. Qed.

Example oversize_not_listed :
  listClaudeSessions oversize_fs = Ok []
  /\ parseClaudeSession oversize_fs epoch "s1" = Ok None.
Proof. split; vm_compute; reflexivity. Qed.

Example file_at_ceiling_listed :
  exists i ps,
    listClaudeSessions ceiling_fs = Ok [i]
    /\ parseClaudeSession ceiling_fs epoch "s1" = Ok (Some ps)
    /\ info ps = i
    /\ fileSize i = MAX_FILE_SIZE.
Proof.
  eexists. eexists. split; [vm_compute; reflexivity|].
  split; [vm_compute; reflexivity|]. split; reflexivity.
Qed.

Example long_preview_is_cut :
  exists i,
    listClaudeSessions long_fs = Ok [i]
    /\ preview i = JString (repeat_char 120 "A").
Proof. eexists. split; vm_compute; reflexivity. Qed.

End Worked.

Section MoreFacts.
Context {host : Host}.

Lemma timestamp_or_now_cases clock entry n r n' :
  timestamp_or_now clock entry n = (r, n') ->
  (exists e, r = Throw e)
  \/ (exists ts, r = Ok ts /\ Js.Get entry "timestamp" = Ok ts /\ Js.truthy ts = true /\ n' = n)
  \/ (r = Ok (JString (Date_toISOString (clock n))) /\ n' = S n).
Proof.
  unfold timestamp_or_now, now, bind, lift, ret.
  destruct (Js.Get entry "timestamp") as [ts|e].
  - destruct (Js.truthy ts) eqn:T; intros [= <- <-].
    + right. left. exists ts. repeat split. exact T.
    + right. right. split; reflexivity.
  - intros [= <- <-]. left. exists e. reflexivity.
Qed.

Lemma parseUserMessage_shape clock entry n m n' :
  parseUserMessage clock entry n = (Ok (Some m), n') ->
  role m = user
  /\ hasToolBlocks m = false
  /\ contentBlocks m = [TextBlock (JString (content m))]
  /\ JsString.nonEmpty (JsString.trim (content m)) = true
  /\ extractable_text entry = Some (content m).
Proof.
  unfold parseUserMessage, extractable_text, bind, lift, ret.
  destruct (Js.Get entry "message") as [message|]; [|discriminate].
  destruct (Js.OptGet message "content") as [msgContent|]; [|discriminate].
  destruct (Js.truthy msgContent); cbn [negb]; [|discriminate].
  destruct msgContent as [| |b|mm e|s|blocks|ms]; try discriminate.
  2: destruct (joined_text_fragments blocks) as [s|]; cbn [rbind]; [|discriminate].
  all: cbv beta iota;
    destruct (JsString.nonEmpty (JsString.trim s)) eqn:N; cbn [negb]; [|discriminate];
    destruct (timestamp_or_now clock entry n) as [[ts|] k]; [|discriminate];
    intros [= <- <-]; cbn; repeat split; exact N.
Qed.

Lemma block_texts_app a b : block_texts (a ++ b) = block_texts a ++ block_texts b.
Proof. unfold block_texts. apply flat_map_app. Qed.

Lemma assistant_block_inv acc block acc' :
  assistant_block acc block = Ok acc' ->
  blocks_invariant acc ->
  blocks_invariant acc'
  /\ length (fst (fst acc')) <= S (length (fst (fst acc))).
Proof.
  destruct acc as [[blocks parts] has]. unfold assistant_block.
  destruct (Js.Get block "type") as [ty|]; cbn [rbind]; [|discriminate].
  intros H [I1 [I2 I3]].
  destruct (Js.is_string ty "text").
  { destruct (Js.Get block "text") as [text|]; cbn [rbind] in H; [|discriminate].
    destruct (Js.truthy text) eqn:T; injection H as <-.
    - cbn [fst snd blocks_invariant]. rewrite block_texts_app, existsb_app, length_app.
      cbn. rewrite orb_false_r. repeat split; try congruence; try lia.
      apply Forall_app. split; [exact I3|]. constructor; [exact T|constructor].
    - cbn. repeat split; try assumption. lia. }
  destruct (Js.is_string ty "tool_use").
  { destruct (Js.Get block "id"); cbn [rbind] in H; [|discriminate].
    destruct (Js.Get block "name"); cbn [rbind] in H; [|discriminate].
    destruct (Js.Get block "input"); cbn [rbind] in H; [|discriminate].
    injection H as <-.
    cbn [fst snd blocks_invariant]. rewrite block_texts_app, existsb_app, length_app.
    cbn. rewrite app_nil_r, orb_true_r. repeat split; try assumption. lia. }
  destruct (Js.is_string ty "tool_result").
  { destruct (Js.Get block "content") as [c|]; cbn [rbind] in H; [|discriminate].
    destruct (match c with
              | JString s => Ok s
              | JArray cs => joined_text_fragments cs
              | _ => Ok EmptyString
              end) as [rc|]; cbn [rbind] in H; [|discriminate].
    destruct (Js.Get block "tool_use_id"); cbn [rbind] in H; [|discriminate].
    destruct (Js.Get block "is_error"); cbn [rbind] in H; [|discriminate].
    injection H as <-.
    cbn [fst snd blocks_invariant]. rewrite block_texts_app, existsb_app, length_app.
    cbn. rewrite app_nil_r, orb_true_r. repeat split; try assumption. lia. }
  injection H as <-. cbn. repeat split; try assumption. lia.
Qed.

Lemma assistant_blocks_inv msgContent :
  forall acc acc',
    assistant_blocks acc msgContent = Ok acc' ->
    blocks_invariant acc ->
    blocks_invariant acc'
    /\ length (fst (fst acc')) <= length (fst (fst acc)) + length msgContent.
Proof.
  induction msgContent as [|block rest IH]; intros acc acc' H I.
  - injection H as <-. split; [exact I|cbn; lia].
  - cbn [assistant_blocks] in H.
    destruct (assistant_block acc block) as [acc1|] eqn:E; cbn [rbind] in H; [|discriminate].
    destruct (assistant_block_inv _ _ _ E I) as [I1 L1].
    destruct (IH _ _ H I1) as [I2 L2].
    split; [exact I2|]. cbn [length]. lia.
Qed.

Lemma parseAssistantMessage_shape clock entry n m n' :
  parseAssistantMessage clock entry n = (Ok (Some m), n') ->
  role m = assistant
  /\ contentBlocks m <> []
  /\ hasToolBlocks m = existsb is_tool_block (contentBlocks m)
  /\ Forall (fun t => Js.truthy t = true) (block_texts (contentBlocks m))
  /\ Array_join (String JsString.LF EmptyString) (block_texts (contentBlocks m))
     = Ok (content m)
  /\ exists message blocks,
       Js.Get entry "message" = Ok message
       /\ Js.OptGet message "content" = Ok (JArray blocks)
       /\ length (contentBlocks m) <= length blocks.
Proof.
  unfold parseAssistantMessage, bind, lift, ret.
  destruct (Js.Get entry "message") as [message|] eqn:HM; [|discriminate].
  destruct (Js.OptGet message "content") as [msgContent|] eqn:HC; [|discriminate].
  destruct msgContent as [| |b|mm e|s|blocks|ms]; try discriminate.
  destruct (assistant_blocks ([], [], false) blocks) as [[[bs parts] has]|] eqn:E;
    [|discriminate].
  destruct (assistant_blocks_inv blocks _ _ E) as [[I1 [I2 I3]] L].
  { cbn. repeat split. constructor. }
  destruct bs as [|b0 bs]; [discriminate|].
  destruct (Array_join (String JsString.LF EmptyString) parts) as [plain|] eqn:J;
    [|discriminate].
  destruct (timestamp_or_now clock entry n) as [[ts|] k]; [|discriminate].
  intros [= <- <-]. cbn [role contentBlocks hasToolBlocks content].
  subst parts has.
  split; [reflexivity|]. split; [discriminate|]. split; [reflexivity|].
  split; [exact I3|]. split; [exact J|].
  exists message, blocks. split; [reflexivity|]. split; [exact HC|exact L].
Qed.

Lemma parseUserMessage_well_formed clock entry n m n' :
  parseUserMessage clock entry n = (Ok (Some m), n') ->
  well_formed_message m /\ is_user_message m = true.
Proof.
  intros H. apply parseUserMessage_shape in H as (R & T & B & N & _).
  unfold well_formed_message, is_user_message. rewrite R. auto.
Qed.

Lemma parseAssistantMessage_well_formed clock entry n m n' :
  parseAssistantMessage clock entry n = (Ok (Some m), n') ->
  well_formed_message m /\ is_assistant_message m = true.
Proof.
  intros H. apply parseAssistantMessage_shape in H as (R & B & T & F & J & _).
  unfold well_formed_message, is_assistant_message. rewrite R. auto.
Qed.

Lemma push_parsed_messages parse entry l :
  v_messages (snd (push_parsed parse entry l))
  = v_messages l ++ match fst (parse entry (v_ticks l)) with
                    | Ok (Some m) => [m]
                    | _ => []
                    end.
Proof.
  unfold push_parsed, bind, zoom.
  destruct (parse entry (v_ticks l)) as [[[m|]|e] t]; cbn; try rewrite app_nil_r; reflexivity.
Qed.

Lemma user_message_roles m :
  is_user_message m = negb (is_assistant_message m).
Proof. unfold is_user_message, is_assistant_message. destruct (role m); reflexivity. Qed.

(** The messages one line adds. *)
Lemma scan_line_messages clock line l :
  exists ms,
    v_messages (try_catch (scan_line (push_parsed (parseUserMessage clock))
                                     (push_parsed (parseAssistantMessage clock)) line) l)
    = v_messages l ++ ms
    /\ Forall well_formed_message ms
    /\ length (List.filter is_user_message ms) <= (if is_user_line line then 1 else 0)
    /\ length (List.filter is_assistant_message ms)
       <= (if is_assistant_line line then 1 else 0).
Proof.
  assert (Z : exists ms : list ParsedMessage,
             v_messages l = v_messages l ++ ms /\ Forall well_formed_message ms
             /\ length (List.filter is_user_message ms) <= (if is_user_line line then 1 else 0)
             /\ length (List.filter is_assistant_message ms)
                <= (if is_assistant_line line then 1 else 0)).
  { exists []. rewrite app_nil_r. repeat split; try constructor; cbn; lia. }
  unfold is_user_line, is_assistant_line, event_type in *.
  cbv beta iota zeta delta [try_catch scan_line JSON_parse_or_throw bind lift].
  destruct (JSON_parse line) as [entry|]; [|exact Z].
  rewrite track_timestamps_run.
  destruct (Js.Get entry "timestamp") as [ts|e]; [|exact Z].
  cbn [fst snd].
  match goal with
  | |- context [dispatch _ _ _ ?s] =>
      assert (TM : v_messages s = v_messages l)
        by (destruct (Js.truthy ts); [destruct (Js.truthy (v_createdAt l))|]; reflexivity);
      generalize dependent s; intros l1 TM
  end.
  rewrite <- TM. clear Z TM.
  unfold dispatch. 
  destruct (Js.Get entry "type") as [ty|e];
    [rewrite bind_lift_ok|rewrite bind_lift_throw; exists []; rewrite app_nil_r;
                          repeat split; try constructor; cbn; lia].
  destruct (Js.is_string ty "user") eqn:EU.
  - assert (Js.is_string ty "assistant" = false) as ->.
    { destruct ty; try discriminate. simpl in *.
      apply String.eqb_eq in EU. subst. reflexivity. }
    unfold bind.
    pose proof (user_metadata_frame v_messages entry
                  (fun _ _ => eq_refl) (fun _ _ => eq_refl) (fun _ _ => eq_refl)
                  (fun _ _ => eq_refl) (fun _ _ => eq_refl) l1) as UM.
    destruct (user_metadata entry l1) as [[[]|e] l2]; cbn [fst snd] in *.
    + rewrite push_parsed_messages, UM.
      destruct (parseUserMessage clock entry (v_ticks l2)) as [[[m|]|e] t] eqn:P;
        cbn [fst].
      * destruct (parseUserMessage_well_formed _ _ _ _ _ P) as [W U].
        exists [m]. split; [reflexivity|]. split; [constructor; [exact W|constructor]|].
        cbn. rewrite U. rewrite user_message_roles in U.
        apply negb_true_iff in U. rewrite U. cbn. lia.
      * exists []. repeat split; try constructor; cbn; lia.
      * exists []. repeat split; try constructor; cbn; lia.
    + rewrite UM. exists []. rewrite app_nil_r. repeat split; try constructor; cbn; lia.
  - destruct (Js.is_string ty "assistant").
    + rewrite bind_assign, push_parsed_messages.
      cbn [v_messages v_ticks set_assistantMessageCount].
      destruct (parseAssistantMessage clock entry (v_ticks l1)) as [[[m|]|e] t] eqn:P;
        cbn [fst].
      * destruct (parseAssistantMessage_well_formed _ _ _ _ _ P) as [W U].
        exists [m]. split; [reflexivity|]. split; [constructor; [exact W|constructor]|].
        cbn. rewrite U, user_message_roles, U. cbn. lia.
      * exists []. repeat split; try constructor; cbn; lia.
      * exists []. repeat split; try constructor; cbn; lia.
    + exists []. cbn. rewrite app_nil_r. repeat split; try constructor; cbn; lia.
Qed.

Lemma scan_lines_messages clock lines :
  forall l,
  exists ms,
    v_messages (scan_lines (push_parsed (parseUserMessage clock))
                           (push_parsed (parseAssistantMessage clock)) lines l)
    = v_messages l ++ ms
    /\ Forall well_formed_message ms
    /\ length (List.filter is_user_message ms) <= length (List.filter is_user_line lines)
    /\ length (List.filter is_assistant_message ms)
       <= length (List.filter is_assistant_line lines).
Proof.
  induction lines as [|line lines IH]; intros l.
  - exists []. cbn. rewrite app_nil_r. repeat split; try constructor; lia.
  - rewrite scan_lines_cons.
    destruct (scan_line_messages clock line l) as (ms1 & E1 & W1 & U1 & A1).
    destruct (IH (try_catch (scan_line (push_parsed (parseUserMessage clock))
                                       (push_parsed (parseAssistantMessage clock)) line) l))
      as (ms2 & E2 & W2 & U2 & A2).
    exists (ms1 ++ ms2). rewrite E2, E1, app_assoc.
    split; [reflexivity|]. split; [apply Forall_app; split; assumption|].
    rewrite !filter_app, !length_app. cbn [List.filter].
    destruct (is_user_line line), (is_assistant_line line); cbn [length]; lia.
Qed.

Lemma materialize_messages clock lines :
  Forall well_formed_message (v_messages (materialize clock lines))
  /\ length (List.filter is_user_message (v_messages (materialize clock lines)))
     <= length (List.filter is_user_line lines)
  /\ length (List.filter is_assistant_message (v_messages (materialize clock lines)))
     <= length (List.filter is_assistant_line lines).
Proof.
  unfold materialize.
  destruct (scan_lines_messages clock lines initial_locals) as (ms & -> & W & U & A).
  cbn [initial_locals v_messages app]. auto.
Qed.

Lemma roles_partition (ms : list ParsedMessage) :
  length ms
  = length (List.filter is_user_message ms) + length (List.filter is_assistant_message ms).
Proof.
  induction ms as [|m ms IH]; [reflexivity|].
  cbn [List.filter length]. rewrite user_message_roles.
  destruct (is_assistant_message m); cbn [negb length]; lia.
Qed.

(** X1.  Every message of a session that [parseClaudeSession] returns is
    well formed: a user message has no tool flag and exactly one block, a
    text block holding its content, which is not blank; an assistant
    message has at least one block, its tool flag tells whether a
    [tool_use] or [tool_result] block is among them, none of its text
    blocks is empty, and its content is the texts of its text blocks
    joined by newlines. *)
Theorem parsed_messages_well_formed fs clock sid ps :
  parseClaudeSession fs clock sid = Ok (Some ps) ->
  Forall well_formed_message (messages ps).
Proof.
  intros H.
  apply parseClaudeSession_inv in H as (path & pp & lines & stat & _ & _ & _ & ->).
  apply materialize_messages.
Qed.

(** X2.  The two counters of the info record count events, the message
    list holds the events that gave a message: a returned session never
    has more user messages than [userMessageCount], nor more assistant
    messages than [assistantMessageCount], nor more messages than the sum
    of the two. *)
Theorem messages_bounded_by_counts fs clock sid ps :
  parseClaudeSession fs clock sid = Ok (Some ps) ->
  length (List.filter is_user_message (messages ps)) <= userMessageCount (info ps)
  /\ length (List.filter is_assistant_message (messages ps))
     <= assistantMessageCount (info ps)
  /\ length (messages ps) <= userMessageCount (info ps) + assistantMessageCount (info ps).
Proof.
  intros H.
  apply parseClaudeSession_inv in H as (path & pp & lines & stat & _ & _ & S & ->).
  apply session_info_some in S as (_ & _ & _ & -> & -> & _).
  destruct (materialize_messages clock lines) as (_ & U & A).
  destruct (scan_lines_counts (push_parsed (parseUserMessage clock))
                              (push_parsed (parseAssistantMessage clock)) lines
                              (hook_push_parsed _) (hook_push_parsed _) initial_locals)
    as [CU CA].
  fold (materialize clock lines) in CU, CA. rewrite CU, CA.
  cbn [initial_locals v_userMessageCount v_assistantMessageCount].
  rewrite (roles_partition (v_messages (materialize clock lines))). lia.
Qed.

(** X3.  Every info record that [listClaudeSessions] or
    [parseClaudeSession] produces was read from a session file, and for
    the file it was read from: [userMessageCount] is the number of
    decodable lines of type user of that file, [assistantMessageCount]
    the number of those of type assistant, at least one of the two is
    positive, and [fileSize] is the size that [stat] reports for the
    file; an event counts whether or not it yields a message. *)
Theorem counts_are_event_counts fs i :
  (produced fs i -> exists path pp lines stat, read_from fs i path pp lines stat)
  /\ (forall path pp lines stat,
         read_from fs i path pp lines stat ->
         statSync fs path = Some stat
         /\ userMessageCount i = length (List.filter is_user_line lines)
         /\ assistantMessageCount i = length (List.filter is_assistant_line lines)
         /\ 0 < userMessageCount i + assistantMessageCount i
         /\ fileSize i = size stat).
Proof.
  split; [apply produced_read_from|].
  intros path pp lines stat RF.
  destruct (read_from_pass _ _ _ _ _ _ RF) as (onUser & onAssistant & sid & HU & HA & H).
  split.
  { destruct RF as [R _]. unfold readJsonlLines in R.
    destruct (statSync fs path) as [st|]; cbn [fs_call rbind] in R; [|discriminate].
    destruct (size st >? MAX_FILE_SIZE)%Z; [discriminate|].
    destruct (readFileSync fs path); cbn [fs_call rbind] in R; [|discriminate].
    injection R as _ <-. reflexivity. }
  apply session_info_some in H as (P & _ & _ & U & A & _ & _ & F).
  destruct (scan_lines_counts onUser onAssistant lines HU HA initial_locals) as [CU CA].
  rewrite U, A, CU, CA in *.
  cbn [initial_locals v_userMessageCount v_assistantMessageCount] in *.
  repeat split; try lia; exact F.
Qed.

Lemma scan_lines_app onUser onAssistant pre post l :
  scan_lines onUser onAssistant (pre ++ post) l
  = scan_lines onUser onAssistant post (scan_lines onUser onAssistant pre l).
Proof. unfold scan_lines. apply fold_left_app. Qed.


(** ** The metadata do not depend on the message hooks *)

Lemma metadata_only_ret {A} (a : A) : MetadataOnly (ret a).
Proof. intros l1 l2 H. split; [reflexivity|exact H]. Qed.

Lemma metadata_only_lift {A} (r : result A) : MetadataOnly (lift r).
Proof. intros l1 l2 H. split; [reflexivity|exact H]. Qed.

Lemma metadata_only_read {A} (f : Locals -> A) :
  (forall l1 l2, same_metadata l1 l2 -> f l1 = f l2) -> MetadataOnly (read f).
Proof. intros F l1 l2 H. split; [cbn; f_equal; apply F; exact H|exact H]. Qed.

Lemma metadata_only_assign (f : Locals -> Locals) :
  (forall l1 l2, same_metadata l1 l2 -> same_metadata (f l1) (f l2)) ->
  MetadataOnly (assign f).
Proof. intros F l1 l2 H. split; [reflexivity|apply F; exact H]. Qed.

Lemma metadata_only_bind {A B} (c : Stmt Locals A) (k : A -> Stmt Locals B) :
  MetadataOnly c -> (forall a, MetadataOnly (k a)) -> MetadataOnly (bind c k).
Proof.
  intros Hc Hk l1 l2 H. unfold bind.
  destruct (Hc l1 l2 H) as [E S].
  destruct (c l1) as [[a1|e1] s1], (c l2) as [[a2|e2] s2]; cbn in E, S; try discriminate.
  - injection E as <-. apply Hk. exact S.
  - injection E as ->. split; [reflexivity|exact S].
Qed.

Ltac metadata_fields :=
  let M := fresh in
  intros [? ? ? ? ? ? ? ? ? ?] [? ? ? ? ? ? ? ? ? ?] M;
  unfold same_metadata, metadata in *; cbn in *; injection M as ?; subst;
  try reflexivity; try congruence.

Ltac metadata_only_step :=
  match goal with
  | |- MetadataOnly (ret _) => apply metadata_only_ret
  | |- MetadataOnly (lift _) => apply metadata_only_lift
  | |- MetadataOnly (read _) => apply metadata_only_read; metadata_fields
  | |- MetadataOnly (assign _) => apply metadata_only_assign; metadata_fields
  | |- MetadataOnly (bind _ _) => apply metadata_only_bind; [|intro]
  | |- MetadataOnly (if ?b then _ else _) => destruct b
  | |- MetadataOnly (match ?x with _ => _ end) => destruct x
  end.

Lemma track_timestamps_metadata_only entry : MetadataOnly (track_timestamps entry).
Proof. unfold track_timestamps. repeat metadata_only_step. Qed.

Lemma user_metadata_metadata_only entry : MetadataOnly (user_metadata entry).
Proof. unfold user_metadata, capture_first, capture_preview. repeat metadata_only_step. Qed.

Lemma hook_same_metadata h entry l1 l2 :
  MessageHook h -> same_metadata l1 l2 -> same_metadata (snd (h entry l1)) l2.
Proof. intros H S. unfold same_metadata. rewrite (H entry l1). exact S. Qed.

Lemma scan_line_same_metadata onUser onAssistant onUser' onAssistant' line l1 l2 :
  MessageHook onUser -> MessageHook onAssistant ->
  MessageHook onUser' -> MessageHook onAssistant' ->
  same_metadata l1 l2 ->
  same_metadata (try_catch (scan_line onUser onAssistant line) l1)
                (try_catch (scan_line onUser' onAssistant' line) l2).
Proof.
  intros HU HA HU' HA' H.
  cbv beta iota zeta delta [try_catch scan_line JSON_parse_or_throw bind lift].
  destruct (JSON_parse line) as [entry|]; [|exact H].
  destruct (track_timestamps_metadata_only entry l1 l2 H) as [R S].
  destruct (track_timestamps entry l1) as [[[]|e1] s1],
           (track_timestamps entry l2) as [[[]|e2] s2];
    cbn [fst snd] in R, S; try discriminate; [|exact S].
  unfold dispatch.
  destruct (Js.Get entry "type") as [ty|e].
  2:{ rewrite !bind_lift_throw. exact S. }
  rewrite !bind_lift_ok.
  destruct (Js.is_string ty "user").
  - unfold bind.
    destruct (user_metadata_metadata_only entry s1 s2 S) as [R' S'].
    destruct (user_metadata entry s1) as [[[]|e1] t1],
             (user_metadata entry s2) as [[[]|e2] t2];
      cbn [fst snd] in R', S'; try discriminate; [|exact S'].
    apply hook_same_metadata; [exact HU|].
    symmetry. apply hook_same_metadata; [exact HU'|]. symmetry. exact S'.
  - destruct (Js.is_string ty "assistant"); [|exact S].
    rewrite !bind_assign.
    apply hook_same_metadata; [exact HA|].
    symmetry. apply hook_same_metadata; [exact HA'|].
    revert S. generalize s1 s2. metadata_fields.
Qed.

Lemma scan_lines_same_metadata onUser onAssistant onUser' onAssistant' lines :
  MessageHook onUser -> MessageHook onAssistant ->
  MessageHook onUser' -> MessageHook onAssistant' ->
  forall l1 l2,
    same_metadata l1 l2 ->
    same_metadata (scan_lines onUser onAssistant lines l1)
                  (scan_lines onUser' onAssistant' lines l2).
Proof.
  intros HU HA HU' HA'.
  induction lines as [|line lines IH]; intros l1 l2 H; [exact H|].
  rewrite !scan_lines_cons. apply IH. apply scan_line_same_metadata; assumption.
Qed.

Lemma session_info_same_metadata l1 l2 stat sid pp :
  same_metadata l1 l2 -> session_info l1 stat sid pp = session_info l2 stat sid pp.
Proof.
  revert l1 l2.
  intros [? ? ? ? ? ? ? ? ? ?] [? ? ? ? ? ? ? ? ? ?] M.
  unfold same_metadata, metadata in M. cbn in M. injection M as ?. subst. reflexivity.
Qed.

(** X4.  The two entry points agree on the metadata: when
    [parseClaudeSession] locates the session in the file [path] of a
    project directory with decoded name [pp], its outcome, reduced to the
    info record, is the outcome of the metadata pass [extractSessionInfo]
    on that file under the same session id, be it a record, nothing, or an
    exception. *)
Theorem parse_info_is_listing_info fs clock sid path pp :
  locate_session fs sid = Some (path, pp) ->
  info_outcome (parseClaudeSession fs clock sid) = extractSessionInfo fs path sid pp.
Proof.
  intros L.
  destruct (readJsonlLines fs path) as [[[lines stat]|]|e] eqn:R.
  - rewrite (parseClaudeSession_read fs clock sid path pp lines stat L R),
            (extractSessionInfo_read fs path sid pp lines stat R).
    rewrite (session_info_same_metadata
               (materialize clock lines)
               (scan_lines no_message no_message lines initial_locals) stat sid pp).
    + destruct (session_info _ stat sid pp) as [[i|]|e]; reflexivity.
    + apply scan_lines_same_metadata;
        try apply hook_push_parsed; try apply hook_no_message. reflexivity.
  - unfold parseClaudeSession, extractSessionInfo. rewrite L, R. reflexivity.
  - unfold parseClaudeSession, extractSessionInfo. rewrite L, R. reflexivity.
Qed.


(** ** Where a session is looked for *)

Lemma find_session_file_some fs sid ds path pp :
  find_session_file fs getClaudeProjectsDir sid ds = Some (path, pp) ->
  exists pre d post,
    ds = pre ++ d :: post
    /\ forallb (fun d' => negb (holds_session fs sid d')) pre = true
    /\ holds_session fs sid d = true
    /\ path = session_file_path d (sid ++ ".jsonl")
    /\ pp = decodeProjectPath (name d).
Proof.
  induction ds as [|d ds IH]; [discriminate|].
  cbn [find_session_file].
  destruct (isDirectory d) eqn:D; cbn [negb].
  - fold (session_file_path d (sid ++ ".jsonl")).
    destruct (existsSync fs (session_file_path d (sid ++ ".jsonl"))) eqn:E.
    + intros [= <- <-]. exists [], d, ds.
      unfold holds_session. rewrite D, E. repeat split.
    + intros H. destruct (IH H) as (pre & d' & post & -> & N & Y & P1 & P2).
      exists (d :: pre), d', post. cbn [app forallb].
      unfold holds_session at 1. rewrite D, E. repeat split; assumption.
  - intros H. destruct (IH H) as (pre & d' & post & -> & N & Y & P1 & P2).
    exists (d :: pre), d', post. cbn [app forallb].
    unfold holds_session at 1. rewrite D. repeat split; assumption.
Qed.

Lemma find_session_file_none fs sid ds :
  find_session_file fs getClaudeProjectsDir sid ds = None ->
  forallb (fun d => negb (holds_session fs sid d)) ds = true.
Proof.
  induction ds as [|d ds IH]; [reflexivity|].
  cbn [find_session_file forallb]. unfold holds_session at 1.
  destruct (isDirectory d); cbn [negb andb]; [|exact IH].
  fold (session_file_path d (sid ++ ".jsonl")).
  destruct (existsSync fs (session_file_path d (sid ++ ".jsonl"))); [discriminate|].
  exact IH.
Qed.

Lemma find_session_file_first fs sid pre d post :
  forallb (fun d' => negb (holds_session fs sid d')) pre = true ->
  holds_session fs sid d = true ->
  find_session_file fs getClaudeProjectsDir sid (pre ++ d :: post)
  = Some (session_file_path d (sid ++ ".jsonl"), decodeProjectPath (name d)).
Proof.
  intros N Y. induction pre as [|d' pre IH].
  - cbn [app find_session_file]. unfold holds_session in Y.
    apply andb_prop in Y as [D E]. rewrite D. cbn [negb].
    fold (session_file_path d (sid ++ ".jsonl")). rewrite E. reflexivity.
  - cbn [forallb] in N. apply andb_prop in N as [N1 N2].
    cbn [app find_session_file]. unfold holds_session in N1.
    destruct (isDirectory d'); cbn [negb andb] in *; [|apply IH; exact N2].
    fold (session_file_path d' (sid ++ ".jsonl")).
    apply negb_true_iff in N1. rewrite N1. apply IH. exact N2.
Qed.

(** X5.  [parseClaudeSession] reads the session from the first project
    directory, in the order in which the projects directory lists its
    entries, that holds a file named after the session id; entries that
    are not directories are passed over.  It locates nothing exactly when
    the projects directory is missing or cannot be listed, or no
    directory holds such a file. *)
Theorem locate_session_first_match fs sid :
  match locate_session fs sid with
  | Some (path, pp) =>
      existsSync fs getClaudeProjectsDir = true
      /\ exists pre d post,
           readdirSync fs getClaudeProjectsDir = Some (pre ++ d :: post)
           /\ forallb (fun d' => negb (holds_session fs sid d')) pre = true
           /\ holds_session fs sid d = true
           /\ path = session_file_path d (sid ++ ".jsonl")
           /\ pp = decodeProjectPath (name d)
  | None =>
      existsSync fs getClaudeProjectsDir = false
      \/ readdirSync fs getClaudeProjectsDir = None
      \/ exists ds,
           readdirSync fs getClaudeProjectsDir = Some ds
           /\ forallb (fun d => negb (holds_session fs sid d)) ds = true
  end.
Proof.
  unfold locate_session.
  destruct (existsSync fs getClaudeProjectsDir); cbn [negb]; [|left; reflexivity].
  destruct (readdirSync fs getClaudeProjectsDir) as [ds|]; [|right; left; reflexivity].
  destruct (find_session_file fs getClaudeProjectsDir sid ds) as [[path pp]|] eqn:F.
  - split; [reflexivity|].
    destruct (find_session_file_some fs sid ds path pp F)
      as (pre & d & post & -> & N & Y & P1 & P2).
    exists pre, d, post. repeat split; assumption.
  - right; right. exists ds. split; [reflexivity|].
    apply find_session_file_none. exact F.
Qed.

Lemma locate_session_inv fs sid path pp :
  locate_session fs sid = Some (path, pp) ->
  exists d,
    path = session_file_path d (sid ++ ".jsonl") /\ pp = decodeProjectPath (name d).
Proof.
  unfold locate_session.
  destruct (existsSync fs getClaudeProjectsDir); cbn [negb]; [|discriminate].
  destruct (readdirSync fs getClaudeProjectsDir) as [ds|]; [|discriminate].
  intros F. destruct (find_session_file_some fs sid ds path pp F)
    as (pre & d & post & _ & _ & _ & P1 & P2).
  exists d. split; assumption.
Qed.

(** ** First-wins capture of [cwd], [gitBranch] and [version] *)

Lemma capture_first_run get set members k l :
  snd (capture_first get set (JObject members) k l)
  = if Js.truthy (get l) then l
    else match event_field k (JObject members) with
         | Some v => set v l
         | None => l
         end.
Proof.
  unfold capture_first, event_field, bind, read, lift, assign, ret. cbn [Js.Get].
  destruct (Js.truthy (get l)); cbn [negb]; [reflexivity|].
  match goal with |- context [Js.truthy ?v] => destruct (Js.truthy v) end; reflexivity.
Qed.

Lemma user_metadata_fields members l :
  let l' := snd (user_metadata (JObject members) l) in
  let pick k old := if Js.truthy old then old
                    else match event_field k (JObject members) with
                         | Some v => v
                         | None => old
                         end in
  v_cwd l' = pick "cwd" (v_cwd l)
  /\ v_gitBranch l' = pick "gitBranch" (v_gitBranch l)
  /\ v_version l' = pick "version" (v_version l).
Proof.
  cbv zeta. unfold user_metadata. rewrite bind_assign.
  repeat (erewrite bind_ok; [|apply capture_first_ok]).
  rewrite !capture_first_run.
  repeat split.
  - rewrite (capture_preview_frame v_cwd) by reflexivity.
    cbn [v_cwd set_userMessageCount].
    repeat match goal with
           | |- context [if ?c then _ else _] => destruct c
           | |- context [match ?x with _ => _ end] => destruct x
           end; reflexivity.
  - rewrite (capture_preview_frame v_gitBranch) by reflexivity.
    repeat match goal with
           | |- context [if ?c then _ else _] => destruct c eqn:?
           | |- context [match ?x with _ => _ end] => destruct x eqn:?
           end; cbn in *; try reflexivity; congruence.
  - rewrite (capture_preview_frame v_version) by reflexivity.
    repeat match goal with
           | |- context [if ?c then _ else _] => destruct c eqn:?
           | |- context [match ?x with _ => _ end] => destruct x eqn:?
           end; cbn in *; try reflexivity; congruence.
Qed.


Lemma hook_fields h :
  MessageHook h ->
  forall e, Preserves (fun l => (v_cwd l, v_gitBranch l, v_version l)) (h e).
Proof.
  intros H e.
  exact (@preserves_part _ _ _ _ metadata
           (fun m => let '(c, g, v, _, _, _, _, _) := m in (c, g, v)) (h e) (H e)).
Qed.

Lemma scan_line_fields onUser onAssistant line l :
  MessageHook onUser -> MessageHook onAssistant ->
  let l' := try_catch (scan_line onUser onAssistant line) l in
  let pick k old := if Js.truthy old then old
                    else match line_field k line with
                         | Some v => v
                         | None => old
                         end in
  v_cwd l' = pick "cwd" (v_cwd l)
  /\ v_gitBranch l' = pick "gitBranch" (v_gitBranch l)
  /\ v_version l' = pick "version" (v_version l).
Proof.
  intros HU HA. cbv zeta.
  assert (Same : forall old : jsval, (if Js.truthy old then old else old) = old)
    by (intros; destruct (Js.truthy _); reflexivity).
  unfold line_field, is_user_line, event_type.
  cbv beta iota zeta delta [try_catch scan_line JSON_parse_or_throw bind lift].
  destruct (JSON_parse line) as [entry|].
  2:{ cbn [Js.is_string snd]. rewrite !Same; auto. }
  rewrite track_timestamps_run.
  destruct (Js.Get entry "timestamp") as [ts|e] eqn:Hts.
  2:{ destruct (Js.Get entry "type") as [ty|e'] eqn:Hty.
      - destruct entry; cbn in Hts, Hty; discriminate.
      - cbn [Js.is_string snd]. rewrite !Same; auto. }
  destruct (Js.Get entry "type") as [ty|e] eqn:Hty.
  2:{ rewrite (Get_throws_always _ _ "timestamp" _ Hty) in Hts. discriminate. }
  match goal with
  | |- context [dispatch _ _ _ ?s] =>
      assert (E : (v_cwd s, v_gitBranch s, v_version s)
                  = (v_cwd l, v_gitBranch l, v_version l))
        by (destruct (Js.truthy ts); [destruct (Js.truthy (v_createdAt l))|]; reflexivity);
      generalize dependent s
  end.
  intros l1 E. injection E as <- <- <-. cbn [fst snd]. clear Hts ts l.
  unfold dispatch. rewrite Hty, bind_lift_ok.
  destruct (Js.is_string ty "user") eqn:EU.
  - destruct (Get_is_string _ _ _ _ Hty EU) as (members & -> & Hm).
    pose proof (bind_preserved (fun l => (v_cwd l, v_gitBranch l, v_version l))
                  (user_metadata (JObject members)) (fun _ => onUser (JObject members))
                  l1 (fun _ => hook_fields _ HU _)) as P.
    injection P as -> -> ->.
    apply user_metadata_fields.
  - destruct (Js.is_string ty "assistant").
    + rewrite bind_assign.
      pose proof (hook_fields _ HA entry
                    (set_assistantMessageCount (S (v_assistantMessageCount l1)) l1)) as P.
      injection P as -> -> ->. cbn [v_cwd v_gitBranch v_version set_assistantMessageCount].
      rewrite !Same; auto.
    + cbn [snd ret]. rewrite !Same; auto.
Qed.

Lemma line_field_truthy k line v :
  line_field k line = Some v -> Js.truthy v = true.
Proof.
  unfold line_field, event_field.
  destruct (is_user_line line); [|discriminate].
  destruct (JSON_parse line) as [entry|]; [|discriminate].
  destruct (Js.Get entry k) as [x|]; [|discriminate].
  destruct (Js.truthy x) eqn:T; [|discriminate].
  intros [= <-]. exact T.
Qed.

Lemma first_field_truthy k lines v :
  first_field k lines = Some v -> Js.truthy v = true.
Proof.
  induction lines as [|line lines IH]; [discriminate|].
  cbn [first_field]. destruct (line_field k line) as [x|] eqn:F; [|exact IH].
  intros [= <-]. exact (line_field_truthy _ _ _ F).
Qed.

Lemma pick_first (old : jsval) (here rest : option jsval) :
  (forall v, here = Some v -> Js.truthy v = true) ->
  (let mid := if Js.truthy old then old
              else match here with Some v => v | None => old end in
   if Js.truthy mid then mid else match rest with Some v => v | None => mid end)
  = if Js.truthy old then old
    else match (match here with Some v => Some v | None => rest end) with
         | Some v => v
         | None => old
         end.
Proof.
  intros H. cbv zeta.
  destruct (Js.truthy old) eqn:T; [rewrite T; reflexivity|].
  destruct here as [v|]; [rewrite (H v eq_refl); reflexivity|].
  rewrite T. reflexivity.
Qed.

Lemma scan_lines_fields onUser onAssistant lines :
  MessageHook onUser -> MessageHook onAssistant ->
  forall l,
    let l' := scan_lines onUser onAssistant lines l in
    let pick k old := if Js.truthy old then old
                      else match first_field k lines with
                           | Some v => v
                           | None => old
                           end in
    v_cwd l' = pick "cwd" (v_cwd l)
    /\ v_gitBranch l' = pick "gitBranch" (v_gitBranch l)
    /\ v_version l' = pick "version" (v_version l).
Proof.
  intros HU HA. cbv zeta.
  induction lines as [|line lines IH]; intros l.
  - cbn [scan_lines fold_left first_field].
    repeat split; destruct (Js.truthy _); reflexivity.
  - rewrite scan_lines_cons.
    destruct (IH (try_catch (scan_line onUser onAssistant line) l)) as (-> & -> & ->).
    destruct (scan_line_fields onUser onAssistant line l HU HA) as (-> & -> & ->).
    cbn [first_field].
    repeat split; apply pick_first; intros v; apply line_field_truthy.
Qed.

Lemma info_fields onUser onAssistant lines stat sid pp i :
  MessageHook onUser -> MessageHook onAssistant ->
  session_info (scan_lines onUser onAssistant lines initial_locals) stat sid pp
  = Ok (Some i) ->
  JString (cwd i) = match first_field "cwd" lines with
                    | Some v => v
                    | None => JString pp
                    end
  /\ projectPath i = cwd i
  /\ projectName i = posix_basename (cwd i)
  /\ gitBranch i = match first_field "gitBranch" lines with
                   | Some v => v
                   | None => JString EmptyString
                   end
  /\ version i = match first_field "version" lines with
                 | Some v => v
                 | None => JString EmptyString
                 end.
Proof.
  intros HU HA S.
  destruct (scan_lines_fields onUser onAssistant lines HU HA initial_locals) as (C & G & V).
  cbn [initial_locals v_cwd v_gitBranch v_version Js.truthy JsString.nonEmpty] in C, G, V.
  apply session_info_paths in S as (PC & PP & PN & PG & PV).
  rewrite C in PC. rewrite G in PG. rewrite V in PV. unfold Js.or in PC, PG, PV.
  pose proof (first_field_truthy "cwd" lines) as TC.
  pose proof (first_field_truthy "gitBranch" lines) as TG.
  pose proof (first_field_truthy "version" lines) as TV.
  split; [|split; [exact PP|split; [exact PN|split]]].
  - destruct (first_field "cwd" lines) as [c|]; [rewrite (TC c eq_refl) in PC|]; exact PC.
  - destruct (first_field "gitBranch" lines) as [g|]; [rewrite (TG g eq_refl) in PG|];
      exact PG.
  - destruct (first_field "version" lines) as [v|]; [rewrite (TV v eq_refl) in PV|];
      exact PV.
Qed.

(** X6.  Every info record that [listClaudeSessions] or
    [parseClaudeSession] produces was read from a session file of a
    project directory, and for the file it was read from: the working
    directory is the [cwd] of the first user event of that file that
    carries one, and the decoded name of that project directory only when
    no user event of the file does; [projectPath] is that same path and
    [projectName] its last component. *)
Theorem cwd_first_wins fs i :
  (produced fs i -> exists path pp lines stat, read_from fs i path pp lines stat)
  /\ (forall path pp lines stat,
         read_from fs i path pp lines stat ->
         (exists projectDir jsonlFile,
             path = session_file_path projectDir jsonlFile
             /\ pp = decodeProjectPath (name projectDir))
         /\ JString (cwd i) = match first_field "cwd" lines with
                              | Some v => v
                              | None => JString pp
                              end
         /\ projectPath i = cwd i
         /\ projectName i = posix_basename (cwd i)).
Proof.
  split; [apply produced_read_from|].
  intros path pp lines stat RF.
  destruct (read_from_pass _ _ _ _ _ _ RF) as (onUser & onAssistant & sid & HU & HA & H).
  split.
  { destruct RF as [_ [(d & f & _ & -> & ->)|(clock & sid' & ps & _ & _ & L)]].
    - exists d, f. split; reflexivity.
    - destruct (locate_session_inv fs sid' path pp L) as (d & -> & ->).
      exists d, (sid' ++ ".jsonl")%string. split; reflexivity. }
  destruct (info_fields _ _ _ _ _ _ _ HU HA H) as (C & P & N & _). auto.
Qed.

(** X7.  Every info record that [listClaudeSessions] or
    [parseClaudeSession] produces was read from a session file, and for
    the file it was read from: [gitBranch] and [version] are those of the
    first user event of that file that carries a truthy one, and the
    empty string when no user event of the file does; events of other
    types are not consulted. *)
Theorem branch_and_version_first_wins fs i :
  (produced fs i -> exists path pp lines stat, read_from fs i path pp lines stat)
  /\ (forall path pp lines stat,
         read_from fs i path pp lines stat ->
         gitBranch i = match first_field "gitBranch" lines with
                       | Some v => v
                       | None => JString EmptyString
                       end
         /\ version i = match first_field "version" lines with
                        | Some v => v
                        | None => JString EmptyString
                        end).
Proof.
  split; [apply produced_read_from|].
  intros path pp lines stat RF.
  destruct (read_from_pass _ _ _ _ _ _ RF) as (onUser & onAssistant & sid & HU & HA & H).
  destruct (info_fields _ _ _ _ _ _ _ HU HA H) as (_ & _ & _ & G & V). auto.
Qed.


(** X8.  A listed session can be opened under its id.  For a session
    that the listing took from the file [stem.jsonl] of a project
    directory, where [stem] holds no dot, the id is [stem] and
    [parseClaudeSession] on it gives the very info record of the listing,
    provided the file system reports the file as existing and no project
    directory listed before this one holds a file of the same name. *)
Theorem listed_session_is_found fs clock d stem i pre post :
  existsSync fs getClaudeProjectsDir = true ->
  readdirSync fs getClaudeProjectsDir = Some (pre ++ d :: post) ->
  forallb (fun d' => negb (holds_session fs stem d')) pre = true ->
  holds_session fs stem d = true ->
  (forall c, In c (list_ascii_of_string stem) -> c <> "."%char) ->
  listed_from fs d (stem ++ ".jsonl") i ->
  sessionId i = stem
  /\ info_outcome (parseClaudeSession fs clock stem) = Ok (Some i).
Proof.
  intros E R N Y Dot (_ & _ & _ & _ & X).
  rewrite (sessionId_of_dotless_name stem Dot) in X.
  assert (L : locate_session fs stem
              = Some (session_file_path d (stem ++ ".jsonl"), decodeProjectPath (name d))).
  { unfold locate_session. rewrite E, R. cbn [negb].
    apply find_session_file_first; assumption. }
  pose proof X as X0.
  apply extractSessionInfo_inv in X as (lines & stat & Rd & S).
  split; [apply session_info_some in S as (_ & Sid & _); exact Sid|].
  rewrite (parseClaudeSession_read fs clock stem _ _ lines stat L Rd).
  rewrite (session_info_same_metadata
             (materialize clock lines)
             (scan_lines no_message no_message lines initial_locals) stat stem
             (decodeProjectPath (name d))).
  - rewrite S. reflexivity.
  - apply scan_lines_same_metadata;
      try apply hook_push_parsed; try apply hook_no_message. reflexivity.
Qed.

(** ** The listing leaves no session out *)

Lemma list_file_keeps fs projectPath decodedPath sessions jsonlFile i :
  In i sessions -> In i (list_file fs projectPath decodedPath sessions jsonlFile).
Proof.
  intros H. unfold list_file.
  destruct (extractSessionInfo _ _ _ _) as [[info|]|e]; try exact H.
  apply in_or_app. left. exact H.
Qed.

Lemma list_files_keep fs projectPath decodedPath jsonlFiles :
  forall sessions i,
    In i sessions ->
    In i (fold_left (list_file fs projectPath decodedPath) jsonlFiles sessions).
Proof.
  induction jsonlFiles as [|f files IH]; intros sessions i H; [exact H|].
  cbn [fold_left]. apply IH. apply list_file_keeps. exact H.
Qed.

Lemma list_files_complete fs projectPath decodedPath jsonlFiles jsonlFile i :
  In jsonlFile jsonlFiles ->
  extractSessionInfo fs (path_join projectPath jsonlFile)
                     (sessionId_of_file jsonlFile) decodedPath = Ok (Some i) ->
  forall sessions,
    In i (fold_left (list_file fs projectPath decodedPath) jsonlFiles sessions).
Proof.
  intros Hf E.
  induction jsonlFiles as [|f files IH]; intros sessions; [destruct Hf|].
  cbn [fold_left]. destruct Hf as [->|Hf]; [|apply IH; exact Hf].
  apply list_files_keep. unfold list_file. rewrite E.
  apply in_or_app. right. left. reflexivity.
Qed.

Lemma list_project_keeps fs sessions projectDir i :
  In i sessions -> In i (list_project fs getClaudeProjectsDir sessions projectDir).
Proof.
  intros H. unfold list_project.
  destruct (isDirectory projectDir); cbn [negb]; [|exact H].
  destruct (readdirSync fs _) as [entries|]; [|exact H].
  apply list_files_keep. exact H.
Qed.

Lemma list_projects_keep fs projectDirs :
  forall sessions i,
    In i sessions ->
    In i (fold_left (list_project fs getClaudeProjectsDir) projectDirs sessions).
Proof.
  induction projectDirs as [|d ds IH]; intros sessions i H; [exact H|].
  cbn [fold_left]. apply IH. apply list_project_keeps. exact H.
Qed.

Lemma collect_sessions_complete fs d file i :
  listed_from fs d file i -> In i (collect_sessions fs).
Proof.
  intros ((projectDirs & R & Hd) & D & (entries & Re & Hf) & J & E).
  unfold collect_sessions. rewrite R. clear R.
  generalize (@nil ClaudeSessionInfo).
  induction projectDirs as [|d' ds IH]; intros sessions; [destruct Hd|].
  cbn [fold_left]. destruct Hd as [->|Hd]; [|apply IH; exact Hd].
  apply list_projects_keep. unfold list_project. rewrite D, Re. cbn [negb].
  apply (list_files_complete fs _ _ _ file i); [|exact E].
  apply filter_In. split; assumption.
Qed.

(** X9.  The listing leaves no session out and invents none: when
    [listClaudeSessions] returns with the projects directory present, an
    info record is in the list exactly when it is the outcome of the
    metadata pass on a file with the extension [.jsonl] that a project
    directory lists. *)
Theorem listing_is_complete fs l i :
  listClaudeSessions fs = Ok l ->
  existsSync fs getClaudeProjectsDir = true ->
  (In i l <-> exists projectDir jsonlFile, listed_from fs projectDir jsonlFile i).
Proof.
  intros H E. split.
  - apply listClaudeSessions_in. exact H.
  - intros (d & f & LF).
    unfold listClaudeSessions in H. rewrite E in H. cbn [negb] in H.
    apply Permutation_in with (l := collect_sessions fs).
    + apply Array_sort_perm with (cmp := by_updatedAt_desc). exact H.
    + apply (collect_sessions_complete fs d f i LF).
Qed.

(** ** The sort of the listing *)

Lemma by_updatedAt_desc_dated a b ta tb :
  updated_time a = Some ta -> updated_time b = Some tb ->
  by_updatedAt_desc a b = Ok (Some (tb - ta)%Z).
Proof.
  unfold updated_time, by_updatedAt_desc. intros Ha Hb.
  destruct (Date_getTime (updatedAt a)) as [[x|]|]; try discriminate.
  destruct (Date_getTime (updatedAt b)) as [[y|]|]; try discriminate.
  injection Ha as ->. injection Hb as ->. reflexivity.
Qed.

Lemma not_older_dated a b ta tb :
  updated_time a = Some ta -> updated_time b = Some tb ->
  (not_older a b <-> (tb <= ta)%Z).
Proof.
  unfold updated_time, not_older, date_leb. intros Ha Hb.
  destruct (Date_getTime (updatedAt a)) as [[x|]|]; try discriminate.
  destruct (Date_getTime (updatedAt b)) as [[y|]|]; try discriminate.
  injection Ha as ->. injection Hb as ->. apply Z.leb_le.
Qed.

Lemma dated_time i : dated i = true -> exists t, updated_time i = Some t.
Proof. unfold dated. destruct (updated_time i) as [t|]; [eauto|discriminate]. Qed.

Lemma sort_insert_sorted x :
  dated x = true ->
  forall sorted out,
    Forall (fun i => dated i = true) sorted ->
    StronglySorted not_older sorted ->
    sort_insert by_updatedAt_desc x sorted = Ok out ->
    StronglySorted not_older out.
Proof.
  intros Dx. destruct (dated_time x Dx) as [tx Tx].
  induction sorted as [|y rest IH]; intros out D S H; cbn [sort_insert] in H.
  - injection H as <-. constructor; constructor.
  - inversion D as [|? ? Dy Drest]; subst.
    inversion S as [|? ? Srest Sy]; subst.
    destruct (dated_time y Dy) as [ty Ty].
    rewrite (by_updatedAt_desc_dated x y tx ty Tx Ty) in H. cbn [rbind] in H.
    destruct (0 <? ty - tx)%Z eqn:C.
    + destruct (sort_insert by_updatedAt_desc x rest) as [rest'|] eqn:E; [|discriminate].
      cbn [rbind] in H. injection H as <-.
      constructor; [apply (IH rest' Drest Srest eq_refl)|].
      apply (Permutation_Forall (sort_insert_perm by_updatedAt_desc x rest rest' E)).
      constructor; [|exact Sy].
      apply (not_older_dated y x ty tx Ty Tx). apply Z.ltb_lt in C. lia.
    + injection H as <-. apply Z.ltb_ge in C.
      constructor; [exact S|].
      constructor; [apply (not_older_dated x y tx ty Tx Ty); lia|].
      rewrite Forall_forall in *. intros z Hz.
      destruct (dated_time z (Drest z Hz)) as [tz Tz].
      apply (not_older_dated x z tx tz Tx Tz).
      pose proof (proj1 (not_older_dated y z ty tz Ty Tz) (Sy z Hz)). lia.
Qed.

Lemma Array_sort_sorted :
  forall arr out,
    Forall (fun i => dated i = true) arr ->
    Array_sort by_updatedAt_desc arr = Ok out ->
    StronglySorted not_older out.
Proof.
  induction arr as [|x rest IH]; intros out D H; cbn [Array_sort] in H.
  - injection H as <-. constructor.
  - inversion D as [|? ? Dx Drest]; subst.
    destruct (Array_sort by_updatedAt_desc rest) as [sorted|] eqn:E; [|discriminate].
    cbn [rbind] in H.
    apply (sort_insert_sorted x Dx sorted out); [|apply IH; [exact Drest|reflexivity]|exact H].
    apply (Permutation_Forall (Array_sort_perm by_updatedAt_desc rest sorted E)).
    exact Drest.
Qed.

(** X10.  The listing comes most recent first: when [listClaudeSessions]
    returns and every session it lists has an [updatedAt] that reads as a
    date, each session was updated no earlier than all those after it.
    The list holds the sessions gathered from the project directories,
    each as often as it was gathered. *)
Theorem listing_most_recent_first fs l :
  listClaudeSessions fs = Ok l ->
  Forall (fun i => dated i = true) l ->
  StronglySorted not_older l
  /\ (existsSync fs getClaudeProjectsDir = true -> Permutation (collect_sessions fs) l).
Proof.
  unfold listClaudeSessions.
  destruct (existsSync fs getClaudeProjectsDir); cbn [negb].
  - intros H D.
    pose proof (Array_sort_perm by_updatedAt_desc (collect_sessions fs) l H) as P.
    split; [|intros _; exact P].
    apply (Array_sort_sorted (collect_sessions fs) l); [|exact H].
    apply (Permutation_Forall (Permutation_sym P)). exact D.
  - intros [= <-] _. split; [constructor|discriminate].
Qed.

Lemma sort_insert_stable t x :
  forall sorted out,
    sort_insert by_updatedAt_desc x sorted = Ok out ->
    List.filter (updated_at t) out = List.filter (updated_at t) (x :: sorted).
Proof.
  induction sorted as [|y rest IH]; intros out H; cbn [sort_insert] in H.
  - injection H as <-. reflexivity.
  - destruct (by_updatedAt_desc x y) as [[d|]|] eqn:C; cbn [rbind] in H;
      try discriminate; [|injection H as <-; reflexivity].
    destruct (0 <? d)%Z eqn:P; [|injection H as <-; reflexivity].
    destruct (sort_insert by_updatedAt_desc x rest) as [rest'|] eqn:E; [|discriminate].
    cbn [rbind] in H. injection H as <-.
    cbn [List.filter]. rewrite (IH rest' eq_refl). cbn [List.filter].
    destruct (updated_at t y) eqn:Py; [|reflexivity].
    assert (updated_at t x = false) as ->; [|reflexivity].
    unfold by_updatedAt_desc in C. unfold updated_at, updated_time in *.
    destruct (Date_getTime (updatedAt y)) as [[ty|]|]; try discriminate.
    destruct (Date_getTime (updatedAt x)) as [[tx|]|]; try reflexivity.
    cbn [rbind] in C. injection C as <-.
    apply Z.eqb_eq in Py. apply Z.ltb_lt in P. apply Z.eqb_neq. lia.
Qed.

Lemma Array_sort_stable t :
  forall arr out,
    Array_sort by_updatedAt_desc arr = Ok out ->
    List.filter (updated_at t) out = List.filter (updated_at t) arr.
Proof.
  induction arr as [|x rest IH]; intros out H; cbn [Array_sort] in H.
  - injection H as <-. reflexivity.
  - destruct (Array_sort by_updatedAt_desc rest) as [sorted|] eqn:E; [|discriminate].
    cbn [rbind] in H. rewrite (sort_insert_stable t x sorted out H).
    cbn [List.filter]. rewrite (IH sorted eq_refl). reflexivity.
Qed.

Lemma updated_at_time t i : updated_at t i = true <-> updated_time i = Some t.
Proof.
  unfold updated_at. destruct (updated_time i) as [t'|]; [|split; discriminate].
  rewrite Z.eqb_eq. split; congruence.
Qed.

Lemma filter_head_in {A} (p : A -> bool) (l l' : list A) x :
  p x = true -> List.filter p (x :: l) = List.filter p l' -> In x l'.
Proof.
  intros Px E. cbn [List.filter] in E. rewrite Px in E.
  apply (proj1 (filter_In p x l')). rewrite <- E. left. reflexivity.
Qed.

Lemma sorted_stable_unique :
  forall l l',
    Forall (fun i => dated i = true) l ->
    Forall (fun i => dated i = true) l' ->
    StronglySorted not_older l ->
    StronglySorted not_older l' ->
    (forall t, List.filter (updated_at t) l = List.filter (updated_at t) l') ->
    l = l'.
Proof.
  induction l as [|x xs IH]; intros l' D D' S S' F.
  - destruct l' as [|y ys]; [reflexivity|].
    inversion D' as [|? ? Dy _]; subst.
    destruct (dated_time y Dy) as [ty Ty].
    specialize (F ty). cbn [List.filter] in F.
    rewrite (proj2 (updated_at_time ty y) Ty) in F. discriminate.
  - destruct l' as [|y ys].
    { inversion D as [|? ? Dx _]; subst.
      destruct (dated_time x Dx) as [tx Tx].
      specialize (F tx). cbn [List.filter] in F.
      rewrite (proj2 (updated_at_time tx x) Tx) in F. discriminate. }
    inversion D as [|? ? Dx Dxs]; subst.
    inversion D' as [|? ? Dy Dys]; subst.
    inversion S as [|? ? Sxs Sx]; subst.
    inversion S' as [|? ? Sys Sy]; subst.
    destruct (dated_time x Dx) as [tx Tx].
    destruct (dated_time y Dy) as [ty Ty].
    pose proof (proj2 (updated_at_time tx x) Tx) as Ux.
    pose proof (proj2 (updated_at_time ty y) Ty) as Uy.
    assert (Lxy : (tx <= ty)%Z).
    { pose proof (filter_head_in _ xs (y :: ys) x Ux (F tx)) as [<-|I].
      - rewrite Tx in Ty. injection Ty as <-. lia.
      - rewrite Forall_forall in Sy.
        apply (not_older_dated y x ty tx Ty Tx). apply Sy. exact I. }
    assert (Lyx : (ty <= tx)%Z).
    { pose proof (filter_head_in _ ys (x :: xs) y Uy (eq_sym (F ty))) as [<-|I].
      - rewrite Tx in Ty. injection Ty as <-. lia.
      - rewrite Forall_forall in Sx.
        apply (not_older_dated x y tx ty Tx Ty). apply Sx. exact I. }
    assert (ty = tx) by lia. subst ty.
    pose proof (F tx) as Fx. cbn [List.filter] in Fx. rewrite Ux, Uy in Fx.
    injection Fx as -> Fx. f_equal.
    apply IH; try assumption.
    intros t. specialize (F t). cbn [List.filter] in F.
    destruct (updated_at t y); [injection F as F|]; exact F.
Qed.

(** X11.  The sort of the listing is stable, and that settles the
    order: when [listClaudeSessions] returns and every session it lists
    has an [updatedAt] that reads as a date, the sessions updated at one
    and the same time come in the order in which they were gathered,
    that of the directory listings; and the list returned is the only
    arrangement of the sessions gathered that is most recent first and
    keeps the sessions of each time in the order gathered, so that every
    stable sort gives it. *)
Theorem listing_keeps_order_of_ties fs l :
  listClaudeSessions fs = Ok l ->
  Forall (fun i => dated i = true) l ->
  existsSync fs getClaudeProjectsDir = true ->
  (forall t,
      List.filter (updated_at t) l = List.filter (updated_at t) (collect_sessions fs))
  /\ (forall l',
         Permutation (collect_sessions fs) l' ->
         StronglySorted not_older l' ->
         (forall t, List.filter (updated_at t) l'
                    = List.filter (updated_at t) (collect_sessions fs)) ->
         l' = l).
Proof.
  unfold listClaudeSessions. intros H D E. rewrite E in H. cbn [negb] in H.
  pose proof (Array_sort_perm by_updatedAt_desc (collect_sessions fs) l H) as P.
  assert (St : forall t, List.filter (updated_at t) l
                         = List.filter (updated_at t) (collect_sessions fs))
    by (intros t; apply Array_sort_stable; exact H).
  split; [exact St|].
  intros l' P' S' St'.
  apply sorted_stable_unique.
  - apply (Permutation_Forall P'), (Permutation_Forall (Permutation_sym P)). exact D.
  - exact D.
  - exact S'.
  - apply (Array_sort_sorted (collect_sessions fs) l); [|exact H].
    apply (Permutation_Forall (Permutation_sym P)). exact D.
  - intros t. rewrite St, St'. reflexivity.
Qed.

Lemma sort_insert_returns {A} (cmp : A -> A -> result (option Z)) x :
  forall sorted,
    (forall y, In y sorted -> exists c, cmp x y = Ok c) ->
    exists out, sort_insert cmp x sorted = Ok out.
Proof.
  induction sorted as [|y rest IH]; intros H; cbn [sort_insert]; [eauto|].
  destruct (H y (or_introl eq_refl)) as [c ->]. cbn [rbind].
  destruct c as [d|]; [|eauto].
  destruct (0 <? d)%Z; [|eauto].
  destruct IH as [rest' ->]; [intros z Hz; apply H; right; exact Hz|].
  cbn [rbind]. eauto.
Qed.

Lemma Array_sort_returns {A} (cmp : A -> A -> result (option Z)) :
  forall arr,
    (forall x y, In x arr -> In y arr -> exists c, cmp x y = Ok c) ->
    exists out, Array_sort cmp arr = Ok out.
Proof.
  induction arr as [|x rest IH]; intros H; cbn [Array_sort]; [eauto|].
  destruct IH as [sorted E].
  { intros a b Ha Hb. apply H; right; assumption. }
  rewrite E. cbn [rbind].
  apply sort_insert_returns. intros y Hy. apply H; [left; reflexivity|].
  right. apply Permutation_in with (l := sorted); [|exact Hy].
  apply Permutation_sym. apply Array_sort_perm with (cmp := cmp). exact E.
Qed.

(** X12.  [listClaudeSessions] returns a list, and [GET] of the listing
    route answers with it, whenever the [updatedAt] of every session
    gathered can be turned into a date without an exception; no state of
    the file system alone makes the listing throw. *)
Theorem listing_returns_on_readable_dates fs :
  Forall (fun i => date_readable (updatedAt i) = true) (collect_sessions fs) ->
  exists l, listClaudeSessions fs = Ok l /\ GET fs = Listed l.
Proof.
  intros H.
  enough (G : exists l, listClaudeSessions fs = Ok l).
  { destruct G as [l G]. exists l. split; [exact G|]. unfold GET. rewrite G. reflexivity. }
  unfold listClaudeSessions.
  destruct (existsSync fs getClaudeProjectsDir); cbn [negb]; [|eauto].
  apply Array_sort_returns. intros a b Ha Hb.
  rewrite Forall_forall in H.
  pose proof (H a Ha) as Ra. pose proof (H b Hb) as Rb.
  unfold date_readable in Ra, Rb. unfold by_updatedAt_desc.
  destruct (Date_getTime (updatedAt b)) as [tb|]; [|discriminate].
  destruct (Date_getTime (updatedAt a)) as [ta|]; [|discriminate].
  cbn [rbind]. eauto.
Qed.


(** ** The only exception of the listing *)

Lemma ToString_throws v : forall e, ToString v = Throw e -> e = TypeError.
Proof.
  revert v. fix IH 1. intros v e.
  destruct v as [| |b|m x|s|elems|members]; cbn [ToString]; try discriminate.
  - match goal with
    | |- rbind (?each elems) _ = _ -> _ =>
        assert (E : forall e', each elems = Throw e' -> e' = TypeError)
    end.
    { induction elems as [|x rest IHrest]; intros e'; [discriminate|].
      pose proof (IH x) as Hx.
      destruct x as [| |b|m x|s|a|members].
      1,2: cbn [rbind];
           match goal with
           | |- rbind ?r _ = _ -> _ => destruct r as [ss|e''] eqn:R
           end; cbn [rbind]; [discriminate|];
           intros [= <-]; apply IHrest; reflexivity.
      all: match goal with
           | |- rbind (ToString ?v) _ = _ -> _ =>
               destruct (ToString v) as [s'|e''];
               cbn [rbind]; [|intros [= <-]; apply Hx; reflexivity]
           end;
           match goal with
           | |- rbind ?r _ = _ -> _ => destruct r as [ss|e''] eqn:R
           end; cbn [rbind]; [discriminate|];
           intros [= <-]; apply IHrest; reflexivity. }
    match goal with
    | |- rbind ?r _ = _ -> _ => destruct r as [parts|e'] eqn:R
    end; cbn [rbind]; [discriminate|].
    intros [= <-]. apply E. reflexivity.
  - destruct (Js.has_key "toString" members); [|discriminate].
    intros [= <-]. reflexivity.
Qed.


Lemma Date_getTime_throws v e :
  Date_getTime v = Throw e ->
  e = TypeError /\ is_array_or_object v = true /\ ToString v = Throw TypeError.
Proof.
  destruct v as [| |b|m x|s|elems|members]; cbn [Date_getTime]; try discriminate.
  - destruct (ToString (JArray elems)) as [s|e'] eqn:T; cbn [rbind]; [discriminate|].
    intros [= <-]. rewrite (ToString_throws _ _ T). repeat split.
  - destruct (ToString (JObject members)) as [s|e'] eqn:T; cbn [rbind]; [discriminate|].
    intros [= <-]. rewrite (ToString_throws _ _ T). repeat split.
Qed.

Lemma by_updatedAt_desc_throws a b e :
  by_updatedAt_desc a b = Throw e ->
  Date_getTime (updatedAt a) = Throw e \/ Date_getTime (updatedAt b) = Throw e.
Proof.
  unfold by_updatedAt_desc.
  destruct (Date_getTime (updatedAt b)) as [tb|eb]; cbn [rbind].
  - destruct (Date_getTime (updatedAt a)) as [ta|ea]; cbn [rbind]; [discriminate|].
    intros [= <-]. left. reflexivity.
  - intros [= <-]. right. reflexivity.
Qed.

(** X13.  The one exception of [listClaudeSessions] is a [TypeError] of
    its final sort, which [GET] of the listing route answers with status
    500, and it takes a session file whose last timestamp in file order
    is an array or an object that cannot be converted to a string: the
    sort reads every [updatedAt] as a date. *)
Theorem listing_throws_only_on_unreadable_date fs e :
  listClaudeSessions fs = Throw e ->
  e = TypeError
  /\ GET fs = Failed TypeError
  /\ exists d file i lines stat first rest,
       listed_from fs d file i
       /\ readJsonlLines fs (session_file_path d file) = Ok (Some (lines, stat))
       /\ in_band_timestamps lines = first :: rest
       /\ updatedAt i = last rest first
       /\ is_array_or_object (updatedAt i) = true
       /\ ToString (updatedAt i) = Throw TypeError.
Proof.
  intros H. pose proof H as H0.
  apply listClaudeSessions_throws_only_in_sort in H as (a & b & Ha & Hb & C).
  assert (G : exists i, In i (collect_sessions fs) /\ Date_getTime (updatedAt i) = Throw e).
  { apply by_updatedAt_desc_throws in C as [C|C]; eauto. }
  destruct G as (i & Hi & T).
  apply Date_getTime_throws in T as (-> & A & T).
  split; [reflexivity|].
  split; [unfold GET; rewrite H0; reflexivity|].
  destruct (collect_sessions_in fs i Hi) as (d & f & LF).
  pose proof LF as (_ & _ & _ & _ & E).
  apply extractSessionInfo_inv in E as (lines & stat & R & S).
  pose proof (info_stamps _ _ _ _ _ _ _ hook_no_message hook_no_message S) as St.
  destruct (in_band_timestamps lines) as [|first rest] eqn:B.
  - destruct St as [_ U]. rewrite U in A. discriminate.
  - destruct St as [_ U].
    exists d, f, i, lines, stat, first, rest.
    split; [exact LF|]. split; [exact R|]. split; [exact B|].
    split; [exact U|]. split; [exact A|exact T].
Qed.


(** ** The exceptions of [parseClaudeSession] *)

Lemma first_field_user_line k lines v :
  first_field k lines = Some v -> List.filter is_user_line lines <> [].
Proof.
  induction lines as [|line lines IH]; [discriminate|].
  cbn [first_field List.filter]. unfold line_field.
  destruct (is_user_line line); [discriminate|exact IH].
Qed.

Lemma qualifying_count lines :
  length (List.filter qualifying lines)
  = length (List.filter is_user_line lines) + length (List.filter is_assistant_line lines).
Proof.
  induction lines as [|line lines IH]; [reflexivity|].
  cbn [List.filter]. unfold qualifying at 1.
  unfold is_user_line, is_assistant_line in *.
  destruct (event_type line) as [| | | |t| |]; cbn [Js.is_string orb length]; try lia.
  destruct (String.eqb t "user") eqn:E1, (String.eqb t "assistant") eqn:E2;
    cbn [orb length]; try lia.
  apply String.eqb_eq in E1, E2. congruence.
Qed.

Lemma or_toISOString_throws x t e :
  or_toISOString x t = Throw e <->
  e = RangeError /\ Js.truthy x = false /\ invalid_time t = true.
Proof.
  unfold or_toISOString, stat_time_toISOString, invalid_time.
  destruct (Js.truthy x).
  - split; [discriminate|]. intros (_ & [=] & _).
  - destruct (Z.abs t <=? 8640000000000000)%Z eqn:E; cbn [rbind].
    + split; [discriminate|]. intros (_ & _ & I).
      apply Z.leb_le in E. apply Z.ltb_lt in I. lia.
    + split; [|intros (-> & _); reflexivity].
      intros [= <-]. repeat split. apply Z.leb_gt in E. apply Z.ltb_lt. exact E.
Qed.

Lemma two_dates_throw {A} x y b m (k : jsval -> jsval -> A) e :
  (c <- or_toISOString x b ;; u <- or_toISOString y m ;; Ok (k c u))%result = Throw e
  <-> or_toISOString x b = Throw e
      \/ ((exists c, or_toISOString x b = Ok c) /\ or_toISOString y m = Throw e).
Proof.
  destruct (or_toISOString x b) as [c|e1]; cbn [rbind].
  - destruct (or_toISOString y m) as [u|e2]; cbn [rbind].
    + split; [discriminate|]. intros [[=]|(_ & [=])].
    + split; [intros [= <-]; right; split; [eauto|reflexivity]|].
      intros [[=]|(_ & H)]. congruence.
  - split; [intros [= <-]; left; reflexivity|].
    intros [H|([c [=]] & _)]. congruence.
Qed.

Lemma stamps_falsy lines :
  (Js.truthy (hd (JString EmptyString) (in_band_timestamps lines)) = false
   <-> in_band_timestamps lines = [])
  /\ (Js.truthy (last (in_band_timestamps lines) (JString EmptyString)) = false
      <-> in_band_timestamps lines = []).
Proof.
  pose proof (in_band_timestamps_truthy lines) as TS.
  destruct (in_band_timestamps lines) as [|first rest].
  - split; split; reflexivity.
  - inversion TS as [|? ? T1 T2]; subst. cbn [hd]. rewrite last_cons.
    rewrite T1, (last_truthy rest first T1 T2). split; split; discriminate.
Qed.

Lemma session_info_throws onUser onAssistant lines stat sid pp e :
  MessageHook onUser -> MessageHook onAssistant ->
  (session_info (scan_lines onUser onAssistant lines initial_locals) stat sid pp = Throw e
   <-> (e = TypeError
        /\ exists v, first_field "cwd" lines = Some v /\ is_jstring v = false)
       \/ (e = RangeError
           /\ List.filter qualifying lines <> []
           /\ (forall v, first_field "cwd" lines = Some v -> is_jstring v = true)
           /\ in_band_timestamps lines = []
           /\ invalid_time (birthtime stat) || invalid_time (mtime stat) = true)).
Proof.
  intros HU HA.
  destruct (scan_lines_fields onUser onAssistant lines HU HA initial_locals) as (C & _ & _).
  destruct (scan_lines_counts onUser onAssistant lines HU HA initial_locals) as [CU CA].
  destruct (scan_lines_stamps onUser onAssistant lines HU HA initial_locals) as [SC SU].
  cbn [initial_locals v_cwd v_userMessageCount v_assistantMessageCount v_createdAt
       v_updatedAt Js.truthy JsString.nonEmpty Nat.add] in C, CU, CA, SC, SU.
  pose proof (qualifying_count lines) as Q.
  pose proof (first_field_truthy "cwd" lines) as T.
  pose proof (first_field_user_line "cwd" lines) as U.
  destruct (stamps_falsy lines) as [F1 F2].
  unfold session_info. rewrite C, CU, CA, SC, SU. clear C CU CA SC SU.
  destruct ((length (List.filter is_user_line lines) =? 0)
            && (length (List.filter is_assistant_line lines) =? 0))%nat eqn:Z.
  { apply andb_prop in Z as [Z1 Z2]. apply Nat.eqb_eq in Z1, Z2.
    split; [discriminate|].
    intros [(_ & v & F & _)|(_ & N & _)].
    - specialize (U v F). destruct (List.filter is_user_line lines); [congruence|].
      discriminate.
    - destruct (List.filter qualifying lines); [congruence|]. cbn in Q. lia. }
  assert (N : List.filter qualifying lines <> []).
  { intros E. rewrite E in Q. cbn in Q.
    apply andb_false_iff in Z as [Z|Z]; apply Nat.eqb_neq in Z; lia. }
  clear Z Q U.
  assert (G : forall (k : jsval -> jsval -> option ClaudeSessionInfo),
             (c <- or_toISOString (hd (JString EmptyString) (in_band_timestamps lines))
                                  (birthtime stat) ;;
              u <- or_toISOString (last (in_band_timestamps lines) (JString EmptyString))
                                  (mtime stat) ;;
              Ok (k c u))%result = Throw e
             <-> e = RangeError /\ in_band_timestamps lines = []
                 /\ invalid_time (birthtime stat) || invalid_time (mtime stat) = true).
  { intros k. rewrite two_dates_throw, !or_toISOString_throws. split.
    - intros [(-> & X & I)|(_ & -> & X & I)].
      + split; [reflexivity|]. split; [apply F1; exact X|]. rewrite I. reflexivity.
      + split; [reflexivity|]. split; [apply F2; exact X|]. rewrite I. apply orb_true_r.
    - intros (-> & E & I).
      destruct (invalid_time (birthtime stat)) eqn:IB.
      + left. split; [reflexivity|]. split; [apply F1; exact E|reflexivity].
      + right. split.
        * destruct (or_toISOString _ (birthtime stat)) as [c|e1] eqn:O; [eauto|].
          apply or_toISOString_throws in O as (_ & _ & O). congruence.
        * split; [reflexivity|]. split; [apply F2; exact E|exact I]. }
  unfold Js.or.
  destruct (first_field "cwd" lines) as [c|].
  - rewrite (T c eq_refl).
    destruct (is_jstring c) eqn:J.
    + destruct c; try discriminate. rewrite G. split.
      * intros (-> & E & I). right. split; [reflexivity|]. split; [exact N|].
        split; [intros v [= <-]; reflexivity|]. split; assumption.
      * intros [(_ & v & [= <-] & F)|(-> & _ & _ & E & I)]; [discriminate|].
        split; [reflexivity|]. split; assumption.
    + split.
      * intros H. left. split; [destruct c; try discriminate; congruence|].
        exists c. split; [reflexivity|exact J].
      * intros [(-> & _)|(_ & _ & S & _)].
        -- destruct c; try discriminate; reflexivity.
        -- rewrite (S c eq_refl) in J. discriminate.
  - cbn [Js.truthy JsString.nonEmpty]. rewrite G. split.
    + intros (-> & E & I). right. split; [reflexivity|]. split; [exact N|].
      split; [intros v [=]|]. split; assumption.
    + intros [(_ & v & [=] & F)|(-> & _ & _ & E & I)].
      split; [reflexivity|]. split; assumption.
Qed.

Lemma readJsonlLines_throws fs path e :
  readJsonlLines fs path = Throw e
  <-> e = SystemError
      /\ (statSync fs path = None
          \/ exists stat,
               statSync fs path = Some stat
               /\ (size stat <= MAX_FILE_SIZE)%Z
               /\ readFileSync fs path = None).
Proof.
  unfold readJsonlLines.
  destruct (statSync fs path) as [stat|]; cbn [fs_call rbind].
  - destruct (size stat >? MAX_FILE_SIZE)%Z eqn:G.
    + split; [discriminate|].
      intros (_ & [[=]|(st & [= <-] & Small & _)]).
      rewrite Z.gtb_ltb in G. apply Z.ltb_lt in G. lia.
    + rewrite Z.gtb_ltb in G. apply Z.ltb_ge in G.
      destruct (readFileSync fs path) as [content|]; cbn [fs_call rbind].
      * split; [discriminate|].
        intros (_ & [[=]|(st & _ & _ & [=])]).
      * split.
        -- intros [= <-]. split; [reflexivity|]. right. exists stat. auto.
        -- intros (-> & _). reflexivity.
  - split.
    + intros [= <-]. split; [reflexivity|]. left. reflexivity.
    + intros (-> & _). reflexivity.
Qed.

(** X14.  What makes [parseClaudeSession] throw.  It throws exactly in
    three cases, all after it has located the session file: a system
    error, when the file cannot be stat-ed, or passes the size guard and
    cannot be read; a [TypeError], when the file is read and the first
    [cwd] that a user event carries is not a string (it is then handed to
    [path.basename]); a [RangeError], when the file is read, holds a user
    or assistant event, no such non-string [cwd] and no timestamp, and the
    birth or modification time of the file makes no valid Date (it is
    then handed to [toISOString]). *)
Theorem parse_throws_exactly fs clock sid e :
  parseClaudeSession fs clock sid = Throw e
  <-> exists path pp,
        locate_session fs sid = Some (path, pp)
        /\ ((e = SystemError
             /\ (statSync fs path = None
                 \/ exists stat,
                      statSync fs path = Some stat
                      /\ (size stat <= MAX_FILE_SIZE)%Z
                      /\ readFileSync fs path = None))
            \/ (exists lines stat,
                   readJsonlLines fs path = Ok (Some (lines, stat))
                   /\ ((e = TypeError
                        /\ exists v, first_field "cwd" lines = Some v
                                     /\ is_jstring v = false)
                       \/ (e = RangeError
                           /\ List.filter qualifying lines <> []
                           /\ (forall v, first_field "cwd" lines = Some v ->
                                         is_jstring v = true)
                           /\ in_band_timestamps lines = []
                           /\ invalid_time (birthtime stat) || invalid_time (mtime stat)
                              = true)))).
Proof.
  destruct (locate_session fs sid) as [[path pp]|] eqn:L.
  2:{ unfold parseClaudeSession. rewrite L. split; [discriminate|].
      intros (path & pp & [=] & _). }
  destruct (readJsonlLines fs path) as [[[lines stat]|]|e'] eqn:R.
  - rewrite (parseClaudeSession_read fs clock sid path pp lines stat L R).
    pose proof (session_info_throws (push_parsed (parseUserMessage clock))
                  (push_parsed (parseAssistantMessage clock)) lines stat sid pp e
                  (hook_push_parsed _) (hook_push_parsed _)) as T.
    fold (materialize clock lines) in T.
    split.
    + intros H.
      assert (S : session_info (materialize clock lines) stat sid pp = Throw e).
      { destruct (session_info (materialize clock lines) stat sid pp) as [[i|]|e''];
          cbn [rbind] in H; try discriminate. congruence. }
      apply T in S.
      exists path, pp. split; [reflexivity|]. right.
      exists lines, stat. split; [exact R|exact S].
    + intros (path' & pp' & [= <- <-] & [(-> & Sys)|(lines' & stat' & R' & S)]).
      * assert (X : readJsonlLines fs path = Throw SystemError)
          by (apply readJsonlLines_throws; auto).
        rewrite R in X. discriminate.
      * rewrite R in R'. injection R' as <- <-.
        rewrite (proj2 T S). reflexivity.
  - unfold parseClaudeSession. rewrite L, R. cbn [rbind]. split; [discriminate|].
    intros (path' & pp' & [= <- <-] & [(-> & Sys)|(lines' & stat' & R' & _)]).
    + assert (X : readJsonlLines fs path = Throw SystemError)
        by (apply readJsonlLines_throws; auto).
      rewrite R in X. discriminate.
    + rewrite R in R'. discriminate.
  - unfold parseClaudeSession. rewrite L, R. cbn [rbind].
    pose proof (proj1 (readJsonlLines_throws fs path e') R) as (-> & Sys).
    split.
    + intros [= <-]. exists path, pp. split; [reflexivity|]. left. auto.
    + intros (path' & pp' & [= <- <-] & [(-> & _)|(lines' & stat' & R' & _)]).
      * reflexivity.
      * rewrite R in R'. discriminate.
Qed.


(** ** A log that grows *)

(** X15.  Messages are emitted in file order and a line never changes
    what the lines before it gave: when the session file is read again,
    at whatever later time, after lines were appended to it, the messages
    of the second reading begin with those of the lines that were there
    at the first, which are the messages of the first reading up to
    their timestamps -- and the very same messages when every user and
    assistant event of those lines carries a timestamp, or the clock
    reads the same; at most one message is added for each appended user
    or assistant event, and the counters do not decrease.  (A message of
    an event without a timestamp takes the time of the reading.) *)
Theorem appended_lines_append_messages fs fs' clock clock' sid path pp path' pp'
        lines more stat stat' ps ps' :
  locate_session fs sid = Some (path, pp) ->
  readJsonlLines fs path = Ok (Some (lines, stat)) ->
  locate_session fs' sid = Some (path', pp') ->
  readJsonlLines fs' path' = Ok (Some (lines ++ more, stat')) ->
  parseClaudeSession fs clock sid = Ok (Some ps) ->
  parseClaudeSession fs' clock' sid = Ok (Some ps') ->
  (exists first ms,
      messages ps' = first ++ ms
      /\ first = v_messages (materialize clock' lines)
      /\ List.map untimed first = List.map untimed (messages ps)
      /\ (clock' = clock \/ forallb timestamped lines = true -> first = messages ps)
      /\ length ms <= length (List.filter qualifying more))
  /\ userMessageCount (info ps) <= userMessageCount (info ps')
  /\ assistantMessageCount (info ps) <= assistantMessageCount (info ps').
Proof.
  intros L R L' R' P P'.
  rewrite (parseClaudeSession_read fs clock sid path pp lines stat L R) in P.
  rewrite (parseClaudeSession_read fs' clock' sid path' pp' (lines ++ more) stat' L' R') in P'.
  destruct (session_info (materialize clock lines) stat sid pp) as [[i|]|] eqn:S;
    cbn [rbind] in P; try discriminate.
  destruct (session_info (materialize clock' (lines ++ more)) stat' sid pp') as [[i'|]|] eqn:S';
    cbn [rbind] in P'; try discriminate.
  injection P as <-. injection P' as <-. cbn [messages info].
  apply session_info_some in S as (_ & _ & _ & -> & -> & _).
  apply session_info_some in S' as (_ & _ & _ & -> & -> & _).
  split.
  - exists (v_messages (materialize clock' lines)).
    unfold materialize at 1. rewrite scan_lines_app.
    fold (materialize clock' lines).
    destruct (scan_lines_messages clock' more (materialize clock' lines))
      as (ms & -> & _ & U & A).
    exists ms. split; [reflexivity|]. split; [reflexivity|].
    split; [exact (proj2 (materialize_alike clock' clock lines))|].
    split.
    + intros [->|T]; [reflexivity|].
      unfold materialize. rewrite (scan_lines_clock clock' clock lines T). reflexivity.
    + rewrite (roles_partition ms).
      assert (Q : length (List.filter is_user_line more)
                  + length (List.filter is_assistant_line more)
                  <= length (List.filter qualifying more)).
      { clear. induction more as [|line more IH]; [reflexivity|].
        cbn [List.filter]. unfold qualifying at 1.
        unfold is_user_line, is_assistant_line in *.
        destruct (event_type line) as [| | | |t| |]; cbn [Js.is_string orb length]; try lia.
        destruct (String.eqb t "user") eqn:E1, (String.eqb t "assistant") eqn:E2;
          cbn [orb length]; try lia.
        apply String.eqb_eq in E1, E2. congruence. }
      lia.
  - unfold materialize.
    destruct (scan_lines_counts (push_parsed (parseUserMessage clock))
                (push_parsed (parseAssistantMessage clock)) lines
                (hook_push_parsed _) (hook_push_parsed _) initial_locals) as [-> ->].
    destruct (scan_lines_counts (push_parsed (parseUserMessage clock'))
                (push_parsed (parseAssistantMessage clock')) (lines ++ more)
                (hook_push_parsed _) (hook_push_parsed _) initial_locals) as [-> ->].
    rewrite !filter_app, !length_app. lia.
Qed.

(** ** Files the listing passes over *)

(** X16.  A session file on which the metadata pass fails -- it cannot
    be stat-ed, or passes the size guard and cannot be read, or the first
    [cwd] of its user events is not a string, or it holds a user or
    assistant event, no timestamp, and its birth or modification time
    makes no valid Date -- is passed over by [listClaudeSessions], with
    no effect on the other sessions: the listing is the one of the store
    without that file.  Under each of these conditions
    [parseClaudeSession] throws on the file. *)
Theorem listing_passes_over_failing_file fs projectDir file :
  (statSync fs (session_file_path projectDir file) = None
   \/ (exists stat,
          statSync fs (session_file_path projectDir file) = Some stat
          /\ (size stat <= MAX_FILE_SIZE)%Z
          /\ readFileSync fs (session_file_path projectDir file) = None)
   \/ (exists lines stat v,
          readJsonlLines fs (session_file_path projectDir file) = Ok (Some (lines, stat))
          /\ first_field "cwd" lines = Some v
          /\ is_jstring v = false)
   \/ (exists lines stat,
          readJsonlLines fs (session_file_path projectDir file) = Ok (Some (lines, stat))
          /\ List.filter qualifying lines <> []
          /\ (forall v, first_field "cwd" lines = Some v -> is_jstring v = true)
          /\ in_band_timestamps lines = []
          /\ invalid_time (birthtime stat) || invalid_time (mtime stat) = true)) ->
  listClaudeSessions
    (without_file fs (path_join getClaudeProjectsDir (name projectDir)) file)
  = listClaudeSessions fs.
Proof.
  intros H. apply listClaudeSessions_without_file; [apply path_join_longer|].
  intros sid pp. right.
  fold (session_file_path projectDir file).
  assert (Sys : readJsonlLines fs (session_file_path projectDir file) = Throw SystemError ->
                extractSessionInfo fs (session_file_path projectDir file) sid pp
                = Throw SystemError).
  { intros R. unfold extractSessionInfo. rewrite R. reflexivity. }
  destruct H as [S|[(stat & S & Small & C)|[(lines & stat & v & R & F & N)
                                            |(lines & stat & R & Q)]]].
  - exists SystemError. apply Sys. apply readJsonlLines_throws. auto.
  - exists SystemError. apply Sys. apply readJsonlLines_throws.
    split; [reflexivity|]. right. exists stat. auto.
  - exists TypeError. rewrite (extractSessionInfo_read _ _ sid pp lines stat R).
    apply session_info_throws; [apply hook_no_message|apply hook_no_message|].
    left. split; [reflexivity|]. exists v. auto.
  - exists RangeError. rewrite (extractSessionInfo_read _ _ sid pp lines stat R).
    apply session_info_throws; [apply hook_no_message|apply hook_no_message|].
    right. split; [reflexivity|exact Q].
Qed.

(** ** The path decoder and the encoding it undoes *)

Lemma map_escape_no_escape s :
  has_char "-" (JsString.map escape_to_separator s) = false.
Proof.
  induction s as [|c s IH]; [reflexivity|].
  cbn [JsString.map has_char]. rewrite IH, orb_false_r.
  unfold escape_to_separator. destruct (Ascii.eqb c "-") eqn:E; [reflexivity|exact E].
Qed.

Lemma map_escape_length s :
  String.length (JsString.map escape_to_separator s) = String.length s.
Proof. induction s as [|c s IH]; cbn; [reflexivity|rewrite IH; reflexivity]. Qed.

Lemma decodeProjectPath_cases encodedName :
  decodeProjectPath encodedName
  = match encodedName with
    | String c rest =>
        if Ascii.eqb c "-"
        then String "/" (JsString.map escape_to_separator rest)
        else encodedName
    | EmptyString => encodedName
    end.
Proof.
  destruct encodedName as [|c rest]; [reflexivity|].
  unfold decodeProjectPath, JsString.replace_anchored.
  rewrite startsWith_one, (Ascii.eqb_sym "-" c).
  destruct (Ascii.eqb c "-") eqn:E; [|reflexivity].
  cbn [negb JsString.replace_global].
  change (Ascii.eqb "/" "-") with false.
  cbn [String.append]. rewrite replace_global_single. reflexivity.
Qed.

(** X17.  [decodeProjectPath] keeps the length of the name; a decoded
    name that began with the escape character begins with a separator and
    holds no escape character any more; and decoding twice is decoding
    once. *)
Theorem decodeProjectPath_idempotent encodedName :
  String.length (decodeProjectPath encodedName) = String.length encodedName
  /\ (JsString.startsWith encodedName "-" = true ->
      JsString.startsWith (decodeProjectPath encodedName) "/" = true
      /\ has_char "-" (decodeProjectPath encodedName) = false)
  /\ decodeProjectPath (decodeProjectPath encodedName) = decodeProjectPath encodedName.
Proof.
  pose proof decodeProjectPath_cases as D.
  rewrite (D encodedName).
  destruct encodedName as [|c rest].
  - repeat split; discriminate.
  - rewrite startsWith_one, (Ascii.eqb_sym "-" c).
    destruct (Ascii.eqb c "-") eqn:E.
    + split; [cbn [String.length]; rewrite map_escape_length; reflexivity|].
      split; [intros _; split; [reflexivity|]; cbn [has_char]; apply map_escape_no_escape|].
      rewrite D. reflexivity.
    + split; [reflexivity|]. split; [discriminate|].
      rewrite D, E. reflexivity.
Qed.

Lemma decode_encode_tail s :
  has_char "-" s = false ->
  JsString.map escape_to_separator (JsString.replace_global "/" "-" s) = s.
Proof.
  induction s as [|c s IH]; [reflexivity|].
  cbn [has_char JsString.replace_global]. intros H.
  apply orb_false_elim in H as [H1 H2].
  destruct (Ascii.eqb c "/") eqn:E.
  - apply Ascii.eqb_eq in E. subst c. cbn. rewrite (IH H2). reflexivity.
  - cbn [String.append JsString.map]. rewrite (IH H2).
    unfold escape_to_separator. rewrite H1. reflexivity.
Qed.

(** X18.  [decodeProjectPath] undoes the encoding that the comment
    above it describes, each separator replaced by the escape character,
    on every absolute path that holds no escape character: decoding the
    encoded path gives the path back. *)
Theorem decodeProjectPath_inverts_encoding path :
  JsString.startsWith path "/" = true ->
  has_char "-" path = false ->
  decodeProjectPath (JsString.replace_global "/" "-" path) = path.
Proof.
  intros A H. rewrite decodeProjectPath_cases.
  destruct path as [|c rest]; [discriminate|].
  rewrite startsWith_one in A. apply Ascii.eqb_eq in A. subst c.
  cbn [has_char] in H. apply orb_false_elim in H as [_ H].
  cbn [JsString.replace_global]. change (Ascii.eqb "/" "/") with true.
  cbn [String.append]. change (Ascii.eqb "-" "-") with true.
  rewrite (decode_encode_tail rest H). reflexivity.
Qed.

(** ** The lines of a file *)

Lemma split_no_separator sep s :
  Forall (fun l => has_char sep l = false) (JsString.split sep s).
Proof.
  induction s as [|c s IH]; cbn [JsString.split].
  - constructor; [reflexivity|constructor].
  - destruct (Ascii.eqb c sep) eqn:E.
    + constructor; [reflexivity|exact IH].
    + destruct (JsString.split sep s) as [|h t].
      * constructor; [cbn; rewrite E; reflexivity|constructor].
      * inversion IH; subst. constructor; [cbn; rewrite E; assumption|assumption].
Qed.

Lemma split_nonempty sep s : JsString.split sep s <> [].
Proof.
  destruct s as [|c s]; cbn [JsString.split]; [discriminate|].
  destruct (Ascii.eqb c sep); [discriminate|].
  destruct (JsString.split sep s); discriminate.
Qed.

Lemma join_split sep s :
  JsString.join (String sep EmptyString) (JsString.split sep s) = s.
Proof.
  induction s as [|c s IH]; [reflexivity|].
  cbn [JsString.split].
  pose proof (split_nonempty sep s) as N.
  destruct (JsString.split sep s) as [|h t]; [congruence|].
  destruct (Ascii.eqb c sep) eqn:E.
  - apply Ascii.eqb_eq in E. subst c.
    change (JsString.join (String sep EmptyString) (EmptyString :: h :: t))
      with (String sep (JsString.join (String sep EmptyString) (h :: t))).
    rewrite IH. reflexivity.
  - transitivity (String c (JsString.join (String sep EmptyString) (h :: t))).
    + destruct t; reflexivity.
    + rewrite IH. reflexivity.
Qed.

Lemma split_piece sep p rest :
  has_char sep p = false ->
  JsString.split sep (p ++ String sep rest)%string = p :: JsString.split sep rest.
Proof.
  induction p as [|c p IH]; intros H.
  - cbn [String.append JsString.split]. rewrite Ascii.eqb_refl. reflexivity.
  - cbn [has_char] in H. apply orb_false_elim in H as [H1 H2].
    cbn [String.append JsString.split]. rewrite H1, (IH H2). reflexivity.
Qed.

Lemma split_last sep p :
  has_char sep p = false -> JsString.split sep p = [p].
Proof.
  induction p as [|c p IH]; intros H; [reflexivity|].
  cbn [has_char] in H. apply orb_false_elim in H as [H1 H2].
  cbn [JsString.split]. rewrite H1, (IH H2). reflexivity.
Qed.

Lemma split_join sep pieces :
  pieces <> [] ->
  Forall (fun p => has_char sep p = false) pieces ->
  JsString.split sep (JsString.join (String sep EmptyString) pieces) = pieces.
Proof.
  induction pieces as [|p rest IH]; intros N F; [congruence|].
  inversion F as [|? ? Hp Hrest]; subst.
  destruct rest as [|q rest].
  - cbn [JsString.join]. apply split_last. exact Hp.
  - change (JsString.join (String sep EmptyString) (p :: q :: rest))
      with (p ++ String sep (JsString.join (String sep EmptyString) (q :: rest)))%string.
    rewrite (split_piece sep p _ Hp). f_equal.
    apply IH; [discriminate|exact Hrest].
Qed.

(** X19.  The lines that [readJsonlLines] hands to the parsers are the
    pieces of the file content between line feeds, in order, that are not
    blank.  None holds a line feed and none is empty or white space only;
    the content is a sequence of pieces free of line feeds joined by line
    feeds, and in whatever way it is written as such a sequence, the
    lines are the pieces of it that are not blank, in the order of the
    content: no piece with a character that is not white space is left
    out, and nothing is added.  A content without blank lines is these
    lines joined by line feeds. *)
Theorem readJsonlLines_lines fs filePath lines stat :
  readJsonlLines fs filePath = Ok (Some (lines, stat)) ->
  statSync fs filePath = Some stat
  /\ (size stat <= MAX_FILE_SIZE)%Z
  /\ exists content,
       readFileSync fs filePath = Some content
       /\ Forall (fun l => has_char JsString.LF l = false
                           /\ JsString.nonEmpty (JsString.trim l) = true) lines
       /\ (exists pieces,
              pieces <> []
              /\ Forall (fun p => has_char JsString.LF p = false) pieces
              /\ JsString.join (String JsString.LF EmptyString) pieces = content)
       /\ (forall pieces,
              pieces <> [] ->
              Forall (fun p => has_char JsString.LF p = false) pieces ->
              JsString.join (String JsString.LF EmptyString) pieces = content ->
              lines = List.filter not_blank pieces)
       /\ (length lines = length (JsString.split JsString.LF content) ->
           JsString.join (String JsString.LF EmptyString) lines = content).
Proof.
  unfold readJsonlLines.
  destruct (statSync fs filePath) as [st|]; cbn [fs_call rbind]; [|discriminate].
  destruct (size st >? MAX_FILE_SIZE)%Z eqn:G; [discriminate|].
  rewrite Z.gtb_ltb in G. apply Z.ltb_ge in G.
  destruct (readFileSync fs filePath) as [content|]; cbn [fs_call rbind]; [|discriminate].
  intros [= <- <-]. split; [reflexivity|]. split; [exact G|].
  exists content. split; [reflexivity|]. unfold nonblank_lines.
  split; [|split; [|split]].
  - rewrite Forall_forall. intros l Hl. apply filter_In in Hl as [Hl N].
    split; [|exact N].
    pose proof (split_no_separator JsString.LF content) as F.
    rewrite Forall_forall in F. apply F. exact Hl.
  - exists (JsString.split JsString.LF content).
    split; [apply split_nonempty|].
    split; [apply split_no_separator|apply join_split].
  - intros pieces N F <-. rewrite (split_join JsString.LF pieces N F). reflexivity.
  - intros E.
    assert (K : forall (A : Type) (f : A -> bool) (xs : list A),
               length (List.filter f xs) = length xs -> List.filter f xs = xs).
    { intros A f xs. induction xs as [|x xs IH]; [reflexivity|].
      cbn [List.filter]. destruct (f x); cbn [length].
      - intros H. f_equal. apply IH. lia.
      - intros H. pose proof (filter_length_le f xs). lia. }
    rewrite (K _ _ _ E). apply join_split.
Qed.

End MoreFacts.

(* ================================================================== *)
(** * The import route *)
(* ================================================================== *)

Section RouteFacts.

Context {host : Host}.
Variables Db Session : Type.
Variable db : Backend Db Session.
Variable JSON_stringify : list MessageContentBlock -> string.

(** ** Blank strings *)

Lemma trimEnd_ink s : JsString.nonEmpty (JsString.trimEnd s) = has_ink s.
Proof.
  induction s as [|c s IH]; [reflexivity|].
  cbn [JsString.trimEnd has_ink]. rewrite <- IH.
  destruct (JsString.trimEnd s); [|cbn; rewrite orb_true_r; reflexivity].
  destruct (JsString.isWhiteSpace c); reflexivity.
Qed.

Lemma trimStart_ink s : has_ink (JsString.trimStart s) = has_ink s.
Proof.
  induction s as [|c s IH]; [reflexivity|].
  cbn [JsString.trimStart].
  destruct (JsString.isWhiteSpace c) eqn:E; [|reflexivity].
  cbn [has_ink]. rewrite E. exact IH.
Qed.

Lemma not_blank_ink s : not_blank s = has_ink s.
Proof. unfold not_blank, JsString.trim. rewrite trimEnd_ink. apply trimStart_ink. Qed.

Lemma has_ink_app a b : has_ink (a ++ b) = has_ink a || has_ink b.
Proof.
  induction a as [|c a IH]; [reflexivity|].
  cbn [String.append has_ink]. rewrite IH. apply orb_assoc.
Qed.

Lemma slice0_all n s : String.length s <= n -> JsString.slice0 n s = s.
Proof.
  revert s. induction n as [|n IH]; intros [|c s] H; cbn in *; try reflexivity; try lia.
  rewrite IH by lia. reflexivity.
Qed.

Lemma append_empty s : (s ++ EmptyString)%string = s.
Proof. induction s as [|c s IH]; cbn; [reflexivity|rewrite IH; reflexivity]. Qed.

Lemma find_some_in {A} (f : A -> bool) (l : list A) (x : A) :
  List.find f l = Some x -> In x l /\ f x = true.
Proof. apply find_some. Qed.

Lemma parsed_session_facts fs clock sid ps :
  parseClaudeSession fs clock sid = Ok (Some ps) ->
  Forall well_formed_message (messages ps)
  /\ length (messages ps) <= userMessageCount (info ps) + assistantMessageCount (info ps)
  /\ projectPath (info ps) = cwd (info ps).
Proof.
  intros H.
  apply parseClaudeSession_inv in H as (path & pp & lines & stat & _ & _ & S & ->).
  destruct (materialize_messages clock lines) as (W & U & A).
  split; [exact W|].
  destruct (info_fields _ _ _ _ _ _ _ (hook_push_parsed _) (hook_push_parsed _) S)
    as (_ & P & _).
  split; [|exact P].
  apply session_info_some in S as (_ & _ & _ & -> & -> & _).
  destruct (scan_lines_counts (push_parsed (parseUserMessage clock))
                              (push_parsed (parseAssistantMessage clock)) lines
                              (hook_push_parsed _) (hook_push_parsed _) initial_locals)
    as [CU CA].
  fold (materialize clock lines) in CU, CA. rewrite CU, CA.
  cbn [initial_locals v_userMessageCount v_assistantMessageCount].
  rewrite (roles_partition (v_messages (materialize clock lines))). lia.
Qed.

(** X20.  The title given to an imported session is never blank.  When
    the session has a user message it is the content of the first one,
    whole when it has at most 50 characters and else cut to 50 with three
    dots appended, so of at most 53 characters; without a user message it
    is the name of the project after the word Imported. *)
Theorem import_title_not_blank fs clock sid ps :
  parseClaudeSession fs clock sid = Ok (Some ps) ->
  not_blank (import_title ps) = true
  /\ match List.find is_user_message (messages ps) with
     | Some m =>
         String.length (import_title ps) <= 53
         /\ (String.length (content m) <= 50 -> import_title ps = content m)
     | None => import_title ps = ("Imported: " ++ projectName (info ps))%string
     end.
Proof.
  intros P. pose proof (proj1 (parsed_session_facts fs clock sid ps P)) as W.
  unfold import_title.
  destruct (List.find is_user_message (messages ps)) as [m|] eqn:F.
  - apply find_some in F as [Hm U].
    rewrite Forall_forall in W. specialize (W m Hm).
    unfold well_formed_message in W. unfold is_user_message in U.
    destruct (role m); [|discriminate]. destruct W as (_ & _ & N).
    fold (not_blank (content m)) in N. rewrite not_blank_ink in N.
    destruct (50 <? String.length (content m))%nat eqn:L.
    + split; [rewrite not_blank_ink, has_ink_app; apply orb_true_r|].
      split.
      * rewrite length_append. pose proof (slice0_length 50 (content m)) as SL.
        change (String.length "...") with 3. lia.
      * apply Nat.ltb_lt in L. lia.
    + apply Nat.ltb_ge in L. rewrite append_empty, (slice0_all 50 _ L).
      split; [rewrite not_blank_ink; exact N|]. split; [lia|reflexivity].
  - split; [|reflexivity]. rewrite not_blank_ink. reflexivity.
Qed.

Lemma parse_requested_some fs clock sessionId ps :
  parse_requested fs clock sessionId = Ok (Some ps) ->
  exists sid, ToString sessionId = Ok sid /\ parseClaudeSession fs clock sid = Ok (Some ps).
Proof.
  unfold parse_requested. destruct (ToString sessionId) as [sid|]; [|discriminate].
  intros H. exists sid. split; [reflexivity|exact H].
Qed.

Lemma import_messages_returns id msgs d r d' :
  import_messages db JSON_stringify id msgs d = (r, d') ->
  r = Ok tt \/ exists e, r = Throw e.
Proof.
  destruct r as [[]|e]; [left; reflexivity|right; eauto].
Qed.

Lemma import_response_cases fs clock text d r d' :
  POST db JSON_stringify fs clock text d = (r, d') ->
  match r with
  | SessionIdRequired => d' = d
  | AlreadyImported _ | NotFound | NoMessages => d' = snd (getAllSessions db d)
  | Imported _ _ messageCount _ _ => 0 < messageCount
  | Listed _ => False
  | Failed _ => True
  end.
Proof.
  unfold POST, import_session.
  destruct (JSON_parse_or_throw text) as [body|e]; [rewrite bind_lift_ok|].
  2:{ rewrite bind_lift_throw. intros [= <- <-]. exact I. }
  destruct (Js.Get body "sessionId") as [sessionId|e]; [rewrite bind_lift_ok|].
  2:{ rewrite bind_lift_throw. intros [= <- <-]. exact I. }
  destruct (Js.truthy sessionId); cbn [negb]; [|intros [= <- <-]; reflexivity].
  unfold bind at 1.
  destruct (getAllSessions db d) as [[rows|e] d1]; cbn [snd];
    [|intros [= <- <-]; exact I].
  destruct (List.find _ rows) as [row|]; [intros [= <- <-]; reflexivity|].
  destruct (parse_requested fs clock sessionId) as [[ps|]|e];
    [rewrite bind_lift_ok
    |rewrite bind_lift_ok;
     destruct (ToString sessionId) as [str|e];
     [rewrite bind_lift_ok|rewrite bind_lift_throw];
     intros [= <- <-]; [reflexivity|exact I]
    |rewrite bind_lift_throw; intros [= <- <-]; exact I].
  destruct (messages ps) as [|m ms]; [intros [= <- <-]; reflexivity|].
  unfold bind.
  destruct (createSession db _ _ d1) as [[session|e] d2]; [|intros [= <- <-]; exact I].
  destruct (updateSdkSessionId db _ _ d2) as [[[]|e] d3]; [|intros [= <- <-]; exact I].
  destruct (import_messages db JSON_stringify _ _ d3) as [[[]|e] d4];
    [|intros [= <- <-]; exact I].
  cbn [ret]. intros [= <- <-]. cbn [length]. lia.
Qed.

Lemma import_messages_calls id msgs d :
  import_messages db JSON_stringify id msgs d = add_all db id (stored_calls JSON_stringify msgs) d.
Proof.
  revert d. induction msgs as [|m msgs IH]; intros d; [reflexivity|].
  cbn [import_messages]. unfold stored_calls. cbn [List.filter].
  unfold import_message at 1.
  destruct (not_blank (stored_content JSON_stringify m)).
  - cbn [List.map add_all]. unfold bind.
    destruct (addMessage db id (role m) (stored_content JSON_stringify m) d) as [[[]|e] d1];
      [apply IH|reflexivity].
  - unfold bind, ret. apply IH.
Qed.

Lemma user_calls_of_well_formed msgs :
  Forall well_formed_message msgs ->
  List.filter is_user_call (stored_calls JSON_stringify msgs)
  = List.map (fun m => (user, content m)) (List.filter is_user_message msgs).
Proof.
  induction 1 as [|m msgs W _ IH]; [reflexivity|].
  unfold stored_calls in *. cbn [List.filter].
  unfold well_formed_message in W. unfold is_user_message at 1.
  destruct (role m) eqn:R.
  - destruct W as (T & _ & N). fold (not_blank (content m)) in N.
    assert (E : stored_content JSON_stringify m = content m)
      by (unfold stored_content; rewrite T; reflexivity).
    rewrite E, N.
    cbn [List.map List.filter]. unfold is_user_call at 1. cbn [fst]. rewrite R, E.
    cbn [List.map]. f_equal. exact IH.
  - destruct (not_blank (stored_content JSON_stringify m)); [|exact IH].
    cbn [List.map List.filter]. unfold is_user_call at 1. cbn [fst]. rewrite R.
    exact IH.
Qed.

(** X21.  The import drops no user message.  When [POST] answers with
    status 201, after [createSession] and [updateSdkSessionId] returned,
    [addMessage] was called, and returned, once for each message of the
    parsed session whose stored content is not blank, in the order of the
    messages, and the database is left as the last of these calls left
    it; among these calls, those with the role user are one for each
    user message of the session, in order, with the content of the
    message as it is.  (An exception of [addMessage] ends the loop, and
    the answer is then 500.) *)
Theorem import_keeps_user_messages fs clock text d id title messageCount path
        sdkSessionId d' :
  POST db JSON_stringify fs clock text d
  = (Imported id title messageCount path sdkSessionId, d') ->
  exists sid ps rows d1 session d2 d3,
    ToString sdkSessionId = Ok sid
    /\ parseClaudeSession fs clock sid = Ok (Some ps)
    /\ getAllSessions db d = (Ok rows, d1)
    /\ createSession db title (working_directory (info ps)) d1 = (Ok session, d2)
    /\ id = session_id db session
    /\ updateSdkSessionId db id sdkSessionId d2 = (Ok tt, d3)
    /\ add_all db id (stored_calls JSON_stringify (messages ps)) d3 = (Ok tt, d')
    /\ List.filter is_user_call (stored_calls JSON_stringify (messages ps))
       = List.map (fun m => (user, content m))
                  (List.filter is_user_message (messages ps)).
Proof.
  unfold POST, import_session.
  destruct (JSON_parse_or_throw text) as [body|e]; [rewrite bind_lift_ok|].
  2:{ rewrite bind_lift_throw. discriminate. }
  destruct (Js.Get body "sessionId") as [sessionId|e]; [rewrite bind_lift_ok|].
  2:{ rewrite bind_lift_throw. discriminate. }
  destruct (Js.truthy sessionId); cbn [negb]; [|discriminate].
  unfold bind at 1.
  destruct (getAllSessions db d) as [[rows|e] d1]; [|discriminate].
  destruct (List.find _ rows) as [row|] eqn:F; [discriminate|].
  destruct (parse_requested fs clock sessionId) as [[ps|]|e] eqn:P;
    [rewrite bind_lift_ok
    |rewrite bind_lift_ok;
     destruct (ToString sessionId) as [str|e];
     [rewrite bind_lift_ok|rewrite bind_lift_throw]; discriminate
    |rewrite bind_lift_throw; discriminate].
  apply parse_requested_some in P as (sid & T & P).
  pose proof (proj1 (parsed_session_facts fs clock sid ps P)) as W.
  destruct (messages ps) as [|m ms] eqn:M; [discriminate|]. rewrite <- M in *.
  unfold bind.
  destruct (createSession db _ _ d1) as [[session|e] d2] eqn:C; [|discriminate].
  destruct (updateSdkSessionId db _ _ d2) as [[[]|e] d3] eqn:U; [|discriminate].
  destruct (import_messages db JSON_stringify _ _ d3) as [[[]|e] d4] eqn:I;
    [|discriminate].
  cbn [ret]. intros [= <- <- <- <- <- <-].
  rewrite import_messages_calls in I.
  exists sid, ps, rows, d1, session, d2, d3.
  repeat split; try assumption; try reflexivity.
  apply user_calls_of_well_formed. exact W.
Qed.

(** X22.  A request that the import route turns down leaves the
    database as it was: with status 400 for a missing session id nothing
    is called; with status 409, 404 and 400 for a session without
    messages, only [getAllSessions] has run.  Status 201 is given only
    with a positive [messageCount], and the route answers with no other
    status than 201, 400, 404, 409 and 500. *)
Theorem import_rejections_write_nothing fs clock text d r d' :
  POST db JSON_stringify fs clock text d = (r, d') ->
  (r = SessionIdRequired -> d' = d)
  /\ ((status r = 409 \/ status r = 404 \/ r = NoMessages)%Z ->
      d' = snd (getAllSessions db d))
  /\ (forall id title messageCount path sdkSessionId,
         r = Imported id title messageCount path sdkSessionId -> 0 < messageCount)
  /\ (status r = 201 \/ status r = 400 \/ status r = 404 \/ status r = 409
      \/ status r = 500)%Z.
Proof.
  intros H. apply import_response_cases in H.
  split; [intros ->; exact H|].
  split; [|split].
  - intros [C|[C|C]]; destruct r; cbn [status] in C; try discriminate; exact H.
  - intros i t n p s ->. exact H.
  - destruct r; cbn [status]; try contradiction; auto 10.
Qed.

(** X23.  What status 201 reports.  The import route answers 201 only
    for a session that [parseClaudeSession] returned with at least one
    message, after [createSession] was called with the title of X20 and
    with the working directory [cwd] of the info record, which is also
    the [projectPath] of the answer; [messageCount] is the number of
    parsed messages, which the two counters of the info record bound. *)
Theorem import_created fs clock text d id title messageCount path sdkSessionId d' :
  POST db JSON_stringify fs clock text d
  = (Imported id title messageCount path sdkSessionId, d') ->
  exists sid ps rows d1 session d2,
    ToString sdkSessionId = Ok sid
    /\ parseClaudeSession fs clock sid = Ok (Some ps)
    /\ getAllSessions db d = (Ok rows, d1)
    /\ List.find (fun s => sdk_session_id_is db s sdkSessionId) rows = None
    /\ createSession db (import_title ps) (cwd (info ps)) d1 = (Ok session, d2)
    /\ id = session_id db session
    /\ title = import_title ps
    /\ path = cwd (info ps)
    /\ messageCount = length (messages ps)
    /\ 0 < messageCount <= userMessageCount (info ps) + assistantMessageCount (info ps).
Proof.
  unfold POST, import_session.
  destruct (JSON_parse_or_throw text) as [body|e]; [rewrite bind_lift_ok|].
  2:{ rewrite bind_lift_throw. discriminate. }
  destruct (Js.Get body "sessionId") as [sessionId|e]; [rewrite bind_lift_ok|].
  2:{ rewrite bind_lift_throw. discriminate. }
  destruct (Js.truthy sessionId); cbn [negb]; [|discriminate].
  unfold bind at 1.
  destruct (getAllSessions db d) as [[rows|e] d1]; [|discriminate].
  destruct (List.find _ rows) as [row|] eqn:F; [discriminate|].
  destruct (parse_requested fs clock sessionId) as [[ps|]|e] eqn:P;
    [rewrite bind_lift_ok
    |rewrite bind_lift_ok;
     destruct (ToString sessionId) as [str|e];
     [rewrite bind_lift_ok|rewrite bind_lift_throw]; discriminate
    |rewrite bind_lift_throw; discriminate].
  apply parse_requested_some in P as (sid & T & P).
  pose proof (parsed_session_facts fs clock sid ps P) as (_ & B & C1).
  assert (C2 : working_directory (info ps) = cwd (info ps)).
  { unfold working_directory. rewrite C1.
    destruct (JsString.nonEmpty (cwd (info ps))); reflexivity. }
  rewrite C1, C2.
  destruct (messages ps) as [|m ms] eqn:M; [discriminate|].
  unfold bind.
  destruct (createSession db _ _ d1) as [[session|e] d2] eqn:CS; [|discriminate].
  destruct (updateSdkSessionId db _ _ d2) as [[[]|e] d3]; [|discriminate].
  destruct (import_messages db JSON_stringify _ _ d3) as [[[]|e] d4]; [|discriminate].
  cbn [ret]. intros [= <- <- <- <- <- <-].
  exists sid, ps, rows, d1, session, d2.
  repeat (split; [first [reflexivity|assumption]|]).
  rewrite M. cbn [length] in *. lia.
Qed.

(** X24.  The exceptions of [parseClaudeSession] reach the client: for
    a request whose session id is a string not yet imported, when the
    session file is located and cannot be stat-ed, or passes the size
    guard and cannot be read, the import route answers 500, not 404, and
    leaves the database as [getAllSessions] left it. *)
Theorem import_of_unreadable_session_fails fs clock text d body sid rows d1 path pp :
  JSON_parse text = Some body ->
  Js.Get body "sessionId" = Ok (JString sid) ->
  sid <> EmptyString ->
  getAllSessions db d = (Ok rows, d1) ->
  List.find (fun s => sdk_session_id_is db s (JString sid)) rows = None ->
  locate_session fs sid = Some (path, pp) ->
  (statSync fs path = None
   \/ exists stat,
        statSync fs path = Some stat
        /\ (size stat <= MAX_FILE_SIZE)%Z
        /\ readFileSync fs path = None) ->
  POST db JSON_stringify fs clock text d = (Failed SystemError, d1).
Proof.
  intros J G N A F L U.
  assert (P : parseClaudeSession fs clock sid = Throw SystemError).
  { unfold parseClaudeSession. rewrite L.
    rewrite (proj2 (readJsonlLines_throws fs path SystemError)); [reflexivity|].
    split; [reflexivity|exact U]. }
  unfold POST, import_session, JSON_parse_or_throw. rewrite J, bind_lift_ok, G, bind_lift_ok.
  assert (Js.truthy (JString sid) = true) as ->
      by (destruct sid; [congruence|reflexivity]).
  cbn [negb]. unfold bind at 1. rewrite A, F.
  unfold parse_requested. cbn [ToString]. rewrite P, bind_lift_throw. reflexivity.
Qed.

End RouteFacts.

(* ================================================================== *)
(** * The size shown in the import dialog *)
(* ================================================================== *)

(** X25.  From 1024 bytes on, [formatFileSize] shows the size in KB
    below 1024 * 1024 bytes and in MB from there on, as the number of
    tenths of the unit nearest to the size: the figure shown is off by at
    most a twentieth of the unit.  The choice of the unit looks at the
    size before it is rounded, so that the 51 sizes from 1048525 bytes
    to one byte below the MB are shown as 1024.0 KB. *)
Theorem formatFileSize_rounds_to_tenths bytes :
  (1024 <= bytes)%Z ->
  (exists n unit scale,
      formatFileSize bytes
      = (Node.natural_string (n / 10) ++ "."
           ++ String (Node.digit_char (n mod 10)) EmptyString ++ unit)%string
      /\ ((bytes < 1024 * 1024 /\ unit = " KB" /\ scale = 1024)
          \/ (1024 * 1024 <= bytes /\ unit = " MB" /\ scale = 1024 * 1024))
      /\ 10 <= n
      /\ Z.abs (scale * n - 10 * bytes) * 2 <= scale)%Z
  /\ ((1048525 <= bytes < 1048576)%Z -> formatFileSize bytes = "1024.0 KB").
Proof.
  intros H.
  assert (App : forall a b c d : string, ((a ++ b ++ c) ++ d = a ++ b ++ c ++ d)%string).
  { intros a b c d. induction a as [|x a IH]; cbn; [|rewrite IH; reflexivity].
    induction b as [|y b IHb]; cbn; [reflexivity|rewrite IHb; reflexivity]. }
  assert (Near : forall s, (0 < s)%Z -> (s <= bytes)%Z ->
                           let n := ((20 * bytes + s) / (2 * s))%Z in
                           (10 <= n /\ Z.abs (s * n - 10 * bytes) * 2 <= s)%Z).
  { intros s Hs Hb n.
    pose proof (Z.mul_div_le (20 * bytes + s) (2 * s) ltac:(lia)) as L.
    pose proof (Z.mul_succ_div_gt (20 * bytes + s) (2 * s) ltac:(lia)) as U.
    fold n in L, U. split; [nia|lia]. }
  unfold formatFileSize.
  assert ((bytes <? 1024)%Z = false) as -> by (apply Z.ltb_ge; exact H).
  split.
  - destruct (bytes <? 1024 * 1024)%Z eqn:M.
    + apply Z.ltb_lt in M.
      exists ((20 * bytes + 1024) / (2 * 1024))%Z, " KB", 1024%Z.
      split; [unfold toFixed1; cbv zeta; apply App|].
      split; [left; auto|]. apply (Near 1024%Z); lia.
    + apply Z.ltb_ge in M.
      exists ((20 * bytes + 1024 * 1024) / (2 * (1024 * 1024)))%Z, " MB", (1024 * 1024)%Z.
      split; [unfold toFixed1; cbv zeta; apply App|].
      split; [right; auto|]. apply (Near (1024 * 1024)%Z); lia.
  - intros [Lo Hi].
    assert ((bytes <? 1024 * 1024)%Z = true) as -> by (apply Z.ltb_lt; lia).
    unfold toFixed1.
    assert (((20 * bytes + 1024) / (2 * 1024))%Z = 10240%Z) as ->.
    { symmetry. apply (Z.div_unique_pos _ _ _ (20 * bytes + 1024 - 20971520)); lia. }
    vm_compute. reflexivity.
Qed.

(* ================================================================== *)
(** * Further worked examples on the executable host *)
(* ================================================================== *)

Section MoreWorked.

Import Disk.
Import Cases.
#[local] Existing Instance Node.host.

Example hello_imported :
  POST memory not_called hello_fs epoch import_s1 empty_db
  = (Imported (JString "chat-0") "Hello, can you help me?" 2 "/home/user/myproject"
              (JString "s1"),
     hello_db).
Proof. vm_compute. reflexivity. Qed.

Example hello_imported_twice :
  POST memory not_called hello_fs epoch import_s1 hello_db
  = (AlreadyImported (JString "chat-0"), hello_db).
Proof. vm_compute. reflexivity. Qed.

Example two_projects_listed :
  listClaudeSessions two_projects_fs = Ok [newer_info; hello_info]
  /\ collect_sessions two_projects_fs = [hello_info; newer_info].
Proof. split; vm_compute; reflexivity. Qed.

Example numeric_cwd_fails :
  parseClaudeSession numeric_cwd_fs epoch "s1" = Throw TypeError
  /\ listClaudeSessions numeric_cwd_fs = Ok []
  /\ POST memory not_called numeric_cwd_fs epoch import_s1 empty_db
     = (Failed TypeError, empty_db).
Proof. repeat split; vm_compute; reflexivity. Qed.

(** A file without timestamps whose modification time makes no valid
    Date: [toISOString] throws a RangeError, which leaves
    [parseClaudeSession]; the listing passes over the file and the import
    answers 500. *)
Example invalid_mtime_fails :
  parseClaudeSession undated_fs epoch "s1" = Throw RangeError
  /\ listClaudeSessions undated_fs = Ok []
  /\ POST memory not_called undated_fs epoch import_s1 empty_db
     = (Failed RangeError, empty_db).
Proof. repeat split; vm_compute; reflexivity. Qed.

(** A session id that cannot be converted to a string: the parser gives
    not-found, and the message of the 404 answer, which converts it
    again, throws; the import answers 500. *)
Example unconvertible_session_id_fails :
  parse_requested hello_fs epoch (JObject [("toString", JNumber 1 0)]) = Ok None
  /\ POST memory not_called hello_fs epoch import_object empty_db
     = (Failed TypeError, empty_db).
Proof. split; vm_compute; reflexivity. Qed.

(** An exception of [addMessage] ends the loop of the import: the
    messages before it are stored, the session stays, and the answer is
    500. *)
Example failing_addMessage_ends_import :
  exists d,
    POST user_only not_called hello_fs epoch import_s1 empty_db = (Failed SystemError, d)
    /\ db_messages d = [(JString "chat-0", user, "Hello, can you help me?")]
    /\ List.map ms_sdk (db_sessions d) = [JString "s1"].
Proof. eexists. split; [vm_compute; reflexivity|]. split; reflexivity. Qed.

(** Whether a user event gives a message can depend on the lines before
    it: the cut of the preview throws on a text that is a number, which
    skips the rest of the line, and the preview is cut only while none
    has been found. *)
Example message_depends_on_preview :
  (exists ps,
      parseClaudeSession number_text_fs epoch "s1" = Ok (Some ps)
      /\ userMessageCount (info ps) = 1
      /\ messages ps = [])
  /\ (exists ps,
         parseClaudeSession number_text_later_fs epoch "s1" = Ok (Some ps)
         /\ userMessageCount (info ps) = 2
         /\ List.map content (messages ps) = ["hi"; "5"]).
Proof.
  split; eexists; (split; [vm_compute; reflexivity|]); split; vm_compute; reflexivity.
Qed.

(** The cut of the preview throws on that event, and [messages_in_order]
    gives for the two logs what [parseClaudeSession] gives. *)
Example cut_throws_on_number_text :
  preview_cut_throws (dq number_text_line) = true
  /\ messages_in_order epoch false 0 [dq number_text_line] = []
  /\ List.map content (messages_in_order epoch true 0 [dq number_text_line]) = ["5"].
Proof. repeat split; vm_compute; reflexivity. Qed.

(** A message that the import counts and does not store: the reply of
    [blank_reply_fs] is one space. *)
Example blank_reply_counted_not_stored :
  exists d,
    POST memory not_called blank_reply_fs epoch import_s1 empty_db
    = (Imported (JString "chat-0") "hi" 2 "/root/proj" (JString "s1"), d)
    /\ db_messages d = [(JString "chat-0", user, "hi")].
Proof. eexists. split; vm_compute; reflexivity. Qed.

Example sizes_shown :
  formatFileSize 200 = "200 B"
  /\ formatFileSize 1536 = "1.5 KB"
  /\ formatFileSize 1280 = "1.3 KB"
  /\ formatFileSize (50 * 1024 * 1024) = "50.0 MB".
Proof. repeat split; vm_compute; reflexivity. Qed.


(** ** Witnesses *)

(** Witness of X1: the tool-use example of the tests. *)
Lemma parsed_messages_well_formed_witness :
  exists ps,
    parseClaudeSession tools_fs epoch "s1" = Ok (Some ps)
    /\ Forall well_formed_message (messages ps).
Proof.
  eexists. split; [vm_compute; reflexivity|].
  apply (@parsed_messages_well_formed Node.host tools_fs epoch "s1").
  vm_compute. reflexivity.
Defined.

(** Witness of X2: two events that give no message. *)
Lemma messages_bounded_by_counts_witness :
  exists ps,
    parseClaudeSession silent_fs epoch "s1" = Ok (Some ps)
    /\ length (List.filter is_user_message (messages ps)) <= userMessageCount (info ps)
    /\ length (List.filter is_assistant_message (messages ps))
       <= assistantMessageCount (info ps)
    /\ length (messages ps) <= userMessageCount (info ps) + assistantMessageCount (info ps).
Proof.
  eexists. split; [vm_compute; reflexivity|].
  apply (@messages_bounded_by_counts Node.host silent_fs epoch "s1").
  vm_compute. reflexivity.
Defined.

(** Witness of X3: the listing entry of the end-to-end example. *)
Lemma counts_are_event_counts_witness :
  statSync hello_fs hello_path = Some small
  /\ userMessageCount hello_info
     = length (List.filter is_user_line (nonblank_lines hello_log))
  /\ assistantMessageCount hello_info
     = length (List.filter is_assistant_line (nonblank_lines hello_log))
  /\ 0 < userMessageCount hello_info + assistantMessageCount hello_info
  /\ fileSize hello_info = size small.
Proof.
  apply (proj2 (@counts_are_event_counts Node.host hello_fs hello_info)
               hello_path "/home/user/myproject" (nonblank_lines hello_log) small).
  exact hello_read_from.
Defined.

(** Witness of X4: the end-to-end example. *)
Lemma parse_info_is_listing_info_witness :
  info_outcome (parseClaudeSession hello_fs epoch "s1")
  = extractSessionInfo hello_fs hello_path "s1" "/home/user/myproject".
Proof.
  apply (@parse_info_is_listing_info Node.host hello_fs epoch "s1").
  vm_compute. reflexivity.
Defined.

(** Witness of X6: the listing entry of the end-to-end example. *)
Lemma cwd_first_wins_witness :
  (exists projectDir jsonlFile,
      hello_path = session_file_path projectDir jsonlFile
      /\ "/home/user/myproject"%string = decodeProjectPath (name projectDir))
  /\ JString (cwd hello_info)
     = match first_field "cwd" (nonblank_lines hello_log) with
       | Some v => v
       | None => JString "/home/user/myproject"
       end
  /\ projectPath hello_info = cwd hello_info
  /\ projectName hello_info = posix_basename (cwd hello_info).
Proof.
  apply (proj2 (@cwd_first_wins Node.host hello_fs hello_info)
               hello_path "/home/user/myproject" (nonblank_lines hello_log) small).
  exact hello_read_from.
Defined.

(** The second entry of the store of two projects was read from the file
    of the second project. *)
Lemma newer_read_from :
  read_from two_projects_fs newer_info
            "/root/.claude/projects/-srv-app/s2.jsonl" "/srv/app"
            (nonblank_lines newer_log) small.
Proof.
  split; [vm_compute; reflexivity|].
  right. exists epoch, "s2"%string. eexists.
  split; [vm_compute; reflexivity|].
  split; vm_compute; reflexivity.
Defined.

(** Witness of X7: a session that records its branch and version. *)
Lemma branch_and_version_first_wins_witness :
  gitBranch newer_info
  = match first_field "gitBranch" (nonblank_lines newer_log) with
    | Some v => v
    | None => JString EmptyString
    end
  /\ version newer_info
     = match first_field "version" (nonblank_lines newer_log) with
       | Some v => v
       | None => JString EmptyString
       end.
Proof.
  apply (proj2 (@branch_and_version_first_wins Node.host two_projects_fs newer_info)
               "/root/.claude/projects/-srv-app/s2.jsonl" "/srv/app"
               (nonblank_lines newer_log) small).
  exact newer_read_from.
Defined.

(** Witness of X8: the end-to-end example. *)
Lemma listed_session_is_found_witness :
  sessionId hello_info = "s1"
  /\ info_outcome (parseClaudeSession hello_fs epoch "s1") = Ok (Some hello_info).
Proof.
  apply (@listed_session_is_found Node.host hello_fs epoch
           {| name := "-home-user-myproject"; isDirectory := true |} "s1" hello_info [] []).
  - vm_compute. reflexivity.
  - vm_compute. reflexivity.
  - reflexivity.
  - vm_compute. reflexivity.
  - intros c H. vm_compute in H.
    destruct H as [<-|[<-|[]]]; discriminate.
  - unfold listed_from. split; [|split; [|split; [|split]]].
    + eexists. split; [vm_compute; reflexivity|left; reflexivity].
    + reflexivity.
    + eexists. split; [vm_compute; reflexivity|left; reflexivity].
    + vm_compute. reflexivity.
    + vm_compute. reflexivity.
Defined.

(** Witness of X9: the store of two projects. *)
Lemma listing_is_complete_witness :
  In newer_info [newer_info; hello_info]
  <-> exists projectDir jsonlFile, listed_from two_projects_fs projectDir jsonlFile newer_info.
Proof.
  apply (@listing_is_complete Node.host two_projects_fs [newer_info; hello_info] newer_info).
  - vm_compute. reflexivity.
  - vm_compute. reflexivity.
Defined.

(** Witness of X10: two projects, gathered oldest first. *)
Lemma listing_most_recent_first_witness :
  StronglySorted not_older [newer_info; hello_info]
  /\ (existsSync two_projects_fs getClaudeProjectsDir = true ->
      Permutation (collect_sessions two_projects_fs) [newer_info; hello_info]).
Proof.
  apply (@listing_most_recent_first Node.host two_projects_fs [newer_info; hello_info]).
  - vm_compute. reflexivity.
  - repeat constructor.
Defined.

(** Witness of X11: three sessions, two of them updated at the same
    time. *)
Lemma listing_keeps_order_of_ties_witness :
  (forall t,
      List.filter (updated_at t) [newer_info; hello_info; tied_info]
      = List.filter (updated_at t) (collect_sessions tied_fs))
  /\ (forall l',
         Permutation (collect_sessions tied_fs) l' ->
         StronglySorted not_older l' ->
         (forall t, List.filter (updated_at t) l'
                    = List.filter (updated_at t) (collect_sessions tied_fs)) ->
         l' = [newer_info; hello_info; tied_info]).
Proof.
  apply (@listing_keeps_order_of_ties Node.host tied_fs
           [newer_info; hello_info; tied_info]).
  - vm_compute. reflexivity.
  - repeat constructor.
  - vm_compute. reflexivity.
Defined.

(** In that store the sessions are gathered in the order s1, s2, s3; the
    listing puts s2 first and leaves s1 before s3, which was updated at
    the same time. *)
Example tie_in_gathered_order :
  collect_sessions tied_fs = [hello_info; newer_info; tied_info]
  /\ listClaudeSessions tied_fs = Ok [newer_info; hello_info; tied_info]
  /\ updated_time hello_info = updated_time tied_info
  /\ List.filter (updated_at 1768471202000) [newer_info; hello_info; tied_info]
     = [hello_info; tied_info].
Proof. repeat split; vm_compute; reflexivity. Qed.

(** Witness of X12: the same store. *)
Lemma listing_returns_on_readable_dates_witness :
  exists l, listClaudeSessions two_projects_fs = Ok l /\ GET two_projects_fs = Listed l.
Proof.
  apply (@listing_returns_on_readable_dates Node.host two_projects_fs).
  replace (collect_sessions two_projects_fs) with [hello_info; newer_info]
    by (vm_compute; reflexivity).
  repeat constructor.
Defined.

(** Witness of X13: a session that ends on an object with a member
    [toString]. *)
Lemma listing_throws_only_on_unreadable_date_witness :
  TypeError = TypeError
  /\ GET object_stamp_fs = Failed TypeError
  /\ exists d file i lines stat first rest,
       listed_from object_stamp_fs d file i
       /\ readJsonlLines object_stamp_fs (session_file_path d file) = Ok (Some (lines, stat))
       /\ in_band_timestamps lines = first :: rest
       /\ updatedAt i = last rest first
       /\ is_array_or_object (updatedAt i) = true
       /\ ToString (updatedAt i) = Throw TypeError.
Proof.
  apply (@listing_throws_only_on_unreadable_date Node.host object_stamp_fs TypeError).
  vm_compute. reflexivity.
Defined.

(** Witness of X14: a user event whose [cwd] is a number. *)
Lemma parse_throws_exactly_witness :
  parseClaudeSession numeric_cwd_fs epoch "s1" = Throw TypeError.
Proof.
  apply (proj2 (@parse_throws_exactly Node.host numeric_cwd_fs epoch "s1" TypeError)).
  exists s1_path, "/root/proj". split; [vm_compute; reflexivity|].
  right. eexists. exists small.
  split; [vm_compute; reflexivity|].
  left. split; [reflexivity|].
  eexists. split; vm_compute; reflexivity.
Defined.

(** Witness of X15: a log with an event that carries no timestamp, read
    at one time and, after an exchange was appended, at a later time. *)
Lemma appended_lines_append_messages_witness :
  exists ps ps',
    parseClaudeSession unstamped_fs epoch "s1" = Ok (Some ps)
    /\ parseClaudeSession unstamped_grown_fs later "s1" = Ok (Some ps')
    /\ (exists first ms,
           messages ps' = first ++ ms
           /\ first = v_messages (materialize later (nonblank_lines unstamped_log))
           /\ List.map untimed first = List.map untimed (messages ps)
           /\ (later = epoch \/ forallb timestamped (nonblank_lines unstamped_log) = true ->
               first = messages ps)
           /\ length ms <= length (List.filter qualifying (nonblank_lines appended_lines)))
    /\ userMessageCount (info ps) <= userMessageCount (info ps')
    /\ assistantMessageCount (info ps) <= assistantMessageCount (info ps').
Proof.
  eexists. eexists.
  split; [vm_compute; reflexivity|]. split; [vm_compute; reflexivity|].
  apply (@appended_lines_append_messages Node.host unstamped_fs unstamped_grown_fs
           epoch later "s1"
           s1_path "/root/proj" s1_path "/root/proj"
           (nonblank_lines unstamped_log) (nonblank_lines appended_lines) small small);
    vm_compute; reflexivity.
Defined.

(** In that example the message of the first reading is not among those
    of the second: its timestamp was the time of the first reading. *)
Example later_reading_restamps :
  exists ps ps',
    parseClaudeSession unstamped_fs epoch "s1" = Ok (Some ps)
    /\ parseClaudeSession unstamped_grown_fs later "s1" = Ok (Some ps')
    /\ List.map timestamp (messages ps) = [JString "1970-01-01T00:00:00.000Z"]
    /\ List.map timestamp (messages ps')
       = [JString "1970-01-01T00:00:01.000Z"; JString "2026-01-15T10:00:03.000Z"]
    /\ List.map content (messages ps') = ["hi"; "Thanks"].
Proof.
  eexists. eexists.
  split; [vm_compute; reflexivity|]. split; [vm_compute; reflexivity|].
  repeat split; vm_compute; reflexivity.
Qed.

(** Witness of X16: a session file that cannot be read. *)
Lemma listing_passes_over_failing_file_witness :
  listClaudeSessions
    (without_file unreadable_fs (path_join getClaudeProjectsDir (name root_proj)) "s1.jsonl")
  = listClaudeSessions unreadable_fs.
Proof.
  apply (@listing_passes_over_failing_file Node.host unreadable_fs root_proj "s1.jsonl").
  right. left. exists small.
  split; [vm_compute; reflexivity|]. split; [vm_compute; discriminate|].
  vm_compute. reflexivity.
Defined.

(** Witness of X17: the encoded name of the comment in the source. *)
Lemma decodeProjectPath_idempotent_witness :
  JsString.startsWith (decodeProjectPath "-root-clawd") "/" = true
  /\ has_char "-" (decodeProjectPath "-root-clawd") = false.
Proof.
  apply (proj1 (proj2 (decodeProjectPath_idempotent "-root-clawd"))). reflexivity.
Defined.

(** Witness of X18: the example of the comment in the source. *)
Lemma decodeProjectPath_inverts_encoding_witness :
  decodeProjectPath (JsString.replace_global "/" "-" "/root/clawd") = "/root/clawd".
Proof.
  apply (decodeProjectPath_inverts_encoding "/root/clawd"); reflexivity.
Defined.

(** Witness of X19: a file with blank lines before and between its two
    events. *)
Lemma readJsonlLines_lines_witness :
  statSync spaced_fs s1_path = Some small
  /\ (size small <= MAX_FILE_SIZE)%Z
  /\ exists content,
       readFileSync spaced_fs s1_path = Some content
       /\ Forall (fun l => has_char JsString.LF l = false
                           /\ JsString.nonEmpty (JsString.trim l) = true)
                 (nonblank_lines spaced_content)
       /\ (exists pieces,
              pieces <> []
              /\ Forall (fun p => has_char JsString.LF p = false) pieces
              /\ JsString.join (String JsString.LF EmptyString) pieces = content)
       /\ (forall pieces,
              pieces <> [] ->
              Forall (fun p => has_char JsString.LF p = false) pieces ->
              JsString.join (String JsString.LF EmptyString) pieces = content ->
              nonblank_lines spaced_content = List.filter not_blank pieces)
       /\ (length (nonblank_lines spaced_content)
           = length (JsString.split JsString.LF content) ->
           JsString.join (String JsString.LF EmptyString) (nonblank_lines spaced_content)
           = content).
Proof.
  apply (readJsonlLines_lines spaced_fs s1_path (nonblank_lines spaced_content) small).
  vm_compute. reflexivity.
Defined.

(** The lines of that file are its two events. *)
Example spaced_lines :
  readJsonlLines spaced_fs s1_path
  = Ok (Some ([ dq "{'type':'user','message':{'content':'one'}}"
              ; dq "{'type':'user','message':{'content':'two'}}" ], small))
  /\ JsString.split JsString.LF spaced_content
     = [ EmptyString
       ; dq "{'type':'user','message':{'content':'one'}}"
       ; String " " (String "009" EmptyString)
       ; EmptyString
       ; dq "{'type':'user','message':{'content':'two'}}" ].
Proof. split; vm_compute; reflexivity. Qed.

(** Witness of X20: the end-to-end example. *)
Lemma import_title_not_blank_witness :
  exists ps,
    parseClaudeSession hello_fs epoch "s1" = Ok (Some ps)
    /\ not_blank (import_title ps) = true
    /\ match List.find is_user_message (messages ps) with
       | Some m =>
           String.length (import_title ps) <= 53
           /\ (String.length (content m) <= 50 -> import_title ps = content m)
       | None => import_title ps = ("Imported: " ++ projectName (info ps))%string
       end.
Proof.
  eexists. split; [vm_compute; reflexivity|].
  apply (@import_title_not_blank Node.host hello_fs epoch "s1").
  vm_compute. reflexivity.
Defined.

(** Witness of X21: the import of the end-to-end example. *)
Lemma import_keeps_user_messages_witness :
  exists sid ps rows d1 session d2 d3,
    ToString (JString "s1") = Ok sid
    /\ parseClaudeSession hello_fs epoch sid = Ok (Some ps)
    /\ getAllSessions memory empty_db = (Ok rows, d1)
    /\ createSession memory "Hello, can you help me?" (working_directory (info ps)) d1
       = (Ok session, d2)
    /\ JString "chat-0" = session_id memory session
    /\ updateSdkSessionId memory (JString "chat-0") (JString "s1") d2 = (Ok tt, d3)
    /\ add_all memory (JString "chat-0") (stored_calls not_called (messages ps)) d3
       = (Ok tt, hello_db)
    /\ List.filter is_user_call (stored_calls not_called (messages ps))
       = List.map (fun m => (user, content m))
                  (List.filter is_user_message (messages ps)).
Proof.
  apply (@import_keeps_user_messages Node.host _ _ memory not_called hello_fs epoch
           import_s1 empty_db (JString "chat-0") "Hello, can you help me?" 2
           "/home/user/myproject" (JString "s1") hello_db).
  vm_compute. reflexivity.
Defined.

(** Witness of X22: the second import of the end-to-end example. *)
Lemma import_rejections_write_nothing_witness :
  (AlreadyImported (JString "chat-0") = SessionIdRequired -> hello_db = hello_db)
  /\ ((status (AlreadyImported (JString "chat-0")) = 409
       \/ status (AlreadyImported (JString "chat-0")) = 404
       \/ AlreadyImported (JString "chat-0") = NoMessages)%Z ->
      hello_db = snd (getAllSessions memory hello_db))
  /\ (forall id title messageCount path sdkSessionId,
         AlreadyImported (JString "chat-0")
         = Imported id title messageCount path sdkSessionId -> 0 < messageCount)
  /\ (status (AlreadyImported (JString "chat-0")) = 201
      \/ status (AlreadyImported (JString "chat-0")) = 400
      \/ status (AlreadyImported (JString "chat-0")) = 404
      \/ status (AlreadyImported (JString "chat-0")) = 409
      \/ status (AlreadyImported (JString "chat-0")) = 500)%Z.
Proof.
  apply (@import_rejections_write_nothing Node.host _ _ memory not_called hello_fs epoch
           import_s1 hello_db (AlreadyImported (JString "chat-0")) hello_db).
  vm_compute. reflexivity.
Defined.

(** Witness of X23: the import of the end-to-end example. *)
Lemma import_created_witness :
  exists sid ps rows d1 session d2,
    ToString (JString "s1") = Ok sid
    /\ parseClaudeSession hello_fs epoch sid = Ok (Some ps)
    /\ getAllSessions memory empty_db = (Ok rows, d1)
    /\ List.find (fun s => sdk_session_id_is memory s (JString "s1")) rows = None
    /\ createSession memory (import_title ps) (cwd (info ps)) d1 = (Ok session, d2)
    /\ JString "chat-0" = session_id memory session
    /\ "Hello, can you help me?" = import_title ps
    /\ "/home/user/myproject" = cwd (info ps)
    /\ 2 = length (messages ps)
    /\ 0 < 2 <= userMessageCount (info ps) + assistantMessageCount (info ps).
Proof.
  apply (@import_created Node.host _ _ memory not_called hello_fs epoch import_s1 empty_db
           (JString "chat-0") "Hello, can you help me?" 2 "/home/user/myproject"
           (JString "s1") hello_db).
  vm_compute. reflexivity.
Defined.

(** Witness of X24: the import of a session whose file cannot be read. *)
Lemma import_of_unreadable_session_fails_witness :
  POST memory not_called unreadable_fs epoch import_s1 empty_db
  = (Failed SystemError, empty_db).
Proof.
  apply (@import_of_unreadable_session_fails Node.host _ _ memory not_called
           unreadable_fs epoch import_s1 empty_db
           (JObject [("sessionId", JString "s1")]) "s1" [] empty_db s1_path "/root/proj").
  - vm_compute. reflexivity.
  - reflexivity.
  - discriminate.
  - reflexivity.
  - reflexivity.
  - vm_compute. reflexivity.
  - right. exists small.
    split; [vm_compute; reflexivity|]. split; [vm_compute; discriminate|].
    vm_compute. reflexivity.
Defined.

(** Witness of X25: a file of one and a half KB. *)
Lemma formatFileSize_rounds_to_tenths_witness :
  (exists n unit scale,
      formatFileSize 1536
      = (Node.natural_string (n / 10) ++ "."
           ++ String (Node.digit_char (n mod 10)) EmptyString ++ unit)%string
      /\ ((1536 < 1024 * 1024 /\ unit = " KB" /\ scale = 1024)
          \/ (1024 * 1024 <= 1536 /\ unit = " MB" /\ scale = 1024 * 1024))
      /\ 10 <= n
      /\ Z.abs (scale * n - 10 * 1536) * 2 <= scale)%Z
  /\ ((1048525 <= 1536 < 1048576)%Z -> formatFileSize 1536 = "1024.0 KB").
Proof.
  apply (formatFileSize_rounds_to_tenths 1536). lia.
Defined.

End MoreWorked.
